(** * Car dealership manager: store, entity mutators and reporting core

    A shallow embedding of the server handlers
    ([handlers/vehicles.ts], [handlers/vendors.ts], [handlers/expenses.ts],
    the transaction, report and dashboard handlers and the table schema).

    Conventions of the embedding:
    - a [numeric(10,2)] column, and the JavaScript number read back from it
      with [parseFloat], is an exact amount in cents ([Money] = [Z]); a
      statement that writes an amount or an integer rejects a value that
      its column cannot hold ([numeric_10_2], [int4]);
    - an id that a query compares with an id column is taken within [int4];
      the database rejects any other before it reads a row, and the
      properties that quantify over such an id say so;
    - a [timestamp] column and a JavaScript [Date] are milliseconds since the
      epoch ([Timestamp] = [Z]); the wall clock ([new Date()], SQL [NOW()])
      is the explicit parameter [now] of a handler, and calendar months are
      those of the Gregorian calendar at UTC;
    - a table is the list of its rows in insertion order; a query is the
      list computation that SQL prescribes (join, then [where], then
      [groupBy], then the selected columns); a query without [orderBy]
      returns its rows in an order that the database chooses, the model
      lists them by first appearance, and the properties speak of such a
      result up to the order of its rows; primary keys and references of the
      schema are checked by the statements that write;
    - a handler that writes is a function from the store to a result and the
      store it leaves behind; an exception keeps the writes made before it. *)

From Stdlib Require Import ZArith List String Ascii Bool Lia DecimalString QArith.
From Stdlib Require Import Sorted Permutation Btauto.
Import ListNotations.
Local Open Scope string_scope.
Local Open Scope list_scope.
Local Open Scope Z_scope.

(** ** Enumerations of the schema *)

Inductive VehicleStatus : Type :=
| acquired | reconditioning | listed | sold | archived.

Inductive ExpenseType : Type :=
| et_acquisition | et_reconditioning | et_marketing | et_transport
| et_storage | et_inspection | et_repairs | et_detailing | et_other.

Inductive TransactionType : Type :=
| tt_expense | tt_sale | tt_refund.

Definition VehicleStatus_eqb (a b : VehicleStatus) : bool :=
  match a, b with
  | acquired, acquired | reconditioning, reconditioning | listed, listed
  | sold, sold | archived, archived => true
  | _, _ => false
  end.

Definition ExpenseType_eqb (a b : ExpenseType) : bool :=
  match a, b with
  | et_acquisition, et_acquisition | et_reconditioning, et_reconditioning
  | et_marketing, et_marketing | et_transport, et_transport
  | et_storage, et_storage | et_inspection, et_inspection
  | et_repairs, et_repairs | et_detailing, et_detailing
  | et_other, et_other => true
  | _, _ => false
  end.

Definition TransactionType_eqb (a b : TransactionType) : bool :=
  match a, b with
  | tt_expense, tt_expense | tt_sale, tt_sale | tt_refund, tt_refund => true
  | _, _ => false
  end.

(** The text of an enumeration value, as the database returns it. *)
Definition VehicleStatus_text (s : VehicleStatus) : string :=
  match s with
  | acquired => "acquired" | reconditioning => "reconditioning"
  | listed => "listed" | sold => "sold" | archived => "archived"
  end.

Definition ExpenseType_text (t : ExpenseType) : string :=
  match t with
  | et_acquisition => "acquisition" | et_reconditioning => "reconditioning"
  | et_marketing => "marketing" | et_transport => "transport"
  | et_storage => "storage" | et_inspection => "inspection"
  | et_repairs => "repairs" | et_detailing => "detailing"
  | et_other => "other"
  end.

(** ** Rows *)

Definition Money : Type := Z.
Definition Timestamp : Type := Z.

Module Vehicle.
Record t : Type := mk {
  id : Z;
  vin : string;
  make : string;
  model : string;
  year : Z;
  color : string;
  mileage : Z;
  status : VehicleStatus;
  acquisition_date : Timestamp;
  acquisition_cost : Money;
  listing_price : option Money;
  sale_price : option Money;
  sale_date : option Timestamp;
  notes : option string;
  created_at : Timestamp;
  updated_at : Timestamp
}.
End Vehicle.

Module Vendor.
Record t : Type := mk {
  id : Z;
  name : string;
  contact_info : option string;
  created_at : Timestamp
}.
End Vendor.

Module Expense.
Record t : Type := mk {
  id : Z;
  vehicle_id : Z;
  vendor_id : option Z;
  amount : Money;
  expense_type : ExpenseType;
  description : string;
  expense_date : Timestamp;
  created_at : Timestamp
}.
End Expense.

Module Transaction.
Record t : Type := mk {
  id : Z;
  vehicle_id : Z;
  type : TransactionType;
  amount : Money;
  description : string;
  transaction_date : Timestamp;
  created_at : Timestamp
}.
End Transaction.

(** ** Handler inputs (the zod schemas)

    A field declared [.optional()] is an [option] ([None] is [undefined]);
    a field declared [.nullable().optional()] is an [option (option _)]
    ([Some None] is [null]). *)

Record GetByIdInput : Type := { gbi_id : Z }.

Module CreateExpenseInput.
Record t : Type := mk {
  vehicle_id : Z;
  vendor_id : option (option Z);
  amount : Money;
  expense_type : ExpenseType;
  description : string;
  expense_date : option Timestamp
}.
End CreateExpenseInput.

Module UpdateExpenseInput.
Record t : Type := mk {
  id : Z;
  vendor_id : option (option Z);
  amount : option Money;
  expense_type : option ExpenseType;
  description : option string;
  expense_date : option Timestamp
}.
End UpdateExpenseInput.

Module CreateTransactionInput.
Record t : Type := mk {
  vehicle_id : Z;
  type : TransactionType;
  amount : Money;
  description : string;
  transaction_date : option Timestamp
}.
End CreateTransactionInput.

Module FinancialReportFilters.
Record t : Type := mk {
  start_date : option Timestamp;
  end_date : option Timestamp;
  status : option VehicleStatus;
  make : option string;
  model : option string
}.
End FinancialReportFilters.

(** ** Derived records *)

Module ProfitLoss.
Record t : Type := mk {
  vehicle_id : Z;
  acquisition_cost : Money;
  total_expenses : Money;
  total_cost : Money;
  sale_price : option Money;
  profit_loss : option Money;
  is_sold : bool
}.
End ProfitLoss.

Module InventoryAging.
Record t : Type := mk {
  vehicle_id : Z;
  vin : string;
  make : string;
  model : string;
  year : Z;
  status : VehicleStatus;
  acquisition_date : Timestamp;
  days_in_inventory : Z;
  total_cost : Money
}.
End InventoryAging.

Module ExpenseBreakdown.
Record t : Type := mk {
  expense_type : ExpenseType;
  total_amount : Money;
  count : Z
}.
End ExpenseBreakdown.

Module DashboardKpi.
Record t : Type := mk {
  total_inventory : Z;
  total_inventory_value : Money;
  vehicles_in_reconditioning : Z;
  vehicles_listed : Z;
  vehicles_sold_this_month : Z;
  total_profit_this_month : Money;
  avg_days_to_sale : option Q
}.
End DashboardKpi.

Record SuccessFlag : Type := { success : bool }.

(** ** JavaScript values *)

(** Truthiness of a number, of a string and of an optional value. *)
Definition truthy_number (n : Z) : bool := negb (n =? 0).
Definition truthy_string (s : string) : bool :=
  match s with
  | EmptyString => false
  | String _ _ => true
  end.

Definition truthy_opt {A : Type} (truthy : A -> bool) (o : option A) : bool :=
  match o with
  | Some a => truthy a
  | None => false
  end.

(** Text of an integer, as a template literal or [join] prints it. *)
Definition show_int (n : Z) : string := NilZero.string_of_int (Z.to_int n).

Definition two_digits (n : Z) : string :=
  if n <? 10 then String.append "0" (show_int n) else show_int n.

(** [x.toFixed(2)] for an amount [x] held in cents. A JavaScript
    difference that comes out a rounding error below zero is printed with
    a minus sign before the zeros; in cents the difference is 0. *)
Definition toFixed2 (cents : Money) : string :=
  let sign := if cents <? 0 then "-" else EmptyString in
  let units := show_int (Z.abs cents / 100) in
  let hundredths := two_digits (Z.abs cents mod 100) in
  (sign ++ units ++ "." ++ hundredths)%string.

(** [parts.join(',')] *)
Fixpoint join_comma (parts : list string) : string :=
  match parts with
  | [] => EmptyString
  | [p] => p
  | p :: rest => (p ++ "," ++ join_comma rest)%string
  end.

Definition dquote : string := String (ascii_of_nat 34) EmptyString.

(** A template literal that wraps a text in double quotes. *)
Definition quoted (s : string) : string := (dquote ++ s ++ dquote)%string.

(** The number held by a [.nullable().optional()] id when the value is
    truthy: [undefined], [null] and [0] are falsy. *)
Definition truthy_id (o : option (option Z)) : option Z :=
  match o with
  | Some (Some n) => if truthy_number n then Some n else None
  | _ => None
  end.

(** ** The store *)

Record Store : Type := mkStore {
  vehiclesTable : list Vehicle.t;
  vendorsTable : list Vendor.t;
  expensesTable : list Expense.t;
  transactionsTable : list Transaction.t;
  expenses_id_seq : Z;
  transactions_id_seq : Z
}.

Definition with_vehicles (st : Store) (rows : list Vehicle.t) : Store :=
  mkStore rows (vendorsTable st) (expensesTable st) (transactionsTable st)
          (expenses_id_seq st) (transactions_id_seq st).

Definition with_vendors (st : Store) (rows : list Vendor.t) : Store :=
  mkStore (vehiclesTable st) rows (expensesTable st) (transactionsTable st)
          (expenses_id_seq st) (transactions_id_seq st).

Definition with_expenses (st : Store) (rows : list Expense.t) : Store :=
  mkStore (vehiclesTable st) (vendorsTable st) rows (transactionsTable st)
          (expenses_id_seq st) (transactions_id_seq st).

Definition with_transactions (st : Store) (rows : list Transaction.t) : Store :=
  mkStore (vehiclesTable st) (vendorsTable st) (expensesTable st) rows
          (expenses_id_seq st) (transactions_id_seq st).

(** ** Failures and the handler monad

    Every handler throws a plain [Error] with a message; the constructor
    records which kind of failure the message reports: a missing row, a
    refused deletion, or a failure raised by the database or its driver. *)

Inductive Error : Type :=
| NotFound (message : string)
| Conflict (message : string)
| StoreError (message : string).

Definition M (A : Type) : Type := Store -> (Error + A) * Store.

Definition ret {A : Type} (a : A) : M A := fun st => (inr a, st).

Definition throw {A : Type} (e : Error) : M A := fun st => (inl e, st).

Definition bind {A B : Type} (m : M A) (k : A -> M B) : M B :=
  fun st =>
    match m st with
    | (inl e, st') => (inl e, st')
    | (inr a, st') => k a st'
    end.

Notation "x <- m ;; k" := (bind m (fun x => k))
  (at level 61, m at next level, right associativity).
Notation "m ;;; k" := (bind m (fun _ => k))
  (at level 61, right associativity).

Definition is_empty {A : Type} (l : list A) : bool :=
  match l with
  | [] => true
  | _ :: _ => false
  end.

(** [rows[0]] followed by a field access, which throws on [undefined]. *)
Definition first_row {A : Type} (rows : list A) : M A :=
  match rows with
  | r :: _ => ret r
  | [] => throw (StoreError "Cannot read properties of undefined")
  end.

(** ** Column types of the schema *)

(** An [integer] or [serial] column holds 32 bits. *)
Definition int4 (n : Z) : bool :=
  (-2147483648 <=? n) && (n <=? 2147483647).

(** A [numeric(10, 2)] column holds ten digits, two of them after the
    point: in cents, less than 10^10 in absolute value. *)
Definition numeric_10_2 (cents : Money) : bool :=
  Z.abs cents <? 10000000000.

(** A nullable or absent value fits every column. *)
Definition fits {A : Type} (column : A -> bool) (value : option A) : bool :=
  match value with
  | Some a => column a
  | None => true
  end.

Definition integer_out_of_range : Error :=
  StoreError "value is out of range for type integer".

Definition numeric_overflow : Error :=
  StoreError "numeric field overflow".

(** ** Statements of the query builder *)

(** [db.select().from(table).where(cond).execute()]; a condition on an id
    column is read for an id within [int4]. *)
Definition select_from {R : Type} (table : Store -> list R) (cond : R -> bool)
  : M (list R) :=
  fun st => (inr (filter cond (table st)), st).

Definition vehicle_exists (st : Store) (id : Z) : bool :=
  existsb (fun v => Vehicle.id v =? id) (vehiclesTable st).

Definition vendor_exists (st : Store) (id : Z) : bool :=
  existsb (fun v => Vendor.id v =? id) (vendorsTable st).

Definition vendor_ref_ok (st : Store) (vendor_id : option Z) : bool :=
  match vendor_id with
  | Some n => vendor_exists st n
  | None => true
  end.

Definition fk_violation : Error :=
  StoreError "violates foreign key constraint".

Definition pk_violation : Error :=
  StoreError "duplicate key value violates unique constraint".

(** A statement that fails on a constraint has drawn its id from the
    serial sequence all the same. *)
Definition expense_id_drawn (st : Store) : Store :=
  mkStore (vehiclesTable st) (vendorsTable st) (expensesTable st)
          (transactionsTable st) (expenses_id_seq st + 1)
          (transactions_id_seq st).

Definition transaction_id_drawn (st : Store) : Store :=
  mkStore (vehiclesTable st) (vendorsTable st) (expensesTable st)
          (transactionsTable st) (expenses_id_seq st)
          (transactions_id_seq st + 1).

(** [db.insert(expensesTable).values(..).returning().execute()]: the
    values must fit their columns; then the id comes from the serial
    sequence, [created_at] defaults to the clock, and the row must satisfy
    the primary key and the two references. *)
Definition insert_expense (now : Timestamp) (vehicle_id : Z)
  (vendor_id : option Z) (amount : Money) (expense_type : ExpenseType)
  (description : string) (expense_date : Timestamp) : M (list Expense.t) :=
  fun st =>
    let row := Expense.mk (expenses_id_seq st) vehicle_id vendor_id amount
                          expense_type description expense_date now in
    if negb (int4 vehicle_id && fits int4 vendor_id)
    then (inl integer_out_of_range, st)
    else if negb (numeric_10_2 amount)
    then (inl numeric_overflow, st)
    else if existsb (fun e => Expense.id e =? Expense.id row) (expensesTable st)
    then (inl pk_violation, expense_id_drawn st)
    else if negb (vehicle_exists st vehicle_id && vendor_ref_ok st vendor_id)
    then (inl fk_violation, expense_id_drawn st)
    else (inr [row],
          mkStore (vehiclesTable st) (vendorsTable st)
                  (expensesTable st ++ [row]) (transactionsTable st)
                  (expenses_id_seq st + 1) (transactions_id_seq st)).

(** [db.insert(transactionsTable).values(..).returning().execute()] *)
Definition insert_transaction (now : Timestamp) (vehicle_id : Z)
  (type : TransactionType) (amount : Money) (description : string)
  (transaction_date : Timestamp) : M (list Transaction.t) :=
  fun st =>
    let row := Transaction.mk (transactions_id_seq st) vehicle_id type amount
                              description transaction_date now in
    if negb (int4 vehicle_id)
    then (inl integer_out_of_range, st)
    else if negb (numeric_10_2 amount)
    then (inl numeric_overflow, st)
    else if existsb (fun t => Transaction.id t =? Transaction.id row)
                    (transactionsTable st)
    then (inl pk_violation, transaction_id_drawn st)
    else if negb (vehicle_exists st vehicle_id)
    then (inl fk_violation, transaction_id_drawn st)
    else (inr [row],
          mkStore (vehiclesTable st) (vendorsTable st) (expensesTable st)
                  (transactionsTable st ++ [row])
                  (expenses_id_seq st) (transactions_id_seq st + 1)).

(** [db.update(vehiclesTable).set(..).where(cond).execute()], for an
    assignment [set] that leaves the id alone. *)
Definition update_vehicles (set : Vehicle.t -> Vehicle.t)
  (cond : Vehicle.t -> bool) : M unit :=
  fun st =>
    (inr tt,
     with_vehicles st
       (map (fun v => if cond v then set v else v) (vehiclesTable st))).

(** The assignment built by [updateExpense]: a column is present when its
    value is not [undefined]. *)
Record ExpenseUpdateValues : Type := {
  uv_vendor_id : option (option Z);
  uv_amount : option Money;
  uv_expense_type : option ExpenseType;
  uv_description : option string;
  uv_expense_date : option Timestamp
}.

Definition no_values (uv : ExpenseUpdateValues) : bool :=
  match uv_vendor_id uv, uv_amount uv, uv_expense_type uv,
        uv_description uv, uv_expense_date uv with
  | None, None, None, None, None => true
  | _, _, _, _, _ => false
  end.

Definition assigned {A : Type} (o : option A) (old : A) : A :=
  match o with
  | Some a => a
  | None => old
  end.

Definition apply_expense_update (uv : ExpenseUpdateValues) (e : Expense.t)
  : Expense.t :=
  Expense.mk (Expense.id e) (Expense.vehicle_id e)
             (assigned (uv_vendor_id uv) (Expense.vendor_id e))
             (assigned (uv_amount uv) (Expense.amount e))
             (assigned (uv_expense_type uv) (Expense.expense_type e))
             (assigned (uv_description uv) (Expense.description e))
             (assigned (uv_expense_date uv) (Expense.expense_date e))
             (Expense.created_at e).

(** [db.update(expensesTable).set(uv).where(cond).returning().execute()]:
    the builder rejects an empty assignment, the values must fit their
    columns, and a changed row must still reference an existing vendor. *)
Definition update_expenses (uv : ExpenseUpdateValues)
  (cond : Expense.t -> bool) : M (list Expense.t) :=
  fun st =>
    if no_values uv then (inl (StoreError "No values to set"), st)
    else if negb (fits (fits int4) (uv_vendor_id uv))
    then (inl integer_out_of_range, st)
    else if negb (fits numeric_10_2 (uv_amount uv))
    then (inl numeric_overflow, st)
    else
      let changed := map (apply_expense_update uv)
                         (filter cond (expensesTable st)) in
      if forallb (fun e => vendor_ref_ok st (Expense.vendor_id e)) changed
      then (inr changed,
            with_expenses st
              (map (fun e => if cond e then apply_expense_update uv e else e)
                   (expensesTable st)))
      else (inl fk_violation, st).

(** [db.delete(expensesTable).where(cond).returning(..).execute()] *)
Definition delete_expenses (cond : Expense.t -> bool) : M (list Expense.t) :=
  fun st =>
    (inr (filter cond (expensesTable st)),
     with_expenses st (filter (fun e => negb (cond e)) (expensesTable st))).

(** [db.delete(transactionsTable).where(cond).execute()] *)
Definition delete_transactions (cond : Transaction.t -> bool) : M unit :=
  fun st =>
    (inr tt,
     with_transactions st
       (filter (fun t => negb (cond t)) (transactionsTable st))).

(** [db.delete(vehiclesTable).where(cond).execute()]: refused while an
    expense or a transaction references a row to delete. *)
Definition delete_vehicles (cond : Vehicle.t -> bool) : M unit :=
  fun st =>
    let gone := filter cond (vehiclesTable st) in
    let referenced (v : Vehicle.t) :=
      existsb (fun e => Expense.vehicle_id e =? Vehicle.id v) (expensesTable st)
      || existsb (fun t => Transaction.vehicle_id t =? Vehicle.id v)
                 (transactionsTable st) in
    if existsb referenced gone then (inl fk_violation, st)
    else (inr tt,
          with_vehicles st (filter (fun v => negb (cond v)) (vehiclesTable st))).

(** [db.delete(vendorsTable).where(cond).execute()]: refused while an
    expense references a row to delete. *)
Definition delete_vendors (cond : Vendor.t -> bool) : M unit :=
  fun st =>
    let gone := filter cond (vendorsTable st) in
    let referenced (v : Vendor.t) :=
      existsb (fun e => match Expense.vendor_id e with
                        | Some n => n =? Vendor.id v
                        | None => false
                        end) (expensesTable st) in
    if existsb referenced gone then (inl fk_violation, st)
    else (inr tt,
          with_vendors st (filter (fun v => negb (cond v)) (vendorsTable st))).

(** ** Expense handlers ([handlers/expenses.ts]) *)

Definition createExpense (now : Timestamp) (input : CreateExpenseInput.t)
  : M Expense.t :=
  vehicle <- select_from vehiclesTable
               (fun v => Vehicle.id v =? CreateExpenseInput.vehicle_id input) ;;
  if is_empty vehicle then throw (NotFound "Vehicle not found")
  else
    match truthy_id (CreateExpenseInput.vendor_id input) with
    | Some vendor_id =>
        vendor <- select_from vendorsTable
                    (fun v => Vendor.id v =? vendor_id) ;;
        if is_empty vendor then throw (NotFound "Vendor not found")
        else ret tt
    | None => ret tt
    end ;;;
    result <- insert_expense now
                (CreateExpenseInput.vehicle_id input)
                (truthy_id (CreateExpenseInput.vendor_id input))
                (CreateExpenseInput.amount input)
                (CreateExpenseInput.expense_type input)
                (CreateExpenseInput.description input)
                (match CreateExpenseInput.expense_date input with
                 | Some d => d
                 | None => now
                 end) ;;
    first_row result.

Definition updateExpense (input : UpdateExpenseInput.t) : M Expense.t :=
  existingExpense <- select_from expensesTable
                       (fun e => Expense.id e =? UpdateExpenseInput.id input) ;;
  if is_empty existingExpense then throw (NotFound "Expense not found")
  else
    match truthy_id (UpdateExpenseInput.vendor_id input) with
    | Some vendor_id =>
        vendor <- select_from vendorsTable
                    (fun v => Vendor.id v =? vendor_id) ;;
        if is_empty vendor then throw (NotFound "Vendor not found")
        else ret tt
    | None => ret tt
    end ;;;
    let updateValues :=
      {| uv_vendor_id := UpdateExpenseInput.vendor_id input;
         uv_amount := UpdateExpenseInput.amount input;
         uv_expense_type := UpdateExpenseInput.expense_type input;
         uv_description := UpdateExpenseInput.description input;
         uv_expense_date := UpdateExpenseInput.expense_date input |} in
    result <- update_expenses updateValues
                (fun e => Expense.id e =? UpdateExpenseInput.id input) ;;
    first_row result.

Definition getExpenseById (input : GetByIdInput) : M (option Expense.t) :=
  results <- select_from expensesTable
               (fun e => Expense.id e =? gbi_id input) ;;
  match results with
  | [] => ret None
  | expense :: _ => ret (Some expense)
  end.

Definition deleteExpense (input : GetByIdInput) : M SuccessFlag :=
  result <- delete_expenses (fun e => Expense.id e =? gbi_id input) ;;
  ret {| success := negb (is_empty result) |}.

(** ** Transaction handlers *)

Definition mark_sold (amount : Money) (sale_date now : Timestamp)
  (v : Vehicle.t) : Vehicle.t :=
  Vehicle.mk (Vehicle.id v) (Vehicle.vin v) (Vehicle.make v) (Vehicle.model v)
             (Vehicle.year v) (Vehicle.color v) (Vehicle.mileage v)
             sold
             (Vehicle.acquisition_date v) (Vehicle.acquisition_cost v)
             (Vehicle.listing_price v)
             (Some amount) (Some sale_date)
             (Vehicle.notes v) (Vehicle.created_at v) now.

Definition revert_to_listed (now : Timestamp) (v : Vehicle.t) : Vehicle.t :=
  Vehicle.mk (Vehicle.id v) (Vehicle.vin v) (Vehicle.make v) (Vehicle.model v)
             (Vehicle.year v) (Vehicle.color v) (Vehicle.mileage v)
             listed
             (Vehicle.acquisition_date v) (Vehicle.acquisition_cost v)
             (Vehicle.listing_price v)
             None None
             (Vehicle.notes v) (Vehicle.created_at v) now.

Definition createTransaction (now : Timestamp)
  (input : CreateTransactionInput.t) : M Transaction.t :=
  existingVehicle <- select_from vehiclesTable
                       (fun v => Vehicle.id v
                                 =? CreateTransactionInput.vehicle_id input) ;;
  if is_empty existingVehicle
  then throw (NotFound
                ("Vehicle with ID "
                 ++ show_int (CreateTransactionInput.vehicle_id input)
                 ++ " not found")%string)
  else
    result <- insert_transaction now
                (CreateTransactionInput.vehicle_id input)
                (CreateTransactionInput.type input)
                (CreateTransactionInput.amount input)
                (CreateTransactionInput.description input)
                (match CreateTransactionInput.transaction_date input with
                 | Some d => d
                 | None => now
                 end) ;;
    transaction <- first_row result ;;
    (if TransactionType_eqb (CreateTransactionInput.type input) tt_sale
     then update_vehicles
            (mark_sold (CreateTransactionInput.amount input)
                       (Transaction.transaction_date transaction) now)
            (fun v => Vehicle.id v =? CreateTransactionInput.vehicle_id input)
     else ret tt) ;;;
    ret transaction.

Definition getTransactionById (input : GetByIdInput)
  : M (option Transaction.t) :=
  results <- select_from transactionsTable
               (fun t => Transaction.id t =? gbi_id input) ;;
  match results with
  | [] => ret None
  | transaction :: _ => ret (Some transaction)
  end.

Definition deleteTransaction (now : Timestamp) (input : GetByIdInput)
  : M SuccessFlag :=
  existingTransaction <- select_from transactionsTable
                           (fun t => Transaction.id t =? gbi_id input) ;;
  match existingTransaction with
  | [] => throw (NotFound
                   ("Transaction with ID " ++ show_int (gbi_id input)
                    ++ " not found")%string)
  | transaction :: _ =>
      (if TransactionType_eqb (Transaction.type transaction) tt_sale
       then update_vehicles (revert_to_listed now)
              (fun v => Vehicle.id v =? Transaction.vehicle_id transaction)
       else ret tt) ;;;
      delete_transactions (fun t => Transaction.id t =? gbi_id input) ;;;
      ret {| success := true |}
  end.

(** ** Vehicle handlers ([handlers/vehicles.ts]) *)

Definition getVehicleById (input : GetByIdInput) : M (option Vehicle.t) :=
  results <- select_from vehiclesTable
               (fun v => Vehicle.id v =? gbi_id input) ;;
  match results with
  | [] => ret None
  | vehicle :: _ => ret (Some vehicle)
  end.

Definition deleteVehicle (input : GetByIdInput) : M SuccessFlag :=
  existingVehicle <- select_from vehiclesTable
                       (fun v => Vehicle.id v =? gbi_id input) ;;
  if is_empty existingVehicle
  then throw (NotFound
                ("Vehicle with id " ++ show_int (gbi_id input)
                 ++ " not found")%string)
  else
    delete_expenses (fun e => Expense.vehicle_id e =? gbi_id input) ;;;
    delete_transactions (fun t => Transaction.vehicle_id t =? gbi_id input) ;;;
    delete_vehicles (fun v => Vehicle.id v =? gbi_id input) ;;;
    ret {| success := true |}.

(** ** Vendor handlers ([handlers/vendors.ts]) *)

Definition getVendorById (input : GetByIdInput) : M (option Vendor.t) :=
  result <- select_from vendorsTable
              (fun v => Vendor.id v =? gbi_id input) ;;
  match result with
  | [] => ret None
  | vendor :: _ => ret (Some vendor)
  end.

(** The SQL row count of the expenses that reference a vendor. *)
Definition count_expenses_of_vendor (id : Z) : M Z :=
  fun st =>
    (inr (Z.of_nat
            (List.length (filter (fun e => match Expense.vendor_id e with
                                      | Some n => n =? id
                                      | None => false
                                      end) (expensesTable st)))),
     st).

Definition deleteVendor (input : GetByIdInput) : M SuccessFlag :=
  existing <- select_from vendorsTable
                (fun v => Vendor.id v =? gbi_id input) ;;
  if is_empty existing
  then throw (NotFound
                ("Vendor with id " ++ show_int (gbi_id input)
                 ++ " not found")%string)
  else
    expenseCount <- count_expenses_of_vendor (gbi_id input) ;;
    if expenseCount >? 0
    then throw (Conflict
                  ("Cannot delete vendor with id " ++ show_int (gbi_id input)
                   ++ " because it has associated expenses")%string)
    else
      delete_vendors (fun v => Vendor.id v =? gbi_id input) ;;;
      ret {| success := true |}.

(** ** Relational operators of the query builder *)

(** Boolean equality of column values, used for grouping keys. *)
Class Eqb (A : Type) : Type := { eqb : A -> A -> bool }.

#[export] Instance Eqb_Z : Eqb Z := {| eqb := Z.eqb |}.

#[export] Instance Eqb_string : Eqb string := {| eqb := String.eqb |}.

#[export] Instance Eqb_VehicleStatus : Eqb VehicleStatus :=
  {| eqb := VehicleStatus_eqb |}.

#[export] Instance Eqb_ExpenseType : Eqb ExpenseType :=
  {| eqb := ExpenseType_eqb |}.

Definition option_eqb {A : Type} `{Eqb A} (x y : option A) : bool :=
  match x, y with
  | Some a, Some b => eqb a b
  | None, None => true
  | _, _ => false
  end.

#[export] Instance Eqb_option {A : Type} `{Eqb A} : Eqb (option A) :=
  {| eqb := option_eqb |}.

Definition prod_eqb {A B : Type} `{Eqb A} `{Eqb B} (x y : A * B) : bool :=
  eqb (fst x) (fst y) && eqb (snd x) (snd y).

#[export] Instance Eqb_prod {A B : Type} `{Eqb A} `{Eqb B} : Eqb (A * B) :=
  {| eqb := prod_eqb |}.

(** The equality decides equality of the values. *)
Class EqbLaws (A : Type) `{Eqb A} : Prop := {
  eqb_eq : forall a b : A, eqb a b = true <-> a = b
}.

(** [from(l).leftJoin(r, on)]: a left row without a partner is kept once,
    with the right columns null. *)
Definition join_rows {A B : Type} (on : A -> B -> bool) (r : list B) (a : A)
  : list (A * option B) :=
  match filter (on a) r with
  | [] => [(a, None)]
  | bs => map (fun b => (a, Some b)) bs
  end.

Definition leftJoin {A B : Type} (on : A -> B -> bool)
  (l : list A) (r : list B) : list (A * option B) :=
  flat_map (join_rows on r) l.

(** [from(l).innerJoin(r, on)] *)
Definition innerJoin {A B : Type} (on : A -> B -> bool)
  (l : list A) (r : list B) : list (A * B) :=
  flat_map (fun a => map (fun b => (a, b)) (filter (on a) r)) l.

(** [query.where(and(...conditions))]; without a condition the query is
    used as it is. *)
Definition where_ {R : Type} (conditions : list (R -> bool)) (rows : list R)
  : list R :=
  match conditions with
  | [] => rows
  | _ :: _ => filter (fun r => forallb (fun c => c r) conditions) rows
  end.

(** The keys of the groups, each once. The database returns the groups in
    an order of its choosing; they are listed here by first appearance. *)
Fixpoint distinct {K : Type} `{Eqb K} (keys : list K) : list K :=
  match keys with
  | [] => []
  | k :: rest => k :: filter (fun k' => negb (eqb k k')) (distinct rest)
  end.

(** [groupBy(columns)]: every group with its key and its rows. *)
Definition groupBy {K R : Type} `{Eqb K} (key : R -> K) (rows : list R)
  : list (K * list R) :=
  map (fun k => (k, filter (fun r => eqb k (key r)) rows))
      (distinct (map key rows)).

Definition non_null {A : Type} (values : list (option A)) : list A :=
  flat_map (fun o => match o with Some a => [a] | None => [] end) values.

Definition total (amounts : list Z) : Z := fold_right Z.add 0 amounts.

(** SQL [SUM]: null when no value is summed. *)
Definition SUM (values : list (option Z)) : option Z :=
  match non_null values with
  | [] => None
  | xs => Some (total xs)
  end.

(** SQL [COUNT(column)] and the count of all rows. *)
Definition COUNT {A : Type} (values : list (option A)) : Z :=
  Z.of_nat (List.length (non_null values)).

Definition count_rows {R : Type} (rows : list R) : Z :=
  Z.of_nat (List.length rows).

(** SQL [AVG]: null when no value is averaged. *)
Definition AVG (values : list (option Z)) : option Q :=
  match non_null values with
  | [] => None
  | xs => Some (Qmake (total xs) (Pos.of_nat (List.length xs)))
  end.

Definition COALESCE (value : option Z) (default : Z) : Z :=
  match value with
  | Some x => x
  | None => default
  end.

(** ** Dates *)

Module JsDate.

Definition ms_per_day : Z := 86400000.

Definition day_number (t : Timestamp) : Z := t / ms_per_day.

(** Year, month (1 to 12) and day of the month of a day number, in the
    Gregorian calendar at UTC. *)
Definition civil_from_days (days : Z) : Z * Z * Z :=
  let z := days + 719468 in
  let era := z / 146097 in
  let doe := z - era * 146097 in
  let yoe := (doe - doe / 1460 + doe / 36524 - doe / 146096) / 365 in
  let doy := doe - (365 * yoe + yoe / 4 - yoe / 100) in
  let mp := (5 * doy + 2) / 153 in
  let d := doy - (153 * mp + 2) / 5 + 1 in
  let m := if mp <? 10 then mp + 3 else mp - 9 in
  let y := yoe + era * 400 + (if m <=? 2 then 1 else 0) in
  (y, m, d).

Definition days_from_civil (y m d : Z) : Z :=
  let y' := if m <=? 2 then y - 1 else y in
  let era := y' / 400 in
  let yoe := y' - era * 400 in
  let doy := (153 * (if m >? 2 then m - 3 else m + 9) + 2) / 5 + d - 1 in
  let doe := yoe * 365 + yoe / 4 - yoe / 100 + doy in
  era * 146097 + doe - 719468.

Definition getFullYear (t : Timestamp) : Z :=
  let '(y, _, _) := civil_from_days (day_number t) in y.

(** Months are numbered from 0. *)
Definition getMonth (t : Timestamp) : Z :=
  let '(_, m, _) := civil_from_days (day_number t) in m - 1.

(** [new Date(year, monthIndex, day)], at midnight. *)
Definition make (year monthIndex day : Z) : Timestamp :=
  days_from_civil year (monthIndex + 1) day * ms_per_day.

End JsDate.

(** SQL [EXTRACT(DAY FROM later - earlier)]: the whole days of the
    interval, the rest of a day dropped. *)
Definition extract_day (later earlier : Timestamp) : Z :=
  Z.quot (later - earlier) JsDate.ms_per_day.

(** ** Report filters *)

(** [filters?.field] *)
Definition field {A : Type} (f : FinancialReportFilters.t -> option A)
  (filters : option FinancialReportFilters.t) : option A :=
  match filters with
  | Some x => f x
  | None => None
  end.

(** A [Date] object and the text of a status are always truthy. *)
Definition truthy_date (d : Timestamp) : bool := true.
Definition truthy_status (s : VehicleStatus) : bool := true.

(** [if (value) conditions.push(cond(value))] *)
Definition push_on {A R : Type} (truthy : A -> bool) (value : option A)
  (cond : A -> R -> bool) (conditions : list (R -> bool)) : list (R -> bool) :=
  match value with
  | Some a => if truthy a then conditions ++ [cond a] else conditions
  | None => conditions
  end.

(** The conditions on vehicle columns that [getProfitLossReport] and
    [exportExpenseBreakdownToCSV] both push, in the same order; [veh] reads
    the vehicle columns of a row of the query. *)
Definition vehicle_filter_conditions {R : Type} (veh : R -> Vehicle.t)
  (filters : option FinancialReportFilters.t) : list (R -> bool) :=
  let conditions := [] in
  let conditions :=
    push_on truthy_date (field FinancialReportFilters.start_date filters)
      (fun d r => d <=? Vehicle.acquisition_date (veh r)) conditions in
  let conditions :=
    push_on truthy_date (field FinancialReportFilters.end_date filters)
      (fun d r => Vehicle.acquisition_date (veh r) <=? d) conditions in
  let conditions :=
    push_on truthy_status (field FinancialReportFilters.status filters)
      (fun s r => VehicleStatus_eqb (Vehicle.status (veh r)) s) conditions in
  let conditions :=
    push_on truthy_string (field FinancialReportFilters.make filters)
      (fun m r => String.eqb (Vehicle.make (veh r)) m) conditions in
  let conditions :=
    push_on truthy_string (field FinancialReportFilters.model filters)
      (fun m r => String.eqb (Vehicle.model (veh r)) m) conditions in
  conditions.

(** ** Profit and loss *)

Definition vehicle_expense_join (st : Store)
  : list (Vehicle.t * option Expense.t) :=
  leftJoin (fun v e => Vehicle.id v =? Expense.vehicle_id e)
           (vehiclesTable st) (expensesTable st).

(** The amount column of the joined rows of a group. *)
Definition joined_amounts {A : Type} (rows : list (A * option Expense.t))
  : list (option Money) :=
  map (fun r => option_map Expense.amount (snd r)) rows.

Record ProfitLossRow : Type := {
  plr_vehicle_id : Z;
  plr_acquisition_cost : Money;
  plr_sale_price : option Money;
  plr_total_expenses : Money
}.

Definition profit_loss_key (r : Vehicle.t * option Expense.t)
  : Z * Money * option Money :=
  (Vehicle.id (fst r), Vehicle.acquisition_cost (fst r),
   Vehicle.sale_price (fst r)).

Definition profit_loss_select
  (group : (Z * Money * option Money) * list (Vehicle.t * option Expense.t))
  : ProfitLossRow :=
  let '((vehicle_id, acquisition_cost, sale_price), rows) := group in
  {| plr_vehicle_id := vehicle_id;
     plr_acquisition_cost := acquisition_cost;
     plr_sale_price := sale_price;
     plr_total_expenses := COALESCE (SUM (joined_amounts rows)) 0 |}.

(** The body of [results.map] in both profit and loss handlers. The text
    of a numeric column is never empty, so [result.sale_price ? .. : null]
    is null only for a null column; [salePrice ? .. : null] tests the
    number. *)
Definition to_profit_loss (result : ProfitLossRow) : ProfitLoss.t :=
  let acquisitionCost := plr_acquisition_cost result in
  let totalExpenses := plr_total_expenses result in
  let totalCost := acquisitionCost + totalExpenses in
  let salePrice := plr_sale_price result in
  let profitLoss :=
    match salePrice with
    | Some p => if truthy_number p then Some (p - totalCost) else None
    | None => None
    end in
  let isSold :=
    match salePrice with
    | Some _ => true
    | None => false
    end in
  {| ProfitLoss.vehicle_id := plr_vehicle_id result;
     ProfitLoss.acquisition_cost := acquisitionCost;
     ProfitLoss.total_expenses := totalExpenses;
     ProfitLoss.total_cost := totalCost;
     ProfitLoss.sale_price := salePrice;
     ProfitLoss.profit_loss := profitLoss;
     ProfitLoss.is_sold := isSold |}.

Definition getProfitLossReport (filters : option FinancialReportFilters.t)
  (st : Store) : list ProfitLoss.t :=
  let baseQuery := vehicle_expense_join st in
  let conditions := vehicle_filter_conditions fst filters in
  let results :=
    map profit_loss_select
        (groupBy profit_loss_key (where_ conditions baseQuery)) in
  map to_profit_loss results.

Definition getVehicleProfitLoss (input : GetByIdInput) (st : Store)
  : option ProfitLoss.t :=
  let result :=
    map profit_loss_select
        (groupBy profit_loss_key
           (filter (fun r => Vehicle.id (fst r) =? gbi_id input)
                   (vehicle_expense_join st))) in
  match result with
  | [] => None
  | vehicleData :: _ => Some (to_profit_loss vehicleData)
  end.

(** ** Inventory aging *)

Definition aging_key (r : Vehicle.t * option Expense.t)
  : Z * string * string * string * Z * VehicleStatus * Timestamp * Money :=
  let v := fst r in
  (Vehicle.id v, Vehicle.vin v, Vehicle.make v, Vehicle.model v,
   Vehicle.year v, Vehicle.status v, Vehicle.acquisition_date v,
   Vehicle.acquisition_cost v).

Definition aging_select (now : Timestamp)
  (group : (Z * string * string * string * Z * VehicleStatus * Timestamp
            * Money) * list (Vehicle.t * option Expense.t))
  : InventoryAging.t :=
  let '((vehicle_id, vin, make, model, year, status, acquisition_date,
         acquisition_cost), rows) := group in
  let total_expenses := COALESCE (SUM (joined_amounts rows)) 0 in
  let days_in_inventory := extract_day now acquisition_date in
  {| InventoryAging.vehicle_id := vehicle_id;
     InventoryAging.vin := vin;
     InventoryAging.make := make;
     InventoryAging.model := model;
     InventoryAging.year := year;
     InventoryAging.status := status;
     InventoryAging.acquisition_date := acquisition_date;
     InventoryAging.days_in_inventory := days_in_inventory;
     InventoryAging.total_cost := acquisition_cost + total_expenses |}.

Definition getInventoryAging (now : Timestamp) (st : Store)
  : list InventoryAging.t :=
  map (aging_select now)
      (groupBy aging_key
         (filter (fun r => VehicleStatus_eqb (Vehicle.status (fst r)) listed)
                 (vehicle_expense_join st))).

(** ** Expense breakdown ([handlers/expenses.ts]) *)

(** A condition of [getExpenseBreakdown] names a column of the expenses
    table or of the vehicles table. *)
Inductive Condition : Type :=
| on_expense (p : Expense.t -> bool)
| on_vehicle (p : Vehicle.t -> bool).

Definition holds_joined (c : Condition) (row : Expense.t * Vehicle.t) : bool :=
  match c with
  | on_expense p => p (fst row)
  | on_vehicle p => p (snd row)
  end.

(** Without the join only conditions on expense columns are pushed. *)
Definition holds_unjoined (c : Condition) (row : Expense.t) : bool :=
  match c with
  | on_expense p => p row
  | on_vehicle _ => false
  end.

Definition push_condition {A : Type} (truthy : A -> bool) (value : option A)
  (cond : A -> Condition) (conditions : list Condition) : list Condition :=
  match value with
  | Some a => if truthy a then conditions ++ [cond a] else conditions
  | None => conditions
  end.

Record BreakdownRow : Type := {
  br_expense_type : ExpenseType;
  br_total_amount : option Money;
  br_count : Z
}.

(** The selected columns of a group of expense rows: the type, the sum of
    the amounts and the count of the ids. *)
Definition breakdown_select {R : Type} (expense : R -> Expense.t)
  (group : ExpenseType * list R) : BreakdownRow :=
  let '(expense_type, rows) := group in
  {| br_expense_type := expense_type;
     br_total_amount :=
       SUM (map (fun r => Some (Expense.amount (expense r))) rows);
     br_count := COUNT (map (fun r => Some (Expense.id (expense r))) rows) |}.

Definition expense_vehicle_join (st : Store) : list (Expense.t * Vehicle.t) :=
  innerJoin (fun e v => Expense.vehicle_id e =? Vehicle.id v)
            (expensesTable st) (vehiclesTable st).

Definition getExpenseBreakdown (filters : option FinancialReportFilters.t)
  (st : Store) : list ExpenseBreakdown.t :=
  let needsJoin :=
    truthy_opt truthy_status (field FinancialReportFilters.status filters)
    || truthy_opt truthy_string (field FinancialReportFilters.make filters)
    || truthy_opt truthy_string (field FinancialReportFilters.model filters) in
  let conditions := [] in
  let conditions :=
    push_condition truthy_date
      (field FinancialReportFilters.start_date filters)
      (fun d => on_expense (fun e => d <=? Expense.expense_date e))
      conditions in
  let conditions :=
    push_condition truthy_date
      (field FinancialReportFilters.end_date filters)
      (fun d => on_expense (fun e => Expense.expense_date e <=? d))
      conditions in
  let conditions :=
    push_condition truthy_status
      (field FinancialReportFilters.status filters)
      (fun s => on_vehicle (fun v => VehicleStatus_eqb (Vehicle.status v) s))
      conditions in
  let conditions :=
    push_condition truthy_string
      (field FinancialReportFilters.make filters)
      (fun m => on_vehicle (fun v => String.eqb (Vehicle.make v) m))
      conditions in
  let conditions :=
    push_condition truthy_string
      (field FinancialReportFilters.model filters)
      (fun m => on_vehicle (fun v => String.eqb (Vehicle.model v) m))
      conditions in
  let results :=
    if needsJoin
    then map (breakdown_select fst)
             (groupBy (fun r => Expense.expense_type (fst r))
                (where_ (map holds_joined conditions)
                        (expense_vehicle_join st)))
    else map (breakdown_select (fun e => e))
             (groupBy Expense.expense_type
                (where_ (map holds_unjoined conditions) (expensesTable st))) in
  map (fun result =>
         {| ExpenseBreakdown.expense_type := br_expense_type result;
            ExpenseBreakdown.total_amount :=
              COALESCE (br_total_amount result) 0;
            ExpenseBreakdown.count := br_count result |})
      results.

(** ** CSV export of the expense breakdown *)

Definition newline : string := String (ascii_of_nat 10) EmptyString.

(** [parseFloat(text).toFixed(2)]; [parseFloat(null)] is not a number. *)
Definition amount_text (total_amount : option Money) : string :=
  match total_amount with
  | Some a => toFixed2 a
  | None => "NaN"
  end.

(** The loop [results.forEach(item => csv += row + '\n')] after the header. *)
Definition breakdown_csv (results : list BreakdownRow) : string :=
  fold_left
    (fun csv item =>
       let row := join_comma [quoted (ExpenseType_text (br_expense_type item));
                              amount_text (br_total_amount item);
                              show_int (br_count item)] in
       (csv ++ (row ++ newline))%string)
    results
    ("Expense Type,Total Amount,Count" ++ newline)%string.

Definition exportExpenseBreakdownToCSV
  (filters : option FinancialReportFilters.t) (st : Store) : string :=
  if truthy_opt truthy_date (field FinancialReportFilters.start_date filters)
     || truthy_opt truthy_date (field FinancialReportFilters.end_date filters)
     || truthy_opt truthy_status (field FinancialReportFilters.status filters)
     || truthy_opt truthy_string (field FinancialReportFilters.make filters)
     || truthy_opt truthy_string (field FinancialReportFilters.model filters)
  then
    let joinedQuery := expense_vehicle_join st in
    let conditions := vehicle_filter_conditions snd filters in
    let filteredQuery := where_ conditions joinedQuery in
    let results :=
      map (breakdown_select fst)
          (groupBy (fun r => Expense.expense_type (fst r)) filteredQuery) in
    breakdown_csv results
  else
    let results :=
      map (breakdown_select (fun e => e))
          (groupBy Expense.expense_type (expensesTable st)) in
    breakdown_csv results.

(** ** Dashboard ([handlers/vehicles.ts]) *)

Definition in_inventory (v : Vehicle.t) : bool :=
  negb (VehicleStatus_eqb (Vehicle.status v) sold)
  && negb (VehicleStatus_eqb (Vehicle.status v) archived).

(** [gte(column, bound)] on a nullable column: null is not selected. *)
Definition gte_nullable (column : option Timestamp) (bound : Timestamp)
  : bool :=
  match column with
  | Some d => bound <=? d
  | None => false
  end.

Definition sold_since (startOfMonth : Timestamp) (v : Vehicle.t) : bool :=
  VehicleStatus_eqb (Vehicle.status v) sold
  && gte_nullable (Vehicle.sale_date v) startOfMonth.

(** The loop over [soldVehiclesThisMonth]. *)
Definition profit_loop (st : Store) (vehicles : list Vehicle.t) : Money :=
  fold_left
    (fun total_profit_this_month vehicle =>
       match Vehicle.sale_price vehicle with
       | Some salePrice =>
           let acquisitionCost := Vehicle.acquisition_cost vehicle in
           let totalExpenses :=
             COALESCE
               (SUM (map (fun e => Some (Expense.amount e))
                         (filter (fun e => Expense.vehicle_id e
                                           =? Vehicle.id vehicle)
                                 (expensesTable st)))) 0 in
           let profit := salePrice - acquisitionCost - totalExpenses in
           total_profit_this_month + profit
       | None => total_profit_this_month
       end)
    vehicles 0.

Definition getDashboardKpis (now : Timestamp) (st : Store) : DashboardKpi.t :=
  let startOfMonth :=
    JsDate.make (JsDate.getFullYear now) (JsDate.getMonth now) 1 in
  let total_inventory :=
    count_rows (filter in_inventory (vehiclesTable st)) in
  let acquisitionValue :=
    COALESCE
      (SUM (map (fun v => Some (Vehicle.acquisition_cost v))
                (filter in_inventory (vehiclesTable st)))) 0 in
  let expensesValue :=
    COALESCE
      (SUM (map (fun r => Some (Expense.amount (fst r)))
                (filter (fun r => in_inventory (snd r))
                        (expense_vehicle_join st)))) 0 in
  let total_inventory_value := acquisitionValue + expensesValue in
  let vehicles_in_reconditioning :=
    count_rows
      (filter (fun v => VehicleStatus_eqb (Vehicle.status v) reconditioning)
              (vehiclesTable st)) in
  let vehicles_listed :=
    count_rows
      (filter (fun v => VehicleStatus_eqb (Vehicle.status v) listed)
              (vehiclesTable st)) in
  let vehicles_sold_this_month :=
    count_rows (filter (sold_since startOfMonth) (vehiclesTable st)) in
  let soldVehiclesThisMonth :=
    filter (sold_since startOfMonth) (vehiclesTable st) in
  let total_profit_this_month := profit_loop st soldVehiclesThisMonth in
  let avg_days_to_sale :=
    AVG (map (fun v => option_map
                         (fun sale_date =>
                            extract_day sale_date (Vehicle.acquisition_date v))
                         (Vehicle.sale_date v))
             (filter (fun v => VehicleStatus_eqb (Vehicle.status v) sold)
                     (vehiclesTable st))) in
  {| DashboardKpi.total_inventory := total_inventory;
     DashboardKpi.total_inventory_value := total_inventory_value;
     DashboardKpi.vehicles_in_reconditioning := vehicles_in_reconditioning;
     DashboardKpi.vehicles_listed := vehicles_listed;
     DashboardKpi.vehicles_sold_this_month := vehicles_sold_this_month;
     DashboardKpi.total_profit_this_month := total_profit_this_month;
     DashboardKpi.avg_days_to_sale := avg_days_to_sale |}.

(** ** Statements about missing ids *)

(** A row is missing from a table when no row carries the id. *)
Definition missing {R : Type} (id_of : R -> Z) (rows : list R) (id : Z) : Prop :=
  forall r, In r rows -> id_of r <> id.

(** ** Sample data *)

Module Sample.

Definition jan_01 : Timestamp := 1704067200000.
Definition jan_15 : Timestamp := 1705276800000.
Definition feb_01 : Timestamp := 1706745600000.
Definition feb_15 : Timestamp := 1707955200000.

Definition camry : Vehicle.t :=
  Vehicle.mk 1 "VIN001" "Toyota" "Camry" 2020 "Blue" 50000 listed
             jan_01 1500000 (Some 1800000) None None None jan_01 jan_01.

Definition civic : Vehicle.t :=
  Vehicle.mk 2 "VIN002" "Honda" "Civic" 2019 "Red" 30000 acquired
             jan_15 1200000 None None None None jan_15 jan_15.

Definition garage : Vendor.t := Vendor.mk 1 "Garage" None jan_01.

Definition repair : Expense.t :=
  Expense.mk 1 1 (Some 1) 200000 et_repairs "Brakes" feb_15 feb_15.

Definition polish : Expense.t :=
  Expense.mk 2 1 None 50000 et_detailing "Polish" feb_15 feb_15.

Definition empty : Store := mkStore [] [] [] [] 1 1.

Definition lot : Store :=
  mkStore [camry; civic] [garage] [repair; polish] [] 3 1.



Definition expense_for_vendor_zero : CreateExpenseInput.t :=
  CreateExpenseInput.mk 1 (Some (Some 0)) 10000 et_other "Test expense" None.


Definition update_to_vendor_zero : UpdateExpenseInput.t :=
  UpdateExpenseInput.mk 1 (Some (Some 0)) None None None None.


Definition sale_of_camry : CreateTransactionInput.t :=
  CreateTransactionInput.mk 1 tt_sale 2800000 "Sale" (Some feb_01).


Definition first_sale : Transaction.t :=
  Transaction.mk 1 2 tt_sale 1300000 "Sale" feb_01 feb_01.

Definition second_sale : Transaction.t :=
  Transaction.mk 2 2 tt_sale 1350000 "Sale again" feb_15 feb_15.

(** The civic was sold twice and then put back to [acquired] by hand. *)
Definition resold : Store :=
  mkStore [camry; civic] [garage] [repair; polish] [first_sale; second_sale]
          3 3.

(** A car sold on the day after [feb_15]. *)
Definition accord : Vehicle.t :=
  Vehicle.mk 3 "VIN003" "Honda" "Accord" 2019 "Red" 60000 sold
             jan_01 1600000 None (Some 1900000) (Some (feb_15 + 86400000))
             None jan_01 feb_15.

Definition sold_tomorrow : Store := mkStore [accord] [] [] [] 1 1.

(** One vehicle that cost 15000 with expenses of 2000 and 500. *)
Definition truck : Vehicle.t :=
  Vehicle.mk 1 "VIN001" "Ford" "F-150" 2021 "White" 30000 reconditioning
             jan_01 1500000 None None None None jan_01 jan_01.

Definition workshop : Store :=
  mkStore [truck] []
          [Expense.mk 1 1 None 200000 et_repairs "Engine" jan_15 jan_15;
           Expense.mk 2 1 None 50000 et_detailing "Polish" jan_15 jan_15]
          [] 3 1.

(** A sale for nothing, recorded through [createTransaction]. *)
Definition give_away_camry : CreateTransactionInput.t :=
  CreateTransactionInput.mk 1 tt_sale 0 "Given away" (Some feb_15).

Definition after_give_away : Store :=
  snd (createTransaction feb_15 give_away_camry lot).

(** Expenses from the first of February on. *)
Definition since_february : option FinancialReportFilters.t :=
  Some (FinancialReportFilters.mk (Some feb_01) None None None None).

End Sample.

(** ** Reading the store *)

(** The vehicle row that a select by id returns first. *)
Definition find_vehicle (st : Store) (id : Z) : option Vehicle.t :=
  find (fun v => Vehicle.id v =? id) (vehiclesTable st).

(** The primary key of the transactions table. *)
Definition transaction_ids_unique (st : Store) : Prop :=
  NoDup (map Transaction.id (transactionsTable st)).

(** The primary key of the vehicles table. *)
Definition vehicle_ids_unique (st : Store) : Prop :=
  NoDup (map Vehicle.id (vehiclesTable st)).

(** ** The dashboard figures in the words of the specification *)

(** The first day of the calendar month of [now]. *)
Definition first_of_month (now : Timestamp) : Timestamp :=
  JsDate.make (JsDate.getFullYear now) (JsDate.getMonth now) 1.

(** Sold vehicles whose sale date lies in the closed interval from the
    first day of the current month to [now]. *)
Definition spec_vehicles_sold_this_month (now : Timestamp) (st : Store) : Z :=
  Z.of_nat
    (List.length
       (filter (fun v =>
                  match Vehicle.status v, Vehicle.sale_date v with
                  | sold, Some d => (first_of_month now <=? d) && (d <=? now)
                  | _, _ => false
                  end) (vehiclesTable st))).

(** Sold vehicles whose sale date is not before the first day of the
    current month. *)
Definition sold_from_first_of_month (now : Timestamp) (st : Store)
  : list Vehicle.t :=
  filter (fun v =>
            match Vehicle.status v, Vehicle.sale_date v with
            | sold, Some d => first_of_month now <=? d
            | _, _ => false
            end) (vehiclesTable st).

(** The vehicles of the inventory: status neither sold nor archived. *)
Definition not_sold_or_archived (v : Vehicle.t) : bool :=
  match Vehicle.status v with
  | sold | archived => false
  | acquired | reconditioning | listed => true
  end.

(** The expenses attached to a vehicle and the sum of their amounts. *)
Definition expenses_of (st : Store) (vehicle_id : Z) : list Expense.t :=
  filter (fun e => Expense.vehicle_id e =? vehicle_id) (expensesTable st).

Definition expenses_total (st : Store) (vehicle_id : Z) : Money :=
  total (map Expense.amount (expenses_of st vehicle_id)).

(** ** The reports in the words of the specification *)

Definition ms_per_day : Z := 86400000.

(** The aging record of a vehicle: whole days between [now] and the
    acquisition date, truncated, and the acquisition cost plus the
    expenses attached to the vehicle. *)
Definition aging_of (now : Timestamp) (st : Store) (v : Vehicle.t)
  : InventoryAging.t :=
  {| InventoryAging.vehicle_id := Vehicle.id v;
     InventoryAging.vin := Vehicle.vin v;
     InventoryAging.make := Vehicle.make v;
     InventoryAging.model := Vehicle.model v;
     InventoryAging.year := Vehicle.year v;
     InventoryAging.status := Vehicle.status v;
     InventoryAging.acquisition_date := Vehicle.acquisition_date v;
     InventoryAging.days_in_inventory :=
       Z.quot (now - Vehicle.acquisition_date v) ms_per_day;
     InventoryAging.total_cost :=
       Vehicle.acquisition_cost v + expenses_total st (Vehicle.id v) |}.

Definition is_listed (v : Vehicle.t) : bool :=
  match Vehicle.status v with
  | listed => true
  | _ => false
  end.

(** The grouping columns of [getInventoryAging], read from a vehicle. *)
Definition vehicle_aging_key (v : Vehicle.t)
  : Z * string * string * string * Z * VehicleStatus * Timestamp * Money :=
  (Vehicle.id v, Vehicle.vin v, Vehicle.make v, Vehicle.model v,
   Vehicle.year v, Vehicle.status v, Vehicle.acquisition_date v,
   Vehicle.acquisition_cost v).

(** The grouping columns of the profit and loss queries. *)
Definition vehicle_profit_loss_key (v : Vehicle.t) : Z * Money * option Money :=
  (Vehicle.id v, Vehicle.acquisition_cost v, Vehicle.sale_price v).

(** The filter of [getProfitLossReport] on a vehicle: every condition whose
    filter value is truthy. *)
Definition passes_filters (filters : option FinancialReportFilters.t)
  (v : Vehicle.t) : bool :=
  match field FinancialReportFilters.start_date filters with
  | Some d => d <=? Vehicle.acquisition_date v
  | None => true
  end
  && match field FinancialReportFilters.end_date filters with
     | Some d => Vehicle.acquisition_date v <=? d
     | None => true
     end
  && match field FinancialReportFilters.status filters with
     | Some s => VehicleStatus_eqb (Vehicle.status v) s
     | None => true
     end
  && match field FinancialReportFilters.make filters with
     | Some m => if truthy_string m then String.eqb (Vehicle.make v) m else true
     | None => true
     end
  && match field FinancialReportFilters.model filters with
     | Some m => if truthy_string m then String.eqb (Vehicle.model v) m else true
     | None => true
     end.

(** The profit and loss record of a vehicle as the specification gives it:
    the profit is defined whenever a sale price is recorded. *)
Definition spec_profit_loss_of (st : Store) (v : Vehicle.t) : ProfitLoss.t :=
  let total_expenses := expenses_total st (Vehicle.id v) in
  let total_cost := Vehicle.acquisition_cost v + total_expenses in
  {| ProfitLoss.vehicle_id := Vehicle.id v;
     ProfitLoss.acquisition_cost := Vehicle.acquisition_cost v;
     ProfitLoss.total_expenses := total_expenses;
     ProfitLoss.total_cost := total_cost;
     ProfitLoss.sale_price := Vehicle.sale_price v;
     ProfitLoss.profit_loss :=
       match Vehicle.sale_price v with
       | Some p => Some (p - total_cost)
       | None => None
       end;
     ProfitLoss.is_sold :=
       match Vehicle.sale_price v with
       | Some _ => true
       | None => false
       end |}.

(** The record that the handlers build for a vehicle. *)
Definition profit_loss_of (st : Store) (v : Vehicle.t) : ProfitLoss.t :=
  to_profit_loss
    {| plr_vehicle_id := Vehicle.id v;
       plr_acquisition_cost := Vehicle.acquisition_cost v;
       plr_sale_price := Vehicle.sale_price v;
       plr_total_expenses := expenses_total st (Vehicle.id v) |}.

(** The CSV text of an expense breakdown as the specification gives it:
    the header line, then one line per record with the quoted type, the
    amount with two decimals and the count. *)
Definition breakdown_line (r : ExpenseBreakdown.t) : string :=
  (quoted (ExpenseType_text (ExpenseBreakdown.expense_type r)) ++ ","
   ++ toFixed2 (ExpenseBreakdown.total_amount r) ++ ","
   ++ show_int (ExpenseBreakdown.count r) ++ newline)%string.

Definition format_breakdown (records : list ExpenseBreakdown.t) : string :=
  (("Expense Type,Total Amount,Count" ++ newline)
   ++ fold_right String.append EmptyString (map breakdown_line records))%string.

(** The record that [getExpenseBreakdown] returns for a row of its query. *)
Definition to_breakdown (result : BreakdownRow) : ExpenseBreakdown.t :=
  {| ExpenseBreakdown.expense_type := br_expense_type result;
     ExpenseBreakdown.total_amount := COALESCE (br_total_amount result) 0;
     ExpenseBreakdown.count := br_count result |}.

(** ** Listing handlers *)

(** [orderBy(desc(column))] on a numeric or timestamp column: rows with
    equal keys keep the order of the table. *)
Fixpoint insert_desc {R : Type} (key : R -> Z) (r : R) (sorted : list R)
  : list R :=
  match sorted with
  | [] => [r]
  | x :: rest =>
      if key x <=? key r then r :: x :: rest
      else x :: insert_desc key r rest
  end.

Definition orderBy_desc {R : Type} (key : R -> Z) (rows : list R) : list R :=
  fold_right (insert_desc key) [] rows.

(** [db.select().from(table).where(cond).orderBy(desc(key)).execute()] *)
Definition select_ordered {R : Type} (table : Store -> list R)
  (cond : R -> bool) (key : R -> Z) : M (list R) :=
  fun st => (inr (orderBy_desc key (filter cond (table st))), st).

Definition getExpenses : M (list Expense.t) :=
  select_ordered expensesTable (fun _ => true) Expense.expense_date.

Definition getExpensesByVehicleId (input : GetByIdInput) : M (list Expense.t) :=
  select_ordered expensesTable
    (fun e => Expense.vehicle_id e =? gbi_id input) Expense.expense_date.

Definition getTransactions : M (list Transaction.t) :=
  select_ordered transactionsTable (fun _ => true)
    Transaction.transaction_date.

Definition getTransactionsByVehicleId (input : GetByIdInput)
  : M (list Transaction.t) :=
  select_ordered transactionsTable
    (fun t => Transaction.vehicle_id t =? gbi_id input)
    Transaction.transaction_date.

Definition getVehicles : M (list Vehicle.t) :=
  select_ordered vehiclesTable (fun _ => true) Vehicle.acquisition_date.

(** ** Updating a vehicle ([handlers/vehicles.ts]) *)

Module UpdateVehicleInput.
Record t : Type := mk {
  id : Z;
  make : option string;
  model : option string;
  year : option Z;
  color : option string;
  mileage : option Z;
  status : option VehicleStatus;
  listing_price : option (option Money);
  sale_price : option (option Money);
  sale_date : option (option Timestamp);
  notes : option (option string)
}.
End UpdateVehicleInput.

(** [price ? price.toString() : null] for a price that is not [undefined]. *)
Definition price_or_null (price : option Money) : option Money :=
  match price with
  | Some p => if truthy_number p then Some p else None
  | None => None
  end.

(** The assignment [updateData] applied to a row: [updated_at] is always
    set, another column when its input is not [undefined]. *)
Definition apply_vehicle_update (now : Timestamp) (input : UpdateVehicleInput.t)
  (v : Vehicle.t) : Vehicle.t :=
  Vehicle.mk (Vehicle.id v) (Vehicle.vin v)
             (assigned (UpdateVehicleInput.make input) (Vehicle.make v))
             (assigned (UpdateVehicleInput.model input) (Vehicle.model v))
             (assigned (UpdateVehicleInput.year input) (Vehicle.year v))
             (assigned (UpdateVehicleInput.color input) (Vehicle.color v))
             (assigned (UpdateVehicleInput.mileage input) (Vehicle.mileage v))
             (assigned (UpdateVehicleInput.status input) (Vehicle.status v))
             (Vehicle.acquisition_date v) (Vehicle.acquisition_cost v)
             (assigned (option_map price_or_null
                                   (UpdateVehicleInput.listing_price input))
                       (Vehicle.listing_price v))
             (assigned (option_map price_or_null
                                   (UpdateVehicleInput.sale_price input))
                       (Vehicle.sale_price v))
             (assigned (UpdateVehicleInput.sale_date input) (Vehicle.sale_date v))
             (assigned (UpdateVehicleInput.notes input) (Vehicle.notes v))
             (Vehicle.created_at v) now.

(** [db.update(vehiclesTable).set(updateData).where(cond).returning()
    .execute()]: the year, the mileage and the prices of [updateData] must
    fit their columns. *)
Definition update_vehicles_returning (now : Timestamp)
  (input : UpdateVehicleInput.t) (cond : Vehicle.t -> bool)
  : M (list Vehicle.t) :=
  fun st =>
    let set := apply_vehicle_update now input in
    if negb (fits int4 (UpdateVehicleInput.year input)
             && fits int4 (UpdateVehicleInput.mileage input))
    then (inl integer_out_of_range, st)
    else if negb (fits (fun price => fits numeric_10_2 (price_or_null price))
                       (UpdateVehicleInput.listing_price input)
                  && fits (fun price => fits numeric_10_2 (price_or_null price))
                          (UpdateVehicleInput.sale_price input))
    then (inl numeric_overflow, st)
    else
      (inr (map set (filter cond (vehiclesTable st))),
       with_vehicles st
         (map (fun v => if cond v then set v else v) (vehiclesTable st))).

Definition updateVehicle (now : Timestamp) (input : UpdateVehicleInput.t)
  : M Vehicle.t :=
  existingVehicle <- select_from vehiclesTable
                       (fun v => Vehicle.id v =? UpdateVehicleInput.id input) ;;
  if is_empty existingVehicle
  then throw (NotFound
                ("Vehicle with id " ++ show_int (UpdateVehicleInput.id input)
                 ++ " not found")%string)
  else
    result <- update_vehicles_returning now input
                (fun v => Vehicle.id v =? UpdateVehicleInput.id input) ;;
    first_row result.

(** ** Vehicle details *)

Module VehicleDetails.
Record t : Type := mk {
  vehicle : Vehicle.t;
  expenses : list Expense.t;
  transactions : list Transaction.t;
  profit_loss : ProfitLoss.t
}.
End VehicleDetails.

Definition getVehicleDetails (input : GetByIdInput) (st : Store)
  : option VehicleDetails.t :=
  let vehicles :=
    filter (fun v => Vehicle.id v =? gbi_id input) (vehiclesTable st) in
  match vehicles with
  | [] => None
  | vehicle :: _ =>
      let expenses :=
        filter (fun e => Expense.vehicle_id e =? gbi_id input)
               (expensesTable st) in
      let transactions :=
        filter (fun t => Transaction.vehicle_id t =? gbi_id input)
               (transactionsTable st) in
      match getVehicleProfitLoss input st with
      | None => None
      | Some profitLoss =>
          Some {| VehicleDetails.vehicle := vehicle;
                  VehicleDetails.expenses := expenses;
                  VehicleDetails.transactions := transactions;
                  VehicleDetails.profit_loss := profitLoss |}
      end
  end.

(** ** CSV export of the profit and loss report and of inventory aging *)

(** [value?.toFixed(2) || ''] *)
Definition optional_amount_text (value : option Money) : string :=
  match value with
  | Some a => toFixed2 a
  | None => EmptyString
  end.

Definition profit_loss_header : string :=
  ("Vehicle ID,VIN,Make,Model,Acquisition Cost,Total Expenses,Sale Price,Profit/Loss"
   ++ newline)%string.

(** The row of [exportProfitLossToCSV] for a record and its vehicle. *)
Definition profit_loss_row (pl : ProfitLoss.t) (vehicle : Vehicle.t) : string :=
  join_comma [show_int (ProfitLoss.vehicle_id pl);
              quoted (Vehicle.vin vehicle);
              quoted (Vehicle.make vehicle);
              quoted (Vehicle.model vehicle);
              toFixed2 (ProfitLoss.acquisition_cost pl);
              toFixed2 (ProfitLoss.total_expenses pl);
              optional_amount_text (ProfitLoss.sale_price pl);
              optional_amount_text (ProfitLoss.profit_loss pl)].

(** [new Map(vehicles.map(v => [v.id, v])).get(id)]: a later entry with the
    same key replaces an earlier one. *)
Definition vehicleMap_get (vehicles : list Vehicle.t) (id : Z)
  : option Vehicle.t :=
  find (fun v => Vehicle.id v =? id) (rev vehicles).

Definition exportProfitLossToCSV (filters : option FinancialReportFilters.t)
  (st : Store) : string :=
  let profitLossData := getProfitLossReport filters st in
  let vehicleIds := map ProfitLoss.vehicle_id profitLossData in
  if is_empty vehicleIds then profit_loss_header
  else
    let vehicles :=
      filter (fun v => existsb (fun id => Vehicle.id v =? id) vehicleIds)
             (vehiclesTable st) in
    fold_left
      (fun csv pl =>
         match vehicleMap_get vehicles (ProfitLoss.vehicle_id pl) with
         | Some vehicle =>
             (csv ++ (profit_loss_row pl vehicle ++ newline))%string
         | None => csv
         end)
      profitLossData profit_loss_header.

Definition inventory_aging_header : string :=
  ("Vehicle ID,VIN,Make,Model,Year,Status,Days in Inventory,Total Cost"
   ++ newline)%string.

Definition inventory_aging_row (item : InventoryAging.t) : string :=
  join_comma [show_int (InventoryAging.vehicle_id item);
              quoted (InventoryAging.vin item);
              quoted (InventoryAging.make item);
              quoted (InventoryAging.model item);
              show_int (InventoryAging.year item);
              quoted (VehicleStatus_text (InventoryAging.status item));
              show_int (InventoryAging.days_in_inventory item);
              toFixed2 (InventoryAging.total_cost item)].

Definition exportInventoryAgingToCSV (now : Timestamp) (st : Store) : string :=
  let agingData := getInventoryAging now st in
  fold_left
    (fun csv item => (csv ++ (inventory_aging_row item ++ newline))%string)
    agingData inventory_aging_header.

(** ** Consistent stores *)

(** The constraints of the schema: the primary key of every table, the
    references of expenses and transactions, and serial sequences that are
    ahead of the ids in use. *)
Record consistent (st : Store) : Prop := {
  vehicle_pk : NoDup (map Vehicle.id (vehiclesTable st));
  vendor_pk : NoDup (map Vendor.id (vendorsTable st));
  expense_pk : NoDup (map Expense.id (expensesTable st));
  transaction_pk : NoDup (map Transaction.id (transactionsTable st));
  expense_vehicle_fk :
    forall e, In e (expensesTable st) ->
              vehicle_exists st (Expense.vehicle_id e) = true;
  expense_vendor_fk :
    forall e, In e (expensesTable st) ->
              vendor_ref_ok st (Expense.vendor_id e) = true;
  transaction_vehicle_fk :
    forall t, In t (transactionsTable st) ->
              vehicle_exists st (Transaction.vehicle_id t) = true;
  expense_seq_ahead :
    forall e, In e (expensesTable st) -> Expense.id e < expenses_id_seq st;
  transaction_seq_ahead :
    forall t, In t (transactionsTable st) ->
              Transaction.id t < transactions_id_seq st
}.

(** A computation keeps the store consistent, whatever it returns. *)
Definition preserves {A : Type} (m : M A) : Prop :=
  forall st, consistent st -> consistent (snd (m st)).

(** A computation does not end in a failure of the database. *)
Definition no_store_error {A : Type} (m : M A) (st : Store) : Prop :=
  forall message, fst (m st) <> inl (StoreError message).


(** ** The CSV exports in the words of their column lists *)

(** The line of a vehicle in the profit and loss export. *)
Definition profit_loss_line (st : Store) (v : Vehicle.t) : string :=
  (show_int (Vehicle.id v) ++ ","
   ++ quoted (Vehicle.vin v) ++ ","
   ++ quoted (Vehicle.make v) ++ ","
   ++ quoted (Vehicle.model v) ++ ","
   ++ toFixed2 (Vehicle.acquisition_cost v) ++ ","
   ++ toFixed2 (expenses_total st (Vehicle.id v)) ++ ","
   ++ optional_amount_text (Vehicle.sale_price v) ++ ","
   ++ optional_amount_text (ProfitLoss.profit_loss (profit_loss_of st v))
   ++ newline)%string.

(** The line of a listed vehicle in the inventory aging export. *)
Definition aging_line (now : Timestamp) (st : Store) (v : Vehicle.t) : string :=
  (show_int (Vehicle.id v) ++ ","
   ++ quoted (Vehicle.vin v) ++ ","
   ++ quoted (Vehicle.make v) ++ ","
   ++ quoted (Vehicle.model v) ++ ","
   ++ show_int (Vehicle.year v) ++ ","
   ++ quoted "listed" ++ ","
   ++ show_int (Z.quot (now - Vehicle.acquisition_date v) ms_per_day) ++ ","
   ++ toFixed2 (Vehicle.acquisition_cost v + expenses_total st (Vehicle.id v))
   ++ newline)%string.

Definition lines (l : list string) : string :=
  fold_right String.append EmptyString l.

(** ** The expense breakdown in the words of its filters *)

(** The date filters of [getExpenseBreakdown], on the date of the expense. *)
Definition dates_pass (filters : option FinancialReportFilters.t)
  (e : Expense.t) : bool :=
  match field FinancialReportFilters.start_date filters with
  | Some d => d <=? Expense.expense_date e
  | None => true
  end
  && match field FinancialReportFilters.end_date filters with
     | Some d => Expense.expense_date e <=? d
     | None => true
     end.

(** The status, make and model filters, on the vehicle of the expense. *)
Definition vehicle_passes (filters : option FinancialReportFilters.t)
  (v : Vehicle.t) : bool :=
  match field FinancialReportFilters.status filters with
  | Some s => VehicleStatus_eqb (Vehicle.status v) s
  | None => true
  end
  && match field FinancialReportFilters.make filters with
     | Some m => if truthy_string m then String.eqb (Vehicle.make v) m else true
     | None => true
     end
  && match field FinancialReportFilters.model filters with
     | Some m => if truthy_string m then String.eqb (Vehicle.model v) m else true
     | None => true
     end.

(** Whether one of the status, make and model filters is in force. *)
Definition needs_join (filters : option FinancialReportFilters.t) : bool :=
  truthy_opt truthy_status (field FinancialReportFilters.status filters)
  || truthy_opt truthy_string (field FinancialReportFilters.make filters)
  || truthy_opt truthy_string (field FinancialReportFilters.model filters).

(** The expenses that the breakdown counts: those whose date passes and,
    when a vehicle filter is in force, whose vehicle exists and passes. *)
Definition selected_expenses (filters : option FinancialReportFilters.t)
  (st : Store) : list Expense.t :=
  filter (fun e =>
            dates_pass filters e
            && if needs_join filters
               then match find_vehicle st (Expense.vehicle_id e) with
                    | Some v => vehicle_passes filters v
                    | None => false
                    end
               else true)
         (expensesTable st).

Definition of_type (t : ExpenseType) (es : list Expense.t) : list Expense.t :=
  filter (fun e => ExpenseType_eqb t (Expense.expense_type e)) es.

(** One record per type that occurs, in order of first occurrence, with
    the sum and the number of the expenses of the type. *)
Definition breakdown_of (es : list Expense.t) : list ExpenseBreakdown.t :=
  map (fun t =>
         {| ExpenseBreakdown.expense_type := t;
            ExpenseBreakdown.total_amount :=
              total (map Expense.amount (of_type t es));
            ExpenseBreakdown.count := Z.of_nat (List.length (of_type t es)) |})
      (distinct (map Expense.expense_type es)).

(** ** Creating vehicles and vendors *)


Module CreateVehicleInput.
Record t : Type := mk {
  vin : string;
  make : string;
  model : string;
  year : Z;
  color : string;
  mileage : Z;
  acquisition_cost : Money;
  notes : option (option string)
}.
End CreateVehicleInput.

Module CreateVendorInput.
Record t : Type := mk {
  name : string;
  contact_info : option (option string)
}.
End CreateVendorInput.







(** ** Updating a vendor ([handlers/vendors.ts]) *)

Module UpdateVendorInput.
Record t : Type := mk {
  id : Z;
  name : option string;
  contact_info : option (option string)
}.
End UpdateVendorInput.






(** ** Listing the vendors ([handlers/vendors.ts]) *)

(** [orderBy(asc(column))] on a text column. The order of two texts is
    decided by the collation of the database, which is a parameter here:
    [leb a b] holds when [a] sorts before [b] or equal to it. *)
Fixpoint insert_asc {R : Type} (leb : string -> string -> bool)
  (key : R -> string) (r : R) (sorted : list R) : list R :=
  match sorted with
  | [] => [r]
  | x :: rest =>
      if leb (key r) (key x) then r :: x :: rest
      else x :: insert_asc leb key r rest
  end.

Definition orderBy_asc {R : Type} (leb : string -> string -> bool)
  (key : R -> string) (rows : list R) : list R :=
  fold_right (insert_asc leb key) [] rows.

Definition getVendors (collation : string -> string -> bool)
  : M (list Vendor.t) :=
  fun st => (inr (orderBy_asc collation Vendor.name (vendorsTable st)), st).

(** Two vendors entered out of order. *)
Definition suppliers : Store :=
  mkStore [] [Vendor.mk 1 "Zebra Parts" None 0; Vendor.mk 2 "Alpha Parts" None 0]
          [] [] 1 1.

(** ** Inputs that fit the columns *)




(** * Properties *)

(** ** Equality of grouping keys *)

#[export] Instance EqbLaws_Z : EqbLaws Z.
Proof. constructor. apply Z.eqb_eq. Qed.

#[export] Instance EqbLaws_string : EqbLaws string.
Proof. constructor. apply String.eqb_eq. Qed.

#[export] Instance EqbLaws_VehicleStatus : EqbLaws VehicleStatus.
Proof. constructor. intros a b. destruct a, b; simpl; split; congruence. Qed.

#[export] Instance EqbLaws_ExpenseType : EqbLaws ExpenseType.
Proof. constructor. intros a b. destruct a, b; simpl; split; congruence. Qed.

#[export] Instance EqbLaws_option {A : Type} `{EqbLaws A} : EqbLaws (option A).
Proof.
  constructor. intros x y.
  destruct x as [a|], y as [b|]; simpl; split; try congruence.
  - intros E. apply eqb_eq in E. congruence.
  - intros E. apply eqb_eq. congruence.
Qed.

#[export] Instance EqbLaws_prod {A B : Type} `{EqbLaws A} `{EqbLaws B}
  : EqbLaws (A * B).
Proof.
  constructor. intros x y. simpl. unfold prod_eqb.
  rewrite andb_true_iff, !eqb_eq.
  destruct x, y; simpl. split.
  - intros [E1 E2]. congruence.
  - intros E. inversion E. auto.
Qed.

(** ** Lists and queries *)

Lemma filter_none {A : Type} (p : A -> bool) (l : list A) :
  (forall x, In x l -> p x = false) -> filter p l = [].
Proof.
  induction l as [|a l IH]; simpl; intros H; [reflexivity|].
  rewrite (H a (or_introl eq_refl)). apply IH. intros x Hx. apply H. now right.
Qed.

Lemma filter_all {A : Type} (p : A -> bool) (l : list A) :
  (forall x, In x l -> p x = true) -> filter p l = l.
Proof.
  induction l as [|a l IH]; simpl; intros H; [reflexivity|].
  rewrite (H a (or_introl eq_refl)). f_equal. apply IH. intros x Hx.
  apply H. now right.
Qed.

Lemma select_missing {R : Type} (id_of : R -> Z) (rows : list R) (id : Z) :
  missing id_of rows id -> filter (fun r => id_of r =? id) rows = [].
Proof.
  intros H. apply filter_none. intros r Hr. apply Z.eqb_neq. now apply H.
Qed.

Lemma select_present {R : Type} (id_of : R -> Z) (rows : list R) (r : R) :
  In r rows ->
  exists r' rest, filter (fun x => id_of x =? id_of r) rows = r' :: rest.
Proof.
  intros Hr.
  destruct (filter (fun x => id_of x =? id_of r) rows) as [|r' rest] eqn:E.
  - assert (In r (filter (fun x => id_of x =? id_of r) rows)) as Hin
      by (apply filter_In; split; [assumption | apply Z.eqb_refl]).
    rewrite E in Hin. destruct Hin.
  - eauto.
Qed.

Lemma leftJoin_filter_fst {A B : Type} (on : A -> B -> bool) (p : A -> bool)
  (l : list A) (r : list B) :
  filter (fun row => p (fst row)) (leftJoin on l r)
  = leftJoin on (filter p l) r.
Proof.
  unfold leftJoin. induction l as [|a l IH]; simpl; [reflexivity|].
  rewrite filter_app, IH.
  assert (filter (fun row => p (fst row)) (join_rows on r a)
          = if p a then join_rows on r a else []) as ->.
  { unfold join_rows. destruct (filter (on a) r) as [|b bs].
    - simpl. now destruct (p a).
    - destruct (p a) eqn:E.
      + apply filter_all. intros x Hx. apply in_map_iff in Hx.
        destruct Hx as [b' [<- _]]. exact E.
      + apply filter_none. intros x Hx. apply in_map_iff in Hx.
        destruct Hx as [b' [<- _]]. exact E. }
  destruct (p a); reflexivity.
Qed.

(** ** Missing ids: deletions and lookups *)

Lemma getVehicleProfitLoss_missing (id : Z) (st : Store) :
  missing Vehicle.id (vehiclesTable st) id ->
  getVehicleProfitLoss {| gbi_id := id |} st = None.
Proof.
  intros H. unfold getVehicleProfitLoss, vehicle_expense_join. simpl.
  rewrite (leftJoin_filter_fst _ (fun v => Vehicle.id v =? id)).
  rewrite (select_missing Vehicle.id _ id H). reflexivity.
Qed.


Lemma select_from_missing {R : Type} (table : Store -> list R)
  (id_of : R -> Z) (id : Z) (st : Store) :
  missing id_of (table st) id ->
  select_from table (fun r => id_of r =? id) st = (inr [], st).
Proof.
  intros H. unfold select_from. now rewrite (select_missing id_of _ id H).
Qed.

Lemma with_expenses_same (st : Store) : with_expenses st (expensesTable st) = st.
Proof. now destruct st. Qed.

(** C4 (as amended). For an id within the range of the id columns that is
    in none of its table's rows, [deleteVehicle], [deleteVendor] and
    [deleteTransaction] fail with a not-found error that names the id and
    leave the store as it was; [deleteExpense] does not fail but returns
    [success = false], again without a change; and the lookups
    [getVehicleById], [getVendorById], [getTransactionById],
    [getExpenseById] and [getVehicleProfitLoss] return null. *)
Theorem missing_id_deletes_and_lookups (now : Timestamp) (id : Z) (st : Store) :
  int4 id = true ->
  let input := {| gbi_id := id |} in
  (missing Vehicle.id (vehiclesTable st) id ->
   deleteVehicle input st
   = (inl (NotFound ("Vehicle with id " ++ show_int id ++ " not found")), st)
   /\ getVehicleById input st = (inr None, st)
   /\ getVehicleProfitLoss input st = None)
  /\ (missing Vendor.id (vendorsTable st) id ->
      deleteVendor input st
      = (inl (NotFound ("Vendor with id " ++ show_int id ++ " not found")), st)
      /\ getVendorById input st = (inr None, st))
  /\ (missing Transaction.id (transactionsTable st) id ->
      deleteTransaction now input st
      = (inl (NotFound ("Transaction with ID " ++ show_int id
                        ++ " not found")), st)
      /\ getTransactionById input st = (inr None, st))
  /\ (missing Expense.id (expensesTable st) id ->
      deleteExpense input st = (inr {| success := false |}, st)
      /\ getExpenseById input st = (inr None, st)).
Proof.
  intros _. cbv zeta. repeat split.
  - unfold deleteVehicle, bind. cbn [gbi_id].
    now rewrite (select_from_missing vehiclesTable Vehicle.id id st H).
  - unfold getVehicleById, bind. cbn [gbi_id].
    now rewrite (select_from_missing vehiclesTable Vehicle.id id st H).
  - now apply getVehicleProfitLoss_missing.
  - unfold deleteVendor, bind. cbn [gbi_id].
    now rewrite (select_from_missing vendorsTable Vendor.id id st H).
  - unfold getVendorById, bind. cbn [gbi_id].
    now rewrite (select_from_missing vendorsTable Vendor.id id st H).
  - unfold deleteTransaction, bind. cbn [gbi_id].
    now rewrite (select_from_missing transactionsTable Transaction.id id st H).
  - unfold getTransactionById, bind. cbn [gbi_id].
    now rewrite (select_from_missing transactionsTable Transaction.id id st H).
  - unfold deleteExpense, delete_expenses, bind, ret. simpl.
    rewrite (select_missing Expense.id _ id H). simpl. f_equal.
    rewrite filter_all; [apply with_expenses_same|].
    intros e He. apply negb_true_iff, Z.eqb_neq. now apply H.
  - unfold getExpenseById, bind. cbn [gbi_id].
    now rewrite (select_from_missing expensesTable Expense.id id st H).
Qed.

Lemma missing_in_nil {R : Type} (id_of : R -> Z) (id : Z) : missing id_of [] id.
Proof. intros r []. Qed.

Lemma missing_id_deletes_and_lookups_witness :
  deleteVehicle {| gbi_id := 999 |} Sample.lot
  = (inl (NotFound "Vehicle with id 999 not found"), Sample.lot)
  /\ deleteVendor {| gbi_id := 999 |} Sample.lot
     = (inl (NotFound "Vendor with id 999 not found"), Sample.lot)
  /\ deleteTransaction 0 {| gbi_id := 999 |} Sample.lot
     = (inl (NotFound "Transaction with ID 999 not found"), Sample.lot)
  /\ deleteExpense {| gbi_id := 999 |} Sample.lot
     = (inr {| success := false |}, Sample.lot).
Proof.
  destruct (missing_id_deletes_and_lookups 0 999 Sample.lot eq_refl)
    as [Hvehicle [Hvendor [Htransaction Hexpense]]].
  split; [|split; [|split]].
  - apply Hvehicle. intros r [<-|[<-|[]]]; simpl; lia.
  - apply Hvendor. intros r [<-|[]]; simpl; lia.
  - apply Htransaction. intros r [].
  - apply Hexpense. intros r [<-|[<-|[]]]; simpl; lia.
Defined.

(** C4, the claim as stated fails: on a store without expenses
    [deleteExpense] is not rejected for the id 999; it answers with
    [success = false]. *)
Lemma deleteExpense_missing_is_not_an_error :
  missing Expense.id (expensesTable Sample.empty) 999
  /\ deleteExpense {| gbi_id := 999 |} Sample.empty
     = (inr {| success := false |}, Sample.empty)
  /\ (forall message : string,
        fst (deleteExpense {| gbi_id := 999 |} Sample.empty)
        <> inl (NotFound message)).
Proof.
  split; [apply missing_in_nil|]. split; [reflexivity|].
  intros message. simpl. discriminate.
Qed.

(** ** Deleting a vendor that expenses refer to *)

Lemma select_from_present {R : Type} (table : Store -> list R)
  (id_of : R -> Z) (r : R) (st : Store) :
  In r (table st) ->
  exists r' rest,
    select_from table (fun x => id_of x =? id_of r) st = (inr (r' :: rest), st).
Proof.
  intros Hr. destruct (select_present id_of _ r Hr) as [r' [rest E]].
  exists r', rest. unfold select_from. now rewrite E.
Qed.

Lemma count_expenses_of_vendor_pos (st : Store) (expense : Expense.t) (id : Z) :
  In expense (expensesTable st) -> Expense.vendor_id expense = Some id ->
  exists n, count_expenses_of_vendor id st = (inr n, st) /\ 0 < n.
Proof.
  intros Hin Href. unfold count_expenses_of_vendor. eexists. split; [reflexivity|].
  set (refers := fun e : Expense.t =>
                   match Expense.vendor_id e with
                   | Some n => n =? id
                   | None => false
                   end).
  assert (In expense (filter refers (expensesTable st))) as H.
  { apply filter_In. split; [assumption|]. unfold refers.
    rewrite Href. apply Z.eqb_refl. }
  destruct (filter refers (expensesTable st)); [destruct H|]. simpl. lia.
Qed.

(** C8. When a vendor of the store is referenced by an expense of the
    store, [deleteVendor] on its id fails with the conflict error, and the
    store after the call is the store before it: the vendor row and all
    expenses are unchanged. *)
Theorem deleteVendor_with_expenses_is_refused
  (st : Store) (vendor : Vendor.t) (expense : Expense.t) :
  In vendor (vendorsTable st) ->
  In expense (expensesTable st) ->
  Expense.vendor_id expense = Some (Vendor.id vendor) ->
  deleteVendor {| gbi_id := Vendor.id vendor |} st
  = (inl (Conflict ("Cannot delete vendor with id "
                    ++ show_int (Vendor.id vendor)
                    ++ " because it has associated expenses")), st).
Proof.
  intros Hvendor Hexpense Href.
  destruct (select_from_present vendorsTable Vendor.id vendor st Hvendor)
    as [v' [rest Hsel]].
  destruct (count_expenses_of_vendor_pos st expense _ Hexpense Href)
    as [n [Hcount Hpos]].
  unfold deleteVendor, bind. cbn [gbi_id]. rewrite Hsel. cbn [is_empty].
  rewrite Hcount.
  assert ((n >? 0) = true) as -> by (apply Z.gtb_lt; lia).
  reflexivity.
Qed.

Lemma deleteVendor_with_expenses_is_refused_witness :
  deleteVendor {| gbi_id := 1 |} Sample.lot
  = (inl (Conflict "Cannot delete vendor with id 1 because it has associated expenses"),
     Sample.lot).
Proof.
  apply (deleteVendor_with_expenses_is_refused
           Sample.lot Sample.garage Sample.repair).
  - simpl. auto.
  - simpl. auto.
  - reflexivity.
Defined.

(** ** References to missing rows *)











(** [updateExpense] does not look a vendor id of 0 up either, but writes
    it; the reference to the vendors table then rejects the update. *)
Example updateExpense_vendor_zero_is_rejected_by_the_store :
  updateExpense Sample.update_to_vendor_zero Sample.lot
  = (inl fk_violation, Sample.lot).
Proof. reflexivity. Qed.


(** ** Sale transactions *)

Lemma filter_head_find {A : Type} (p : A -> bool) (l : list A) (a : A) :
  find p l = Some a -> exists rest, filter p l = a :: rest.
Proof.
  induction l as [|x l IH]; simpl; [discriminate|].
  destruct (p x); [intros [= ->]; eauto | exact IH].
Qed.

Lemma find_of_unique {R : Type} (id_of : R -> Z) (rows : list R) (r : R) :
  NoDup (map id_of rows) -> In r rows ->
  find (fun x => id_of x =? id_of r) rows = Some r.
Proof.
  induction rows as [|a rows IH]; simpl; intros Hnd Hin; [destruct Hin|].
  inversion Hnd as [|? ? Hnotin Hnd']; subst.
  destruct Hin as [->|Hin]; [now rewrite Z.eqb_refl|].
  destruct (Z.eqb_spec (id_of a) (id_of r)) as [E|_]; [|now apply IH].
  exfalso. apply Hnotin. rewrite E. now apply in_map.
Qed.




(** What [deleteTransaction] does when the row it finds is a sale. *)
Lemma deleteTransaction_sale (now : Timestamp) (id : Z) (st : Store)
  (t : Transaction.t) :
  find (fun x => Transaction.id x =? id) (transactionsTable st) = Some t ->
  Transaction.type t = tt_sale ->
  deleteTransaction now {| gbi_id := id |} st
  = (inr {| success := true |},
     mkStore
       (map (fun v => if Vehicle.id v =? Transaction.vehicle_id t
                      then revert_to_listed now v else v) (vehiclesTable st))
       (vendorsTable st) (expensesTable st)
       (filter (fun x => negb (Transaction.id x =? id)) (transactionsTable st))
       (expenses_id_seq st) (transactions_id_seq st)).
Proof.
  intros Hfind Hsale. destruct (filter_head_find _ _ _ Hfind) as [rest Hsel].
  unfold deleteTransaction, bind, select_from. cbn [gbi_id]. rewrite Hsel.
  rewrite Hsale. reflexivity.
Qed.







Lemma same_id_same_row {R : Type} (id_of : R -> Z) (rows : list R) (a b : R) :
  NoDup (map id_of rows) -> In a rows -> In b rows -> id_of a = id_of b ->
  a = b.
Proof.
  induction rows as [|x rows IH]; simpl; intros Hnd Ha Hb E; [destruct Ha|].
  inversion Hnd as [|? ? Hnotin Hnd']; subst.
  destruct Ha as [->|Ha], Hb as [->|Hb]; auto.
  - exfalso. apply Hnotin. rewrite E. now apply in_map.
  - exfalso. apply Hnotin. rewrite <- E. now apply in_map.
Qed.

(** C10. For a sale transaction [t] of the store on a vehicle [v],
    [deleteTransaction] on the id of [t] returns [success = true] and
    leaves every row of that vehicle with status [listed] and no sale price
    or date, whatever the status of [v] was; [t] is gone and every other
    transaction, a further sale of [v] included, is still in the store. *)
Theorem deleteTransaction_of_a_sale_always_reverts (now : Timestamp)
  (st : Store) (t : Transaction.t) (v : Vehicle.t) :
  transaction_ids_unique st ->
  In t (transactionsTable st) ->
  Transaction.type t = tt_sale ->
  In v (vehiclesTable st) ->
  Vehicle.id v = Transaction.vehicle_id t ->
  exists st' : Store,
    deleteTransaction now {| gbi_id := Transaction.id t |} st
    = (inr {| success := true |}, st')
    /\ In (revert_to_listed now v) (vehiclesTable st')
    /\ (forall v' : Vehicle.t,
          In v' (vehiclesTable st') ->
          Vehicle.id v' = Transaction.vehicle_id t ->
          Vehicle.status v' = listed
          /\ Vehicle.sale_price v' = None
          /\ Vehicle.sale_date v' = None)
    /\ ~ In t (transactionsTable st')
    /\ (forall t' : Transaction.t,
          In t' (transactionsTable st) -> t' <> t ->
          In t' (transactionsTable st')).
Proof.
  intros Hpk Ht Hsale Hv Hid.
  pose proof (find_of_unique Transaction.id _ t Hpk Ht) as Hfound.
  rewrite (deleteTransaction_sale now _ st t Hfound Hsale).
  eexists. split; [reflexivity|]. cbn [vehiclesTable transactionsTable].
  split; [|split; [|split]].
  - apply in_map_iff. exists v. split; [|assumption].
    rewrite Hid. now rewrite Z.eqb_refl.
  - intros v' Hv' Hid'. apply in_map_iff in Hv'.
    destruct Hv' as [x [Hx _]].
    destruct (Vehicle.id x =? Transaction.vehicle_id t) eqn:E.
    + subst v'. repeat split.
    + subst v'. apply Z.eqb_neq in E. contradiction.
  - intros Hin. apply filter_In in Hin. destruct Hin as [_ Hne].
    now rewrite Z.eqb_refl in Hne.
  - intros t' Ht' Hne. apply filter_In. split; [assumption|].
    apply negb_true_iff, Z.eqb_neq. intros E. apply Hne.
    exact (same_id_same_row Transaction.id _ t' t Hpk Ht' Ht E).
Qed.

Lemma deleteTransaction_of_a_sale_always_reverts_witness :
  Vehicle.status Sample.civic = acquired
  /\ exists st' : Store,
       deleteTransaction Sample.feb_15 {| gbi_id := 1 |} Sample.resold
       = (inr {| success := true |}, st')
       /\ In (revert_to_listed Sample.feb_15 Sample.civic) (vehiclesTable st')
       /\ (forall v' : Vehicle.t,
             In v' (vehiclesTable st') ->
             Vehicle.id v' = 2 ->
             Vehicle.status v' = listed
             /\ Vehicle.sale_price v' = None
             /\ Vehicle.sale_date v' = None)
       /\ ~ In Sample.first_sale (transactionsTable st')
       /\ (forall t' : Transaction.t,
             In t' (transactionsTable Sample.resold) ->
             t' <> Sample.first_sale ->
             In t' (transactionsTable st')).
Proof.
  split; [reflexivity|].
  apply (deleteTransaction_of_a_sale_always_reverts
           Sample.feb_15 Sample.resold Sample.first_sale Sample.civic).
  - unfold transaction_ids_unique. simpl.
    repeat constructor; simpl; intros H; repeat destruct H as [H|H];
      try discriminate; try contradiction.
  - simpl. auto.
  - reflexivity.
  - simpl. auto.
  - reflexivity.
Defined.

(** ** Dashboard figures *)

Lemma count_rows_length {R : Type} (rows : list R) :
  count_rows rows = Z.of_nat (List.length rows).
Proof. reflexivity. Qed.

Lemma sold_since_spec (now : Timestamp) (v : Vehicle.t) :
  sold_since (first_of_month now) v
  = match Vehicle.status v, Vehicle.sale_date v with
    | sold, Some d => first_of_month now <=? d
    | _, _ => false
    end.
Proof.
  unfold sold_since, gte_nullable.
  destruct (Vehicle.status v), (Vehicle.sale_date v); reflexivity.
Qed.

(** C5 (as amended). [vehicles_sold_this_month] is the number of vehicles
    with status [sold] whose sale date is on or after the first day of the
    current calendar month; the sale date is not compared with [now], so a
    sale dated after [now] is counted. *)
Theorem vehicles_sold_this_month_counts_from_first_of_month
  (now : Timestamp) (st : Store) :
  DashboardKpi.vehicles_sold_this_month (getDashboardKpis now st)
  = Z.of_nat (List.length (sold_from_first_of_month now st))
  /\ (forall v : Vehicle.t,
        In v (sold_from_first_of_month now st)
        <-> In v (vehiclesTable st)
            /\ Vehicle.status v = sold
            /\ exists d : Timestamp,
                 Vehicle.sale_date v = Some d /\ first_of_month now <= d).
Proof.
  split.
  - unfold getDashboardKpis. cbn [DashboardKpi.vehicles_sold_this_month].
    unfold sold_from_first_of_month. rewrite count_rows_length. do 2 f_equal.
    apply filter_ext. intros v. apply sold_since_spec.
  - intros v. unfold sold_from_first_of_month. rewrite filter_In.
    split.
    + intros [Hin H]. split; [assumption|].
      destruct (Vehicle.status v); try discriminate.
      destruct (Vehicle.sale_date v) as [d|]; try discriminate.
      split; [reflexivity|]. exists d. split; [reflexivity|].
      now apply Z.leb_le.
    + intros [Hin [Hsold [d [Hdate Hle]]]]. split; [assumption|].
      rewrite Hsold, Hdate. now apply Z.leb_le.
Qed.

(** C5, the claim as stated fails: with the clock at [feb_15], a vehicle
    sold on the following day is counted, although its sale date is outside
    the interval that ends at [now]. *)
Lemma sale_after_now_is_counted :
  Vehicle.status Sample.accord = sold
  /\ Vehicle.sale_date Sample.accord = Some (Sample.feb_15 + 86400000)
  /\ DashboardKpi.vehicles_sold_this_month
       (getDashboardKpis Sample.feb_15 Sample.sold_tomorrow) = 1
  /\ spec_vehicles_sold_this_month Sample.feb_15 Sample.sold_tomorrow = 0
  /\ DashboardKpi.vehicles_sold_this_month
       (getDashboardKpis Sample.feb_15 Sample.sold_tomorrow)
     <> spec_vehicles_sold_this_month Sample.feb_15 Sample.sold_tomorrow.
Proof.
  split; [reflexivity|]. split; [reflexivity|].
  split; [vm_compute; reflexivity|]. split; [vm_compute; reflexivity|].
  vm_compute. discriminate.
Qed.

Lemma total_app (xs ys : list Z) : total (xs ++ ys) = total xs + total ys.
Proof.
  unfold total. induction xs as [|x xs IH]; simpl; [reflexivity|].
  rewrite IH. lia.
Qed.

Lemma total_map_add {A : Type} (f g : A -> Z) (l : list A) :
  total (map (fun a => f a + g a) l) = total (map f l) + total (map g l).
Proof.
  unfold total. induction l as [|a l IH]; simpl; [reflexivity|].
  rewrite IH. lia.
Qed.

Lemma non_null_some {A B : Type} (f : A -> B) (l : list A) :
  non_null (map (fun a => Some (f a)) l) = map f l.
Proof.
  unfold non_null. induction l as [|a l IH]; simpl; [reflexivity|].
  now rewrite IH.
Qed.

(** [parseFloat(sum || '0')] of a sum over rows is the total of the rows. *)
Lemma coalesce_sum {A : Type} (f : A -> Z) (l : list A) :
  COALESCE (SUM (map (fun a => Some (f a)) l)) 0 = total (map f l).
Proof.
  unfold SUM. rewrite non_null_some. now destruct l.
Qed.

Lemma in_inventory_spec (v : Vehicle.t) :
  in_inventory v = not_sold_or_archived v.
Proof.
  unfold in_inventory, not_sold_or_archived. now destruct (Vehicle.status v).
Qed.

(** The expenses of one expense row joined to the vehicles kept by [p]. *)
Lemma joined_amounts_of_expense (p : Vehicle.t -> bool) (e : Expense.t)
  (vs : list Vehicle.t) :
  total (map (fun r : Expense.t * Vehicle.t => Expense.amount (fst r))
             (filter (fun r => p (snd r))
                (map (fun v => (e, v))
                     (filter (fun v => Expense.vehicle_id e =? Vehicle.id v)
                             vs))))
  = total (map (fun v => if Expense.vehicle_id e =? Vehicle.id v
                         then Expense.amount e else 0)
               (filter p vs)).
Proof.
  induction vs as [|v vs IH]; simpl; [reflexivity|].
  destruct (Expense.vehicle_id e =? Vehicle.id v) eqn:E; simpl;
    destruct (p v); simpl; rewrite ?E; unfold total in *; simpl; lia.
Qed.

(** The sum over the join of expenses and vehicles is the sum, over the
    vehicles, of the expenses attached to each. *)
Lemma join_total_by_vehicle (p : Vehicle.t -> bool) (st : Store) :
  total (map (fun r : Expense.t * Vehicle.t => Expense.amount (fst r))
             (filter (fun r => p (snd r)) (expense_vehicle_join st)))
  = total (map (fun v => expenses_total st (Vehicle.id v))
               (filter p (vehiclesTable st))).
Proof.
  unfold expense_vehicle_join, innerJoin, expenses_total, expenses_of.
  induction (expensesTable st) as [|e es IH]; simpl.
  - induction (filter p (vehiclesTable st)) as [|v vs IHv]; simpl;
      [reflexivity|exact IHv].
  - rewrite filter_app, map_app, total_app, IH, joined_amounts_of_expense.
    rewrite <- total_map_add. f_equal. apply map_ext. intros v.
    rewrite (Z.eqb_sym (Expense.vehicle_id e) (Vehicle.id v)).
    destruct (Vehicle.id v =? Expense.vehicle_id e); simpl; [|reflexivity].
    unfold total. simpl. reflexivity.
Qed.

(** C7. [total_inventory] is the number of vehicles whose status is
    neither [sold] nor [archived], and [total_inventory_value] is the sum of
    their acquisition costs plus the sum of the amounts of the expenses
    attached to them. *)
Theorem dashboard_inventory_count_and_value (now : Timestamp) (st : Store) :
  let inventory := filter not_sold_or_archived (vehiclesTable st) in
  DashboardKpi.total_inventory (getDashboardKpis now st)
  = Z.of_nat (List.length inventory)
  /\ DashboardKpi.total_inventory_value (getDashboardKpis now st)
     = total (map Vehicle.acquisition_cost inventory)
       + total (map (fun v => expenses_total st (Vehicle.id v)) inventory).
Proof.
  intros inventory. unfold getDashboardKpis.
  cbn [DashboardKpi.total_inventory DashboardKpi.total_inventory_value].
  assert (filter in_inventory (vehiclesTable st) = inventory) as ->
    by (apply filter_ext, in_inventory_spec).
  split; [reflexivity|].
  rewrite (coalesce_sum Vehicle.acquisition_cost).
  rewrite (coalesce_sum (fun r : Expense.t * Vehicle.t => Expense.amount (fst r))).
  rewrite join_total_by_vehicle. f_equal. f_equal. f_equal.
  apply filter_ext, in_inventory_spec.
Qed.

(** The example of the specification: a vehicle bought for 15000 with
    expenses of 2000 and 500 contributes 17500. *)
Example inventory_value_of_one_vehicle :
  DashboardKpi.total_inventory_value
    (getDashboardKpis Sample.feb_15 Sample.workshop) = 1750000
  /\ DashboardKpi.total_inventory
       (getDashboardKpis Sample.feb_15 Sample.workshop) = 1.
Proof. split; vm_compute; reflexivity. Qed.

(** ** Grouping the join of vehicles and expenses *)

Section GroupByLeftJoin.

Context {A B K : Type} `{EqbLaws K}.
Variable kf : A -> K.
Variable on : A -> B -> bool.
Variable r : list B.

Lemma eqb_refl_key (k : K) : eqb k k = true.
Proof. now apply eqb_eq. Qed.

Lemma distinct_incl (keys : list K) (k : K) :
  In k (distinct keys) -> In k keys.
Proof.
  induction keys as [|x keys IH]; simpl; [auto|].
  intros [->|Hin]; [now left|].
  apply filter_In in Hin. right. now apply IH.
Qed.

Lemma distinct_fresh_head (k : K) (keys : list K) :
  ~ In k keys -> filter (fun k' => negb (eqb k k')) (distinct keys) = distinct keys.
Proof.
  intros Hnotin. apply filter_all. intros x Hx. apply negb_true_iff.
  destruct (eqb k x) eqn:E; [|reflexivity].
  apply eqb_eq in E. subst x. exfalso. now apply Hnotin, distinct_incl.
Qed.

(** A block of equal keys in front of keys that differ from it. *)
Lemma distinct_block (k : K) (block rest : list K) :
  block <> [] -> (forall x, In x block -> x = k) -> ~ In k rest ->
  distinct (block ++ rest) = k :: distinct rest.
Proof.
  induction block as [|x block IH]; intros Hne Hall Hnotin; [congruence|].
  assert (x = k) as -> by (apply Hall; now left).
  simpl. f_equal. destruct block as [|y block].
  - simpl. now apply distinct_fresh_head.
  - rewrite IH; [|discriminate|intros z Hz; apply Hall; now right|assumption].
    simpl. rewrite eqb_refl_key. simpl. now apply distinct_fresh_head.
Qed.

Lemma join_rows_fst (a : A) (row : A * option B) :
  In row (join_rows on r a) -> fst row = a.
Proof.
  unfold join_rows. destruct (filter (on a) r) as [|b bs].
  - intros [<-|[]]. reflexivity.
  - intros Hin. apply in_map_iff in Hin. now destruct Hin as [b' [<- _]].
Qed.

Lemma join_rows_not_nil (a : A) : join_rows on r a <> [].
Proof.
  unfold join_rows. destruct (filter (on a) r); discriminate.
Qed.

Lemma leftJoin_fst (l : list A) (row : A * option B) :
  In row (leftJoin on l r) -> In (fst row) l.
Proof.
  unfold leftJoin. intros Hin. apply in_flat_map in Hin.
  destruct Hin as [a [Ha Hrow]]. now rewrite (join_rows_fst a row Hrow).
Qed.

Lemma distinct_keys_of_leftJoin (l : list A) :
  NoDup (map kf l) ->
  distinct (map (fun row => kf (fst row)) (leftJoin on l r)) = map kf l.
Proof.
  induction l as [|a l IH]; intros Hnd; [reflexivity|].
  inversion Hnd as [|? ? Hnotin Hnd']; subst.
  change (leftJoin on (a :: l) r) with (join_rows on r a ++ leftJoin on l r).
  rewrite map_app. rewrite (distinct_block (kf a)).
  - simpl. now rewrite IH.
  - intros E. apply map_eq_nil in E. now apply join_rows_not_nil in E.
  - intros x Hx. apply in_map_iff in Hx. destruct Hx as [row [<- Hrow]].
    now rewrite (join_rows_fst a row Hrow).
  - intros Hin. apply in_map_iff in Hin. destruct Hin as [row [E Hrow]].
    apply Hnotin. rewrite <- E. apply in_map. now apply leftJoin_fst.
Qed.

Lemma filter_by_key (l : list A) (a : A) :
  NoDup (map kf l) -> In a l ->
  filter (fun x => eqb (kf a) (kf x)) l = [a].
Proof.
  induction l as [|x l IH]; simpl; intros Hnd Hin; [destruct Hin|].
  inversion Hnd as [|? ? Hnotin Hnd']; subst.
  destruct Hin as [->|Hin].
  - rewrite eqb_refl_key. f_equal. apply filter_none. intros y Hy.
    destruct (eqb (kf a) (kf y)) eqn:E; [|reflexivity].
    apply eqb_eq in E. exfalso. apply Hnotin. rewrite E. now apply in_map.
  - destruct (eqb (kf a) (kf x)) eqn:E.
    + apply eqb_eq in E. exfalso. apply Hnotin. rewrite <- E. now apply in_map.
    + now apply IH.
Qed.

(** With a key that tells the left rows apart, the groups of a left join
    are the left rows, each with its joined rows. *)
Lemma groupBy_leftJoin (l : list A) :
  NoDup (map kf l) ->
  groupBy (fun row => kf (fst row)) (leftJoin on l r)
  = map (fun a => (kf a, join_rows on r a)) l.
Proof.
  intros Hnd. unfold groupBy. rewrite (distinct_keys_of_leftJoin l Hnd).
  rewrite map_map. apply map_ext_in. intros a Ha. f_equal.
  rewrite (leftJoin_filter_fst on (fun x => eqb (kf a) (kf x))).
  rewrite (filter_by_key l a Hnd Ha). unfold leftJoin. simpl.
  apply app_nil_r.
Qed.

End GroupByLeftJoin.

Lemma NoDup_map_filter {A K : Type} (f : A -> K) (p : A -> bool) (l : list A) :
  NoDup (map f l) -> NoDup (map f (filter p l)).
Proof.
  induction l as [|a l IH]; simpl; intros Hnd; [constructor|].
  inversion Hnd as [|? ? Hnotin Hnd']; subst.
  destruct (p a); [|now apply IH]. simpl. constructor; [|now apply IH].
  intros Hin. apply Hnotin. apply in_map_iff in Hin.
  destruct Hin as [x [E Hx]]. apply filter_In in Hx. rewrite <- E.
  apply in_map. tauto.
Qed.

Lemma NoDup_map_finer {A K K' : Type} (f : A -> K) (g : A -> K') (l : list A) :
  (forall a b, g a = g b -> f a = f b) ->
  NoDup (map f l) -> NoDup (map g l).
Proof.
  intros Hfiner. induction l as [|a l IH]; simpl; intros Hnd; [constructor|].
  inversion Hnd as [|? ? Hnotin Hnd']; subst. constructor; [|now apply IH].
  intros Hin. apply Hnotin. apply in_map_iff in Hin.
  destruct Hin as [x [E Hx]]. rewrite <- (Hfiner x a E). now apply in_map.
Qed.

(** The summed expense column of the rows joined to one vehicle. *)
Lemma joined_total (st : Store) (v : Vehicle.t) :
  COALESCE
    (SUM (joined_amounts
            (join_rows (fun v e => Vehicle.id v =? Expense.vehicle_id e)
                       (expensesTable st) v))) 0
  = expenses_total st (Vehicle.id v).
Proof.
  unfold expenses_total, expenses_of, join_rows.
  rewrite (filter_ext (fun e => Expense.vehicle_id e =? Vehicle.id v)
                      (fun e => Vehicle.id v =? Expense.vehicle_id e))
    by (intros e; apply Z.eqb_sym).
  destruct (filter _ (expensesTable st)) as [|e es] eqn:E; [reflexivity|].
  unfold joined_amounts. rewrite map_map. cbn [snd option_map].
  apply (coalesce_sum Expense.amount).
Qed.

(** ** Inventory aging *)

Lemma getInventoryAging_rows (now : Timestamp) (st : Store) :
  vehicle_ids_unique st ->
  getInventoryAging now st
  = map (aging_of now st) (filter is_listed (vehiclesTable st)).
Proof.
  intros Hpk. unfold getInventoryAging, vehicle_expense_join.
  rewrite (leftJoin_filter_fst _
             (fun v => VehicleStatus_eqb (Vehicle.status v) listed)).
  rewrite (filter_ext (fun v => VehicleStatus_eqb (Vehicle.status v) listed)
                      is_listed)
    by (intros v; unfold is_listed; now destruct (Vehicle.status v)).
  change aging_key with
    (fun row : Vehicle.t * option Expense.t => vehicle_aging_key (fst row)).
  rewrite groupBy_leftJoin.
  - rewrite map_map. apply map_ext. intros v.
    unfold aging_select, vehicle_aging_key, aging_of.
    now rewrite joined_total.
  - apply (NoDup_map_finer Vehicle.id).
    + intros a b E. unfold vehicle_aging_key in E. now inversion E.
    + now apply NoDup_map_filter.
Qed.

(** C6. Under the primary key of the vehicles table, every record of
    [getInventoryAging] belongs to a vehicle of the store whose status is
    [listed]; its [days_in_inventory] is the whole number of days from the
    acquisition date to [now], truncated, and its [total_cost] is the
    acquisition cost plus the sum of the amounts of the vehicle's expenses.
    Every listed vehicle has its record. *)
Theorem inventory_aging_is_about_listed_vehicles (now : Timestamp) (st : Store) :
  vehicle_ids_unique st ->
  (forall r : InventoryAging.t,
     In r (getInventoryAging now st) ->
     exists v : Vehicle.t,
       In v (vehiclesTable st)
       /\ Vehicle.status v = listed
       /\ InventoryAging.vehicle_id r = Vehicle.id v
       /\ InventoryAging.status r = listed
       /\ InventoryAging.days_in_inventory r
          = Z.quot (now - Vehicle.acquisition_date v) 86400000
       /\ InventoryAging.total_cost r
          = Vehicle.acquisition_cost v
            + total (map Expense.amount
                         (filter (fun e => Expense.vehicle_id e =? Vehicle.id v)
                                 (expensesTable st))))
  /\ (forall v : Vehicle.t,
        In v (vehiclesTable st) -> Vehicle.status v = listed ->
        In (aging_of now st v) (getInventoryAging now st)).
Proof.
  intros Hpk. rewrite (getInventoryAging_rows now st Hpk). split.
  - intros r Hr. apply in_map_iff in Hr. destruct Hr as [v [<- Hv]].
    apply filter_In in Hv. destruct Hv as [Hv Hlisted]. exists v.
    unfold is_listed in Hlisted.
    destruct (Vehicle.status v) eqn:Hstatus; try discriminate.
    cbn [aging_of InventoryAging.vehicle_id InventoryAging.status
         InventoryAging.days_in_inventory InventoryAging.total_cost].
    repeat split; assumption.
  - intros v Hv Hstatus. apply in_map. apply filter_In. split; [assumption|].
    unfold is_listed. now rewrite Hstatus.
Qed.

Lemma inventory_aging_is_about_listed_vehicles_witness :
  getInventoryAging Sample.feb_15 Sample.lot
  = [aging_of Sample.feb_15 Sample.lot Sample.camry]
  /\ In (aging_of Sample.feb_15 Sample.lot Sample.camry)
        (getInventoryAging Sample.feb_15 Sample.lot).
Proof.
  split; [reflexivity|].
  apply (inventory_aging_is_about_listed_vehicles Sample.feb_15 Sample.lot).
  - unfold vehicle_ids_unique. simpl.
    repeat constructor; simpl; intros H; repeat destruct H as [H|H];
      try discriminate; try contradiction.
  - simpl. auto.
  - reflexivity.
Defined.

(** ** Profit and loss *)

Lemma where_forallb {R : Type} (conditions : list (R -> bool)) (rows : list R) :
  where_ conditions rows
  = filter (fun r => forallb (fun c => c r) conditions) rows.
Proof.
  destruct conditions; [|reflexivity]. simpl. symmetry.
  apply filter_all. reflexivity.
Qed.

Lemma vehicle_filter_conditions_pass {R : Type} (veh : R -> Vehicle.t)
  (filters : option FinancialReportFilters.t) (r : R) :
  forallb (fun c => c r) (vehicle_filter_conditions veh filters)
  = passes_filters filters (veh r).
Proof.
  unfold vehicle_filter_conditions, passes_filters, push_on, field,
    truthy_date, truthy_status.
  destruct filters as [[start_date end_date status make model]|];
    [|reflexivity].
  cbn [FinancialReportFilters.start_date FinancialReportFilters.end_date
       FinancialReportFilters.status FinancialReportFilters.make
       FinancialReportFilters.model].
  destruct start_date, end_date, status, make as [[|? ?]|],
    model as [[|? ?]|];
    cbn [truthy_string app forallb];
    rewrite ?andb_true_r, ?andb_true_l, ?andb_assoc; reflexivity.
Qed.

Lemma getProfitLossReport_rows (filters : option FinancialReportFilters.t)
  (st : Store) :
  vehicle_ids_unique st ->
  getProfitLossReport filters st
  = map (profit_loss_of st)
        (filter (passes_filters filters) (vehiclesTable st)).
Proof.
  intros Hpk. unfold getProfitLossReport, vehicle_expense_join.
  rewrite where_forallb.
  rewrite (filter_ext _ (fun r : Vehicle.t * option Expense.t =>
                           passes_filters filters (fst r)))
    by (intros r; apply vehicle_filter_conditions_pass).
  rewrite (leftJoin_filter_fst _ (passes_filters filters)).
  change profit_loss_key with
    (fun row : Vehicle.t * option Expense.t =>
       vehicle_profit_loss_key (fst row)).
  rewrite groupBy_leftJoin.
  - rewrite !map_map. apply map_ext. intros v.
    unfold profit_loss_select, vehicle_profit_loss_key, profit_loss_of.
    now rewrite joined_total.
  - apply (NoDup_map_finer Vehicle.id).
    + intros a b E. unfold vehicle_profit_loss_key in E. now inversion E.
    + now apply NoDup_map_filter.
Qed.

(** Away from a sale price of 0 the handlers build the record of the
    specification. *)
Lemma profit_loss_of_spec (st : Store) (v : Vehicle.t) :
  Vehicle.sale_price v <> Some 0 ->
  profit_loss_of st v = spec_profit_loss_of st v.
Proof.
  intros Hnz. unfold profit_loss_of, to_profit_loss, spec_profit_loss_of.
  cbn [plr_vehicle_id plr_acquisition_cost plr_sale_price plr_total_expenses].
  destruct (Vehicle.sale_price v) as [p|]; [|reflexivity].
  unfold truthy_number. destruct (Z.eqb_spec p 0) as [E|_]; [|reflexivity].
  exfalso. apply Hnz. now rewrite E.
Qed.

(** C1, where the handlers leave the claim: a sale of the camry for the
    amount 0, recorded through [createTransaction], leaves the vehicle with
    a sale price of 0. Both profit and loss handlers then report it as sold,
    with the sale price 0 and a total cost of 17500.00, but with a null
    [profit_loss], where the claim asks for the sale price less the cost:
    the record is one of the records of the report, and it is the record
    of [getVehicleProfitLoss]. *)
Theorem zero_sale_price_is_reported_without_profit_loss :
  let st := Sample.after_give_away in
  let reported :=
    {| ProfitLoss.vehicle_id := 1;
       ProfitLoss.acquisition_cost := 1500000;
       ProfitLoss.total_expenses := 250000;
       ProfitLoss.total_cost := 1750000;
       ProfitLoss.sale_price := Some 0;
       ProfitLoss.profit_loss := None;
       ProfitLoss.is_sold := true |} in
  (exists t : Transaction.t,
     createTransaction Sample.feb_15 Sample.give_away_camry Sample.lot
     = (inr t, st))
  /\ option_map Vehicle.sale_price (find_vehicle st 1) = Some (Some 0)
  /\ In reported (getProfitLossReport None st)
  /\ getVehicleProfitLoss {| gbi_id := 1 |} st = Some reported
  /\ option_map (fun v => ProfitLoss.profit_loss (spec_profit_loss_of st v))
                (find_vehicle st 1)
     = Some (Some (0 - 1750000)).
Proof.
  cbv zeta. split; [eexists; vm_compute; reflexivity|].
  split; [vm_compute; reflexivity|].
  split; [vm_compute; left; reflexivity|].
  split; vm_compute; reflexivity.
Qed.

(** ** CSV export of the expense breakdown *)

(** C3, where the export leaves the claim: with a start date of the first
    of February, [getExpenseBreakdown] keeps the two expenses of the camry,
    both dated in February, and returns their two records, in one order or
    the other, while [exportExpenseBreakdownToCSV] compares the start date
    with the acquisition date of the vehicle, the first of January, and
    exports the header line alone: not the two records in the layout of
    the specification, in whichever order. *)
Theorem export_compares_dates_with_the_acquisition_date :
  let filters := Sample.since_february in
  let repairs :=
    {| ExpenseBreakdown.expense_type := et_repairs;
       ExpenseBreakdown.total_amount := 200000;
       ExpenseBreakdown.count := 1 |} in
  let detailing :=
    {| ExpenseBreakdown.expense_type := et_detailing;
       ExpenseBreakdown.total_amount := 50000;
       ExpenseBreakdown.count := 1 |} in
  Permutation (getExpenseBreakdown filters Sample.lot) [repairs; detailing]
  /\ exportExpenseBreakdownToCSV filters Sample.lot
     = ("Expense Type,Total Amount,Count" ++ newline)%string
  /\ format_breakdown [repairs; detailing]
     = ("Expense Type,Total Amount,Count" ++ newline
        ++ quoted "repairs" ++ ",2000.00,1" ++ newline
        ++ quoted "detailing" ++ ",500.00,1" ++ newline)%string
  /\ exportExpenseBreakdownToCSV filters Sample.lot
     <> format_breakdown [repairs; detailing]
  /\ exportExpenseBreakdownToCSV filters Sample.lot
     <> format_breakdown [detailing; repairs].
Proof.
  cbv zeta. split; [vm_compute; apply Permutation_refl|].
  split; [vm_compute; reflexivity|].
  split; [vm_compute; reflexivity|].
  split; vm_compute; discriminate.
Qed.

Lemma append_assoc (a b c : string) :
  ((a ++ b) ++ c = a ++ (b ++ c))%string.
Proof. induction a as [|ch a IH]; simpl; [reflexivity|now rewrite IH]. Qed.

Lemma append_nil_r (a : string) : (a ++ EmptyString = a)%string.
Proof. induction a as [|ch a IH]; simpl; [reflexivity|now rewrite IH]. Qed.

Lemma fold_left_append {A : Type} (f : A -> string) (l : list A) (init : string) :
  fold_left (fun csv item => (csv ++ f item)%string) l init
  = (init ++ fold_right String.append EmptyString (map f l))%string.
Proof.
  revert init. induction l as [|a l IH]; intros init; simpl.
  - now rewrite append_nil_r.
  - now rewrite IH, append_assoc.
Qed.

Lemma groupBy_group_not_nil {K R : Type} `{EqbLaws K} (key : R -> K)
  (rows : list R) (k : K) (group : list R) :
  In (k, group) (groupBy key rows) -> group <> [].
Proof.
  unfold groupBy. intros Hin. apply in_map_iff in Hin.
  destruct Hin as [k' [E Hk]]. inversion E; subst; clear E.
  apply distinct_incl, in_map_iff in Hk. destruct Hk as [r [Hkey Hr]].
  assert (In r (filter (fun x => eqb k (key x)) rows)) as Hin
    by (apply filter_In; split; [assumption|now apply eqb_eq]).
  intros E. rewrite E in Hin. destruct Hin.
Qed.

(** Every row of a breakdown query carries a sum. *)
Lemma breakdown_select_total {R : Type} (expense : R -> Expense.t)
  (key : R -> ExpenseType) (rows : list R) (result : BreakdownRow) :
  In result (map (breakdown_select expense) (groupBy key rows)) ->
  br_total_amount result <> None.
Proof.
  intros Hin. apply in_map_iff in Hin. destruct Hin as [[k group] [<- Hg]].
  apply groupBy_group_not_nil in Hg. cbn [breakdown_select br_total_amount].
  unfold SUM. rewrite non_null_some. destruct group; [congruence|discriminate].
Qed.

(** The export loop writes the breakdown records in the layout of the
    specification. *)
Lemma breakdown_csv_format (results : list BreakdownRow) :
  (forall result, In result results -> br_total_amount result <> None) ->
  breakdown_csv results = format_breakdown (map to_breakdown results).
Proof.
  intros Hsum. unfold breakdown_csv, format_breakdown.
  rewrite (fold_left_append
             (fun item =>
                (join_comma [quoted (ExpenseType_text (br_expense_type item));
                             amount_text (br_total_amount item);
                             show_int (br_count item)] ++ newline)%string)).
  f_equal. rewrite map_map. f_equal. apply map_ext_in. intros item Hitem.
  unfold breakdown_line, to_breakdown.
  cbn [ExpenseBreakdown.expense_type ExpenseBreakdown.total_amount
       ExpenseBreakdown.count join_comma].
  destruct (br_total_amount item) as [amount|] eqn:E;
    [|now apply Hsum in Hitem].
  cbn [amount_text COALESCE]. now rewrite !append_assoc.
Qed.

(** X27. Without a date filter the export is the breakdown of
    [getExpenseBreakdown] in the layout of the specification: the two
    handlers differ in the column that a date filter is compared with. *)
Lemma export_formats_the_breakdown_without_dates
  (filters : option FinancialReportFilters.t) (st : Store) :
  field FinancialReportFilters.start_date filters = None ->
  field FinancialReportFilters.end_date filters = None ->
  exportExpenseBreakdownToCSV filters st
  = format_breakdown (getExpenseBreakdown filters st).
Proof.
  intros Hstart Hend.
  assert (forall {R : Type} (expense : R -> Expense.t)
                 (key : R -> ExpenseType) (rows : list R),
            breakdown_csv (map (breakdown_select expense) (groupBy key rows))
            = format_breakdown
                (map to_breakdown
                     (map (breakdown_select expense) (groupBy key rows))))
    as Hformat.
  { intros R expense key rows. apply breakdown_csv_format.
    intros result. apply breakdown_select_total. }
  destruct filters as [[start_date end_date status make model]|];
    [|apply Hformat].
  cbn [field FinancialReportFilters.start_date
       FinancialReportFilters.end_date] in Hstart, Hend. subst.
  unfold exportExpenseBreakdownToCSV, getExpenseBreakdown,
    vehicle_filter_conditions.
  cbn [field FinancialReportFilters.start_date FinancialReportFilters.end_date
       FinancialReportFilters.status FinancialReportFilters.make
       FinancialReportFilters.model truthy_opt push_condition push_on orb].
  destruct status as [status|], make as [[|c make]|], model as [[|c' model]|];
    cbn [truthy_opt truthy_status truthy_date truthy_string push_condition
         push_on orb app map];
    rewrite Hformat; reflexivity.
Qed.

(** ** Listing handlers *)

Lemma insert_desc_perm {R : Type} (key : R -> Z) (r : R) (l : list R) :
  Permutation (insert_desc key r l) (r :: l).
Proof.
  induction l as [|x l IH]; simpl; [reflexivity|].
  destruct (key x <=? key r); [reflexivity|].
  rewrite IH. apply perm_swap.
Qed.

Lemma orderBy_desc_perm {R : Type} (key : R -> Z) (l : list R) :
  Permutation (orderBy_desc key l) l.
Proof.
  induction l as [|x l IH]; simpl; [reflexivity|].
  rewrite insert_desc_perm. now constructor.
Qed.

Lemma insert_desc_sorted {R : Type} (key : R -> Z) (r : R) (l : list R) :
  StronglySorted (fun a b => key b <= key a) l ->
  StronglySorted (fun a b => key b <= key a) (insert_desc key r l).
Proof.
  induction l as [|x l IH]; simpl; intros Hs.
  - repeat constructor.
  - inversion Hs as [|? ? Hs' Hall]; subst.
    destruct (Z.leb_spec (key x) (key r)) as [Hle|Hlt].
    + constructor; [assumption|]. constructor; [assumption|].
      eapply Forall_impl; [|exact Hall]. simpl. intros a Ha. lia.
    + constructor; [now apply IH|].
      apply (Permutation_Forall (Permutation_sym (insert_desc_perm key r l))).
      constructor; [lia|assumption].
Qed.

Lemma orderBy_desc_sorted {R : Type} (key : R -> Z) (l : list R) :
  StronglySorted (fun a b => key b <= key a) (orderBy_desc key l).
Proof.
  induction l as [|x l IH]; simpl; [constructor|].
  now apply insert_desc_sorted.
Qed.

(** X1. [getVehicles], [getExpenses] and [getTransactions] return every row of
    their table, each once, from the latest date to the earliest, and leave
    the store alone. *)
Theorem table_listings_are_sorted_permutations (st : Store) :
  (exists l, getVehicles st = (inr l, st)
             /\ Permutation l (vehiclesTable st)
             /\ StronglySorted
                  (fun a b => Vehicle.acquisition_date b
                              <= Vehicle.acquisition_date a) l)
  /\ (exists l, getExpenses st = (inr l, st)
                /\ Permutation l (expensesTable st)
                /\ StronglySorted
                     (fun a b => Expense.expense_date b
                                 <= Expense.expense_date a) l)
  /\ (exists l, getTransactions st = (inr l, st)
                /\ Permutation l (transactionsTable st)
                /\ StronglySorted
                     (fun a b => Transaction.transaction_date b
                                 <= Transaction.transaction_date a) l).
Proof.
  split; [|split]; eexists; (split; [reflexivity|]);
    (split; [|apply orderBy_desc_sorted]);
    rewrite orderBy_desc_perm; rewrite filter_all; auto.
Qed.

(** X2. For an id within the range of the id column,
    [getExpensesByVehicleId] and [getTransactionsByVehicleId] return
    exactly the rows of the vehicle, from the latest date to the earliest;
    for such an id without rows the answer is the empty list, not an
    error. *)
Theorem vehicle_listings_select_and_sort (id : Z) (st : Store) :
  int4 id = true ->
  (exists l, getExpensesByVehicleId {| gbi_id := id |} st = (inr l, st)
             /\ (forall e, In e l
                           <-> In e (expensesTable st)
                               /\ Expense.vehicle_id e = id)
             /\ Permutation l (expenses_of st id)
             /\ StronglySorted
                  (fun a b => Expense.expense_date b
                              <= Expense.expense_date a) l)
  /\ (exists l, getTransactionsByVehicleId {| gbi_id := id |} st = (inr l, st)
                /\ (forall t, In t l
                              <-> In t (transactionsTable st)
                                  /\ Transaction.vehicle_id t = id)
                /\ Permutation
                     l (filter (fun t => Transaction.vehicle_id t =? id)
                               (transactionsTable st))
                /\ StronglySorted
                     (fun a b => Transaction.transaction_date b
                                 <= Transaction.transaction_date a) l).
Proof.
  intros _.
  split; eexists; (split; [reflexivity|]); cbn [gbi_id];
    (split; [|split; [apply orderBy_desc_perm|apply orderBy_desc_sorted]]).
  - intros e. split.
    + intros H. apply (Permutation_in _ (orderBy_desc_perm _ _)) in H.
      apply filter_In in H. now rewrite Z.eqb_eq in H.
    + intros H. apply (Permutation_in _ (Permutation_sym (orderBy_desc_perm _ _))).
      apply filter_In. now rewrite Z.eqb_eq.
  - intros t. split.
    + intros H. apply (Permutation_in _ (orderBy_desc_perm _ _)) in H.
      apply filter_In in H. now rewrite Z.eqb_eq in H.
    + intros H. apply (Permutation_in _ (Permutation_sym (orderBy_desc_perm _ _))).
      apply filter_In. now rewrite Z.eqb_eq.
Qed.

Lemma vehicle_listings_select_and_sort_witness :
  (exists l, getExpensesByVehicleId {| gbi_id := 1 |} Sample.lot
             = (inr l, Sample.lot)
             /\ Permutation l [Sample.repair; Sample.polish])
  /\ getTransactionsByVehicleId {| gbi_id := 999 |} Sample.lot
     = (inr [], Sample.lot).
Proof.
  split.
  - destruct (vehicle_listings_select_and_sort 1 Sample.lot eq_refl)
      as [[l [E [_ [Hperm _]]]] _].
    exists l. split; [exact E|exact Hperm].
  - destruct (vehicle_listings_select_and_sort 999 Sample.lot eq_refl)
      as [_ [l [E [_ [Hperm _]]]]].
    rewrite E. apply Permutation_sym, Permutation_nil in Hperm.
    now rewrite Hperm.
Defined.

(** ** Consistency of the store *)

Lemma preserves_ret {A : Type} (a : A) : preserves (ret a).
Proof. intros st H. exact H. Qed.

Lemma preserves_throw {A : Type} (e : Error) : preserves (@throw A e).
Proof. intros st H. exact H. Qed.

Lemma preserves_bind {A B : Type} (m : M A) (k : A -> M B) :
  preserves m -> (forall a, preserves (k a)) -> preserves (bind m k).
Proof.
  intros Hm Hk st H. unfold bind. specialize (Hm st H).
  destruct (m st) as [[e|a] st']; simpl in *; [assumption|].
  now apply Hk.
Qed.

Lemma preserves_select {R : Type} (table : Store -> list R) (cond : R -> bool) :
  preserves (select_from table cond).
Proof. intros st H. exact H. Qed.

Lemma preserves_first_row {A : Type} (rows : list A) : preserves (first_row rows).
Proof. destruct rows; [apply preserves_throw|apply preserves_ret]. Qed.

Lemma preserves_count (id : Z) : preserves (count_expenses_of_vendor id).
Proof. intros st H. exact H. Qed.

Lemma NoDup_map_app_fresh {R : Type} (id_of : R -> Z) (rows : list R) (r : R) :
  NoDup (map id_of rows) -> missing id_of rows (id_of r) ->
  NoDup (map id_of (rows ++ [r])).
Proof.
  intros Hnd Hfresh. rewrite map_app. simpl.
  apply NoDup_app; [assumption|repeat constructor; auto|].
  intros x Hx [<-|[]]. apply in_map_iff in Hx.
  destruct Hx as [y [E Hy]]. now apply (Hfresh y).
Qed.

Lemma seq_is_fresh {R : Type} (id_of : R -> Z) (rows : list R) (seq : Z) :
  (forall r, In r rows -> id_of r < seq) -> missing id_of rows seq.
Proof. intros H r Hr E. apply H in Hr. lia. Qed.

(** Drawing an id from a sequence keeps the store consistent. *)
Lemma consistent_expense_id_drawn (st : Store) :
  consistent st -> consistent (expense_id_drawn st).
Proof.
  intros H. destruct H. constructor; cbn [expense_id_drawn vehiclesTable
    vendorsTable expensesTable transactionsTable expenses_id_seq
    transactions_id_seq]; try assumption.
  intros e He. apply expense_seq_ahead0 in He. lia.
Qed.

Lemma consistent_transaction_id_drawn (st : Store) :
  consistent st -> consistent (transaction_id_drawn st).
Proof.
  intros H. destruct H. constructor; cbn [transaction_id_drawn vehiclesTable
    vendorsTable expensesTable transactionsTable expenses_id_seq
    transactions_id_seq]; try assumption.
  intros t Ht. apply transaction_seq_ahead0 in Ht. lia.
Qed.

Lemma preserves_insert_expense (now : Timestamp) (vehicle_id : Z)
  (vendor_id : option Z) (amount : Money) (expense_type : ExpenseType)
  (description : string) (expense_date : Timestamp) :
  preserves (insert_expense now vehicle_id vendor_id amount expense_type
                            description expense_date).
Proof.
  intros st H. unfold insert_expense. cbn [Expense.id].
  destruct (negb (int4 vehicle_id && fits int4 vendor_id)); [exact H|].
  destruct (negb (numeric_10_2 amount)); [exact H|].
  destruct (existsb _ (expensesTable st));
    [now apply consistent_expense_id_drawn|].
  destruct (vehicle_exists st vehicle_id && vendor_ref_ok st vendor_id) eqn:Hfk;
    [|now apply consistent_expense_id_drawn].
  apply andb_true_iff in Hfk. destruct Hfk as [Hveh Hven].
  destruct H. cbn [negb snd]. constructor; cbn [vehiclesTable vendorsTable
    expensesTable transactionsTable expenses_id_seq transactions_id_seq];
    try assumption.
  - apply NoDup_map_app_fresh; [assumption|]. now apply seq_is_fresh.
  - intros e He. apply in_app_or in He. destruct He as [He|[<-|[]]];
      [now apply expense_vehicle_fk0|exact Hveh].
  - intros e He. apply in_app_or in He. destruct He as [He|[<-|[]]];
      [now apply expense_vendor_fk0|exact Hven].
  - intros e He. apply in_app_or in He. destruct He as [He|[<-|[]]].
    + apply expense_seq_ahead0 in He. lia.
    + simpl. lia.
Qed.

Lemma preserves_insert_transaction (now : Timestamp) (vehicle_id : Z)
  (type : TransactionType) (amount : Money) (description : string)
  (transaction_date : Timestamp) :
  preserves (insert_transaction now vehicle_id type amount description
                                transaction_date).
Proof.
  intros st H. unfold insert_transaction. cbn [Transaction.id].
  destruct (negb (int4 vehicle_id)); [exact H|].
  destruct (negb (numeric_10_2 amount)); [exact H|].
  destruct (existsb _ (transactionsTable st));
    [now apply consistent_transaction_id_drawn|].
  destruct (vehicle_exists st vehicle_id) eqn:Hveh;
    [|now apply consistent_transaction_id_drawn].
  destruct H. cbn [negb snd]. constructor; cbn [vehiclesTable vendorsTable
    expensesTable transactionsTable expenses_id_seq transactions_id_seq];
    try assumption.
  - apply NoDup_map_app_fresh; [assumption|]. now apply seq_is_fresh.
  - intros t Ht. apply in_app_or in Ht. destruct Ht as [Ht|[<-|[]]];
      [now apply transaction_vehicle_fk0|exact Hveh].
  - intros t Ht. apply in_app_or in Ht. destruct Ht as [Ht|[<-|[]]].
    + apply transaction_seq_ahead0 in Ht. lia.
    + simpl. lia.
Qed.

Lemma map_id_update (set : Vehicle.t -> Vehicle.t) (cond : Vehicle.t -> bool)
  (rows : list Vehicle.t) :
  (forall v, Vehicle.id (set v) = Vehicle.id v) ->
  map Vehicle.id (map (fun v => if cond v then set v else v) rows)
  = map Vehicle.id rows.
Proof.
  intros Hid. rewrite map_map. apply map_ext. intros v.
  destruct (cond v); [apply Hid|reflexivity].
Qed.

Lemma existsb_by_ids {R : Type} (id_of : R -> Z) (rows rows' : list R) (id : Z) :
  map id_of rows' = map id_of rows ->
  existsb (fun r => id_of r =? id) rows'
  = existsb (fun r => id_of r =? id) rows.
Proof.
  intros E.
  assert (forall l, existsb (fun r => id_of r =? id) l
                    = existsb (fun x => x =? id) (map id_of l)) as Hmap.
  { induction l as [|a l IH]; simpl; [reflexivity|now rewrite IH]. }
  now rewrite !Hmap, E.
Qed.

(** Rewriting vehicle rows without touching their ids keeps the store
    consistent. *)
Lemma consistent_with_vehicles (st : Store) (rows : list Vehicle.t) :
  map Vehicle.id rows = map Vehicle.id (vehiclesTable st) ->
  consistent st -> consistent (with_vehicles st rows).
Proof.
  intros E H. destruct H.
  assert (forall id, vehicle_exists (with_vehicles st rows) id
                     = vehicle_exists st id) as Hex
    by (intros id; apply (existsb_by_ids Vehicle.id); exact E).
  constructor; cbn [with_vehicles vehiclesTable vendorsTable expensesTable
    transactionsTable expenses_id_seq transactions_id_seq]; try assumption.
  - now rewrite E.
  - intros e He. rewrite Hex. now apply expense_vehicle_fk0.
  - intros t Ht. rewrite Hex. now apply transaction_vehicle_fk0.
Qed.

Lemma preserves_update_vehicles (set : Vehicle.t -> Vehicle.t)
  (cond : Vehicle.t -> bool) :
  (forall v, Vehicle.id (set v) = Vehicle.id v) ->
  preserves (update_vehicles set cond).
Proof.
  intros Hid st H. unfold update_vehicles. cbn [snd].
  apply consistent_with_vehicles; [|assumption]. now apply map_id_update.
Qed.

Lemma preserves_update_vehicles_returning (now : Timestamp)
  (input : UpdateVehicleInput.t) (cond : Vehicle.t -> bool) :
  preserves (update_vehicles_returning now input cond).
Proof.
  intros st H. unfold update_vehicles_returning.
  destruct (negb (fits int4 _ && fits int4 _)); [exact H|].
  destruct (negb (fits _ _ && fits _ _)); [exact H|].
  cbn [snd]. apply consistent_with_vehicles; [|assumption].
  now apply map_id_update.
Qed.

Lemma preserves_update_expenses (uv : ExpenseUpdateValues)
  (cond : Expense.t -> bool) :
  preserves (update_expenses uv cond).
Proof.
  intros st H. unfold update_expenses.
  destruct (no_values uv); [exact H|].
  destruct (negb (fits (fits int4) (uv_vendor_id uv))); [exact H|].
  destruct (negb (fits numeric_10_2 (uv_amount uv))); [exact H|].
  destruct (forallb _ _) eqn:Hfk; [|exact H].
  rewrite forallb_forall in Hfk. destruct H. cbn [snd].
  set (f := fun e => if cond e then apply_expense_update uv e else e).
  assert (forall e, Expense.id (f e) = Expense.id e) as Hid
    by (intros e; unfold f; now destruct (cond e)).
  assert (forall e, Expense.vehicle_id (f e) = Expense.vehicle_id e) as Hvid
    by (intros e; unfold f; now destruct (cond e)).
  constructor; cbn [with_expenses vehiclesTable vendorsTable expensesTable
    transactionsTable expenses_id_seq transactions_id_seq]; try assumption.
  - rewrite map_map. rewrite (map_ext _ Expense.id) by exact Hid. assumption.
  - intros e' He'. apply in_map_iff in He'. destruct He' as [e [<- He]].
    rewrite Hvid. now apply expense_vehicle_fk0.
  - intros e' He'. apply in_map_iff in He'. destruct He' as [e [<- He]].
    unfold f. destruct (cond e) eqn:Hc; [|now apply expense_vendor_fk0].
    apply (Hfk (apply_expense_update uv e)).
    apply in_map. apply filter_In. now split.
  - intros e' He'. apply in_map_iff in He'. destruct He' as [e [<- He]].
    rewrite Hid. now apply expense_seq_ahead0.
Qed.

Lemma preserves_delete_expenses (cond : Expense.t -> bool) :
  preserves (delete_expenses cond).
Proof.
  intros st H. unfold delete_expenses. cbn [snd]. destruct H.
  constructor; cbn [with_expenses vehiclesTable vendorsTable expensesTable
    transactionsTable expenses_id_seq transactions_id_seq]; try assumption.
  - now apply NoDup_map_filter.
  - intros e He. apply filter_In in He. now apply expense_vehicle_fk0.
  - intros e He. apply filter_In in He. now apply expense_vendor_fk0.
  - intros e He. apply filter_In in He. now apply expense_seq_ahead0.
Qed.

Lemma preserves_delete_transactions (cond : Transaction.t -> bool) :
  preserves (delete_transactions cond).
Proof.
  intros st H. unfold delete_transactions. cbn [snd]. destruct H.
  constructor; cbn [with_transactions vehiclesTable vendorsTable expensesTable
    transactionsTable expenses_id_seq transactions_id_seq]; try assumption.
  - now apply NoDup_map_filter.
  - intros t Ht. apply filter_In in Ht. now apply transaction_vehicle_fk0.
  - intros t Ht. apply filter_In in Ht. now apply transaction_seq_ahead0.
Qed.

Lemma preserves_delete_vehicles (cond : Vehicle.t -> bool) :
  preserves (delete_vehicles cond).
Proof.
  intros st H. unfold delete_vehicles.
  destruct (existsb _ (filter cond (vehiclesTable st))) eqn:Href; [exact H|].
  cbn [snd]. destruct H.
  assert (forall id,
            vehicle_exists st id = true ->
            (existsb (fun e => Expense.vehicle_id e =? id) (expensesTable st)
             || existsb (fun t => Transaction.vehicle_id t =? id)
                        (transactionsTable st)) = true ->
            vehicle_exists
              (with_vehicles st (filter (fun v => negb (cond v))
                                        (vehiclesTable st))) id = true)
    as Hkeep.
  { intros id Hex Hused. unfold vehicle_exists in *.
    apply existsb_exists in Hex. destruct Hex as [v [Hv Hid]].
    apply existsb_exists. exists v. split; [|assumption].
    cbn [with_vehicles vehiclesTable]. apply filter_In. split; [assumption|].
    destruct (cond v) eqn:Hc; [|reflexivity]. exfalso.
    assert (existsb
              (fun v0 =>
                 existsb (fun e => Expense.vehicle_id e =? Vehicle.id v0)
                         (expensesTable st)
                 || existsb (fun t => Transaction.vehicle_id t =? Vehicle.id v0)
                            (transactionsTable st))
              (filter cond (vehiclesTable st)) = true) as Hyes.
    { apply existsb_exists. exists v. split; [now apply filter_In|].
      apply Z.eqb_eq in Hid. now rewrite Hid. }
    rewrite Hyes in Href. discriminate. }
  constructor; cbn [with_vehicles vehiclesTable vendorsTable expensesTable
    transactionsTable expenses_id_seq transactions_id_seq]; try assumption.
  - now apply NoDup_map_filter.
  - intros e He. apply Hkeep; [now apply expense_vehicle_fk0|].
    apply orb_true_iff. left. apply existsb_exists. exists e.
    split; [assumption|apply Z.eqb_refl].
  - intros t Ht. apply Hkeep; [now apply transaction_vehicle_fk0|].
    apply orb_true_iff. right. apply existsb_exists. exists t.
    split; [assumption|apply Z.eqb_refl].
Qed.

Lemma preserves_delete_vendors (cond : Vendor.t -> bool) :
  preserves (delete_vendors cond).
Proof.
  intros st H. unfold delete_vendors.
  destruct (existsb _ (filter cond (vendorsTable st))) eqn:Href; [exact H|].
  cbn [snd]. destruct H.
  constructor; cbn [with_vendors vehiclesTable vendorsTable expensesTable
    transactionsTable expenses_id_seq transactions_id_seq]; try assumption.
  - now apply NoDup_map_filter.
  - intros e He. specialize (expense_vendor_fk0 e He).
    unfold vendor_ref_ok, vendor_exists in *.
    destruct (Expense.vendor_id e) as [n|] eqn:Hn; [|reflexivity].
    apply existsb_exists in expense_vendor_fk0.
    destruct expense_vendor_fk0 as [v [Hv Hid]].
    apply existsb_exists. exists v. split; [|assumption].
    cbn [with_vendors vendorsTable]. apply filter_In. split; [assumption|].
    destruct (cond v) eqn:Hc; [|reflexivity]. exfalso.
    assert (existsb
              (fun v0 =>
                 existsb (fun e0 => match Expense.vendor_id e0 with
                                    | Some n0 => n0 =? Vendor.id v0
                                    | None => false
                                    end) (expensesTable st))
              (filter cond (vendorsTable st)) = true) as Hyes.
    { apply existsb_exists. exists v. split; [now apply filter_In|].
      apply existsb_exists. exists e. split; [assumption|].
      rewrite Hn. apply Z.eqb_eq in Hid. rewrite Hid. apply Z.eqb_refl. }
    rewrite Hyes in Href. discriminate.
Qed.

Ltac preserve :=
  repeat first
    [ apply preserves_ret | apply preserves_throw | apply preserves_select
    | apply preserves_first_row | apply preserves_count
    | apply preserves_insert_expense | apply preserves_insert_transaction
    | apply preserves_update_expenses | apply preserves_delete_expenses
    | apply preserves_delete_transactions | apply preserves_delete_vehicles
    | apply preserves_delete_vendors
    | apply preserves_update_vehicles; intros; reflexivity
    | apply preserves_update_vehicles_returning
    | apply preserves_bind; [|intros ?]
    | match goal with
      | |- preserves (if ?b then _ else _) => destruct b
      | |- preserves (match ?x with _ => _ end) => destruct x
      end ].

(** X3. Every handler that writes leaves a consistent store consistent,
    whatever its input and whether it succeeds or fails. *)
Theorem handlers_keep_the_store_consistent (now : Timestamp)
  (expense_input : CreateExpenseInput.t) (update_input : UpdateExpenseInput.t)
  (transaction_input : CreateTransactionInput.t)
  (vehicle_input : UpdateVehicleInput.t) (input : GetByIdInput) :
  preserves (createExpense now expense_input)
  /\ preserves (updateExpense update_input)
  /\ preserves (deleteExpense input)
  /\ preserves (createTransaction now transaction_input)
  /\ preserves (deleteTransaction now input)
  /\ preserves (updateVehicle now vehicle_input)
  /\ preserves (deleteVehicle input)
  /\ preserves (deleteVendor input).
Proof.
  split; [|split; [|split; [|split; [|split; [|split; [|split]]]]]].
  - unfold createExpense. preserve.
  - unfold updateExpense. preserve.
  - unfold deleteExpense. preserve.
  - unfold createTransaction. preserve.
  - unfold deleteTransaction. preserve.
  - unfold updateVehicle. preserve.
  - unfold deleteVehicle. preserve.
  - unfold deleteVendor. preserve.
Qed.

Lemma sample_lot_consistent : consistent Sample.lot.
Proof.
  constructor; simpl.
  - repeat constructor; simpl; intros H; repeat destruct H as [H|H];
      try discriminate; try contradiction.
  - repeat constructor; simpl; intros H; repeat destruct H as [H|H];
      try discriminate; try contradiction.
  - repeat constructor; simpl; intros H; repeat destruct H as [H|H];
      try discriminate; try contradiction.
  - constructor.
  - intros e [<-|[<-|[]]]; reflexivity.
  - intros e [<-|[<-|[]]]; reflexivity.
  - intros t [].
  - intros e [<-|[<-|[]]]; simpl; lia.
  - intros t [].
Qed.

Lemma handlers_keep_the_store_consistent_witness :
  consistent (snd (createTransaction Sample.feb_01 Sample.sale_of_camry
                                     Sample.lot))
  /\ consistent (snd (deleteVehicle {| gbi_id := 1 |} Sample.lot)).
Proof.
  split.
  - apply (handlers_keep_the_store_consistent
             Sample.feb_01 Sample.expense_for_vendor_zero
             Sample.update_to_vendor_zero Sample.sale_of_camry
             (UpdateVehicleInput.mk 1 None None None None None None None None
                                    None None)
             {| gbi_id := 1 |}).
    apply sample_lot_consistent.
  - apply (handlers_keep_the_store_consistent
             Sample.feb_01 Sample.expense_for_vendor_zero
             Sample.update_to_vendor_zero Sample.sale_of_camry
             (UpdateVehicleInput.mk 1 None None None None None None None None
                                    None None)
             {| gbi_id := 1 |}).
    apply sample_lot_consistent.
Defined.

(** ** Deleting a vehicle and its rows *)

Lemma filter_filter_same {A : Type} (p : A -> bool) (l : list A) :
  filter p (filter (fun x => negb (p x)) l) = [].
Proof.
  apply filter_none. intros x Hx. apply filter_In in Hx.
  destruct Hx as [_ Hx]. now apply negb_true_iff in Hx.
Qed.

Lemma existsb_filter_same {A : Type} (p : A -> bool) (l : list A) :
  existsb p (filter (fun x => negb (p x)) l) = false.
Proof.
  destruct (existsb p (filter _ l)) eqn:E; [|reflexivity].
  apply existsb_exists in E. destruct E as [x [Hx Hp]].
  apply filter_In in Hx. destruct Hx as [_ Hx]. rewrite Hp in Hx. discriminate.
Qed.

(** What [deleteVehicle] does for an id that has a row. *)
Lemma deleteVehicle_existing (st : Store) (v : Vehicle.t) :
  In v (vehiclesTable st) ->
  deleteVehicle {| gbi_id := Vehicle.id v |} st
  = (inr {| success := true |},
     mkStore
       (filter (fun x => negb (Vehicle.id x =? Vehicle.id v)) (vehiclesTable st))
       (vendorsTable st)
       (filter (fun e => negb (Expense.vehicle_id e =? Vehicle.id v))
               (expensesTable st))
       (filter (fun t => negb (Transaction.vehicle_id t =? Vehicle.id v))
               (transactionsTable st))
       (expenses_id_seq st) (transactions_id_seq st)).
Proof.
  intros Hv.
  destruct (select_from_present vehiclesTable Vehicle.id v st Hv)
    as [v' [rest Hsel]].
  unfold deleteVehicle, bind. cbn [gbi_id]. rewrite Hsel. cbn [is_empty].
  unfold delete_expenses, delete_transactions, delete_vehicles.
  cbn [with_expenses with_transactions with_vehicles vehiclesTable vendorsTable
       expensesTable transactionsTable expenses_id_seq transactions_id_seq].
  match goal with
  | |- context [existsb ?f (filter ?c (vehiclesTable st))] =>
      assert (existsb f (filter c (vehiclesTable st)) = false) as ->
  end; [|reflexivity].
  destruct (existsb _ (filter _ (vehiclesTable st))) eqn:E; [|reflexivity].
  apply existsb_exists in E. destruct E as [x [Hx Href]].
  apply filter_In in Hx. destruct Hx as [_ Hid]. apply Z.eqb_eq in Hid.
  rewrite Hid in Href.
  rewrite (existsb_filter_same
             (fun e => Expense.vehicle_id e =? Vehicle.id v)) in Href.
  rewrite (existsb_filter_same
             (fun t => Transaction.vehicle_id t =? Vehicle.id v)) in Href.
  discriminate.
Qed.

(** X5. [deleteVehicle] on an existing vehicle succeeds on every store and
    cascades: afterwards no vehicle, expense or transaction row carries the
    id, the listings of the vehicle are empty, and the rows of the other
    vehicles and all vendors are as before. *)
Theorem deleteVehicle_cascades (st : Store) (v : Vehicle.t) :
  In v (vehiclesTable st) ->
  exists st' : Store,
    deleteVehicle {| gbi_id := Vehicle.id v |} st
    = (inr {| success := true |}, st')
    /\ missing Vehicle.id (vehiclesTable st') (Vehicle.id v)
    /\ missing Expense.vehicle_id (expensesTable st') (Vehicle.id v)
    /\ missing Transaction.vehicle_id (transactionsTable st') (Vehicle.id v)
    /\ getVehicleById {| gbi_id := Vehicle.id v |} st' = (inr None, st')
    /\ getExpensesByVehicleId {| gbi_id := Vehicle.id v |} st' = (inr [], st')
    /\ getTransactionsByVehicleId {| gbi_id := Vehicle.id v |} st'
       = (inr [], st')
    /\ (forall x, In x (vehiclesTable st) -> Vehicle.id x <> Vehicle.id v ->
                  In x (vehiclesTable st'))
    /\ (forall e, In e (expensesTable st) ->
                  Expense.vehicle_id e <> Vehicle.id v ->
                  In e (expensesTable st'))
    /\ (forall t, In t (transactionsTable st) ->
                  Transaction.vehicle_id t <> Vehicle.id v ->
                  In t (transactionsTable st'))
    /\ vendorsTable st' = vendorsTable st.
Proof.
  intros Hv. rewrite (deleteVehicle_existing st v Hv). eexists.
  split; [reflexivity|].
  assert (forall {R : Type} (f : R -> Z) (rows : list R) (id : Z),
            missing f (filter (fun r => negb (f r =? id)) rows) id) as Hgone.
  { intros R f rows id r Hr E. apply filter_In in Hr. destruct Hr as [_ Hr].
    apply negb_true_iff, Z.eqb_neq in Hr. contradiction. }
  assert (forall {R : Type} (f : R -> Z) (rows : list R) (id : Z) (r : R),
            In r rows -> f r <> id ->
            In r (filter (fun r => negb (f r =? id)) rows)) as Hkept.
  { intros R f rows id r Hr Hne. apply filter_In. split; [assumption|].
    now apply negb_true_iff, Z.eqb_neq. }
  cbn [vehiclesTable vendorsTable expensesTable transactionsTable].
  split; [apply Hgone|]. split; [apply Hgone|]. split; [apply Hgone|].
  split.
  { unfold getVehicleById, bind, select_from. cbn [gbi_id vehiclesTable].
    now rewrite (select_missing Vehicle.id _ _ (Hgone _ Vehicle.id _ _)). }
  split.
  { unfold getExpensesByVehicleId, select_ordered. cbn [gbi_id expensesTable].
    now rewrite (select_missing Expense.vehicle_id _ _
                   (Hgone _ Expense.vehicle_id _ _)). }
  split.
  { unfold getTransactionsByVehicleId, select_ordered.
    cbn [gbi_id transactionsTable].
    now rewrite (select_missing Transaction.vehicle_id _ _
                   (Hgone _ Transaction.vehicle_id _ _)). }
  split; [intros x; apply Hkept|]. split; [intros e; apply Hkept|].
  split; [intros t; apply Hkept|reflexivity].
Qed.

Lemma deleteVehicle_cascades_witness :
  exists st' : Store,
    deleteVehicle {| gbi_id := 1 |} Sample.lot = (inr {| success := true |}, st')
    /\ expensesTable st' = []
    /\ vehiclesTable st' = [Sample.civic].
Proof.
  destruct (deleteVehicle_cascades Sample.lot Sample.camry) as [st' [E _]].
  - simpl. auto.
  - exists st'. split; [exact E|].
    simpl in E. inversion E. split; reflexivity.
Defined.

(** ** Deleting an unreferenced vendor *)

(** No expense of the store names the vendor. *)
Lemma count_expenses_of_vendor_zero (st : Store) (id : Z) :
  (forall e, In e (expensesTable st) -> Expense.vendor_id e <> Some id) ->
  count_expenses_of_vendor id st = (inr 0, st).
Proof.
  intros H. unfold count_expenses_of_vendor. rewrite filter_none; [reflexivity|].
  intros e He. destruct (Expense.vendor_id e) as [n|] eqn:E; [|reflexivity].
  apply Z.eqb_neq. intros ->. now apply (H e He).
Qed.

Lemma deleteVendor_unreferenced (st : Store) (vendor : Vendor.t) :
  In vendor (vendorsTable st) ->
  (forall e, In e (expensesTable st) ->
             Expense.vendor_id e <> Some (Vendor.id vendor)) ->
  deleteVendor {| gbi_id := Vendor.id vendor |} st
  = (inr {| success := true |},
     with_vendors st
       (filter (fun v => negb (Vendor.id v =? Vendor.id vendor))
               (vendorsTable st))).
Proof.
  intros Hvendor Hfree.
  destruct (select_from_present vendorsTable Vendor.id vendor st Hvendor)
    as [v' [rest Hsel]].
  unfold deleteVendor, bind. cbn [gbi_id]. rewrite Hsel. cbn [is_empty].
  rewrite (count_expenses_of_vendor_zero st _ Hfree).
  cbn [Z.gtb Z.compare]. unfold delete_vendors.
  match goal with
  | |- context [existsb ?f (filter ?c (vendorsTable st))] =>
      assert (existsb f (filter c (vendorsTable st)) = false) as ->
  end; [|reflexivity].
  destruct (existsb _ (filter _ (vendorsTable st))) eqn:E; [|reflexivity].
  apply existsb_exists in E. destruct E as [x [Hx Href]].
  apply filter_In in Hx. destruct Hx as [_ Hid]. apply Z.eqb_eq in Hid.
  apply existsb_exists in Href. destruct Href as [e [He Hn]].
  destruct (Expense.vendor_id e) as [n|] eqn:En; [|discriminate].
  apply Z.eqb_eq in Hn. exfalso. apply (Hfree e He). congruence.
Qed.

(** X6. [deleteVendor] on a vendor that no expense names succeeds: the rows
    with that id leave the vendors table, the other vendors stay, no other
    table changes, and [getVendorById] on the id then returns null. *)
Theorem deleteVendor_without_expenses (st : Store) (vendor : Vendor.t) :
  In vendor (vendorsTable st) ->
  (forall e, In e (expensesTable st) ->
             Expense.vendor_id e <> Some (Vendor.id vendor)) ->
  exists st' : Store,
    deleteVendor {| gbi_id := Vendor.id vendor |} st
    = (inr {| success := true |}, st')
    /\ missing Vendor.id (vendorsTable st') (Vendor.id vendor)
    /\ (forall w, In w (vendorsTable st) -> Vendor.id w <> Vendor.id vendor ->
                  In w (vendorsTable st'))
    /\ vehiclesTable st' = vehiclesTable st
    /\ expensesTable st' = expensesTable st
    /\ transactionsTable st' = transactionsTable st
    /\ getVendorById {| gbi_id := Vendor.id vendor |} st' = (inr None, st').
Proof.
  intros Hvendor Hfree.
  rewrite (deleteVendor_unreferenced st vendor Hvendor Hfree).
  eexists. split; [reflexivity|].
  cbn [with_vendors vehiclesTable vendorsTable expensesTable transactionsTable].
  split.
  { intros w Hw E. apply filter_In in Hw. destruct Hw as [_ Hw].
    apply negb_true_iff, Z.eqb_neq in Hw. contradiction. }
  split.
  { intros w Hw Hne. apply filter_In. split; [assumption|].
    now apply negb_true_iff, Z.eqb_neq. }
  repeat (split; [reflexivity|]).
  unfold getVendorById, bind, select_from. cbn [gbi_id with_vendors vendorsTable].
  now rewrite filter_filter_same.
Qed.

Lemma deleteVendor_without_expenses_witness :
  exists st' : Store,
    deleteVendor {| gbi_id := 1 |} (with_expenses Sample.lot [Sample.polish])
    = (inr {| success := true |}, st')
    /\ vendorsTable st' = [].
Proof.
  destruct (deleteVendor_without_expenses
              (with_expenses Sample.lot [Sample.polish]) Sample.garage)
    as [st' [E _]].
  - simpl. auto.
  - intros e [<-|[]]. discriminate.
  - exists st'. split; [exact E|]. simpl in E. now inversion E.
Defined.

(** ** Creating, updating and deleting an expense *)

Lemma exists_or_missing {R : Type} (id_of : R -> Z) (rows : list R) (id : Z) :
  (exists r, In r rows /\ id_of r = id) \/ missing id_of rows id.
Proof.
  destruct (existsb (fun r => id_of r =? id) rows) eqn:E.
  - left. apply existsb_exists in E. destruct E as [r [Hr Hid]].
    exists r. split; [assumption|now apply Z.eqb_eq].
  - right. intros r Hr Hid.
    assert (existsb (fun r => id_of r =? id) rows = true) as Hyes
      by (apply existsb_exists; exists r; split;
          [assumption|now apply Z.eqb_eq]).
    rewrite Hyes in E. discriminate.
Qed.





Lemma select_by_id_unique {R : Type} (id_of : R -> Z) (rows : list R) (r : R) :
  NoDup (map id_of rows) -> In r rows ->
  filter (fun x => id_of x =? id_of r) rows = [r].
Proof.
  intros Hnd Hr.
  rewrite (filter_ext _ (fun x => eqb (id_of r) (id_of x)))
    by (intros x; apply Z.eqb_sym).
  now apply filter_by_key.
Qed.

(** X8. [deleteExpense] on the id of an expense row returns [success = true],
    removes that row and keeps every other expense; [getExpenseById] on the
    id then returns null. *)
Theorem deleteExpense_removes_the_row (st : Store) (e : Expense.t) :
  In e (expensesTable st) ->
  exists st' : Store,
    deleteExpense {| gbi_id := Expense.id e |} st
    = (inr {| success := true |}, st')
    /\ missing Expense.id (expensesTable st') (Expense.id e)
    /\ (forall x, In x (expensesTable st) -> Expense.id x <> Expense.id e ->
                  In x (expensesTable st'))
    /\ (forall x, In x (expensesTable st') -> In x (expensesTable st))
    /\ vehiclesTable st' = vehiclesTable st
    /\ vendorsTable st' = vendorsTable st
    /\ transactionsTable st' = transactionsTable st
    /\ getExpenseById {| gbi_id := Expense.id e |} st' = (inr None, st').
Proof.
  intros He. destruct (select_present Expense.id _ e He) as [r' [rest Hsel]].
  unfold deleteExpense, delete_expenses, bind, ret. cbn [gbi_id].
  rewrite Hsel. cbn [is_empty negb]. eexists. split; [reflexivity|].
  cbn [with_expenses vehiclesTable vendorsTable expensesTable transactionsTable].
  split.
  { intros x Hx E. apply filter_In in Hx. destruct Hx as [_ Hx].
    apply negb_true_iff, Z.eqb_neq in Hx. contradiction. }
  split.
  { intros x Hx Hne. apply filter_In. split; [assumption|].
    now apply negb_true_iff, Z.eqb_neq. }
  split; [intros x Hx; now apply filter_In in Hx|].
  repeat (split; [reflexivity|]).
  unfold getExpenseById, bind, select_from.
  cbn [gbi_id with_expenses expensesTable].
  now rewrite filter_filter_same.
Qed.

Lemma deleteExpense_removes_the_row_witness :
  exists st' : Store,
    deleteExpense {| gbi_id := 1 |} Sample.lot = (inr {| success := true |}, st')
    /\ expensesTable st' = [Sample.polish].
Proof.
  destruct (deleteExpense_removes_the_row Sample.lot Sample.repair)
    as [st' [E _]].
  - simpl. auto.
  - exists st'. split; [exact E|]. simpl in E. now inversion E.
Defined.




(** ** Transactions that are not sales *)


(** What [deleteTransaction] does with the row it finds, for every type. *)
Lemma deleteTransaction_found (now : Timestamp) (id : Z) (st : Store)
  (t : Transaction.t) :
  find (fun x => Transaction.id x =? id) (transactionsTable st) = Some t ->
  deleteTransaction now {| gbi_id := id |} st
  = (inr {| success := true |},
     mkStore
       (if TransactionType_eqb (Transaction.type t) tt_sale
        then map (fun v => if Vehicle.id v =? Transaction.vehicle_id t
                           then revert_to_listed now v else v)
                 (vehiclesTable st)
        else vehiclesTable st)
       (vendorsTable st) (expensesTable st)
       (filter (fun x => negb (Transaction.id x =? id)) (transactionsTable st))
       (expenses_id_seq st) (transactions_id_seq st)).
Proof.
  intros Hfind. destruct (filter_head_find _ _ _ Hfind) as [rest Hsel].
  unfold deleteTransaction, bind, select_from. cbn [gbi_id]. rewrite Hsel.
  destruct (TransactionType_eqb (Transaction.type t) tt_sale); reflexivity.
Qed.



(** ** Updating a vehicle *)






(** ** The profit and loss of one vehicle *)

Lemma getVehicleProfitLoss_existing (st : Store) (v : Vehicle.t) :
  vehicle_ids_unique st -> In v (vehiclesTable st) ->
  getVehicleProfitLoss {| gbi_id := Vehicle.id v |} st
  = Some (profit_loss_of st v).
Proof.
  intros Hpk Hv. unfold getVehicleProfitLoss, vehicle_expense_join.
  cbn [gbi_id].
  rewrite (leftJoin_filter_fst _ (fun x => Vehicle.id x =? Vehicle.id v)).
  rewrite (select_by_id_unique Vehicle.id _ v Hpk Hv).
  change profit_loss_key with
    (fun row : Vehicle.t * option Expense.t =>
       vehicle_profit_loss_key (fst row)).
  rewrite groupBy_leftJoin by (simpl; repeat constructor; auto).
  cbn [map]. unfold profit_loss_select, vehicle_profit_loss_key, profit_loss_of.
  now rewrite joined_total.
Qed.

(** X13. Under the primary key of the vehicles table, [getVehicleProfitLoss] on
    the id of a vehicle returns the record that the unfiltered
    [getProfitLossReport] holds for that vehicle, and the sum of the
    amounts of [getExpensesByVehicleId] is its [total_expenses]. *)
Theorem vehicle_profit_loss_is_its_report_line (st : Store) (v : Vehicle.t) :
  vehicle_ids_unique st -> In v (vehiclesTable st) ->
  exists pl : ProfitLoss.t,
    getVehicleProfitLoss {| gbi_id := Vehicle.id v |} st = Some pl
    /\ In pl (getProfitLossReport None st)
    /\ ProfitLoss.vehicle_id pl = Vehicle.id v
    /\ (forall l, fst (getExpensesByVehicleId {| gbi_id := Vehicle.id v |} st)
                  = inr l ->
                  ProfitLoss.total_expenses pl = total (map Expense.amount l))
    /\ ProfitLoss.total_cost pl
       = Vehicle.acquisition_cost v + ProfitLoss.total_expenses pl.
Proof.
  intros Hpk Hv. exists (profit_loss_of st v).
  split; [now apply getVehicleProfitLoss_existing|].
  split.
  { rewrite (getProfitLossReport_rows None st Hpk). apply in_map.
    apply filter_In. split; [assumption|reflexivity]. }
  split; [reflexivity|]. split; [|reflexivity].
  intros l Hl. unfold getExpensesByVehicleId, select_ordered in Hl.
  cbn [fst gbi_id] in Hl. inversion Hl; subst; clear Hl.
  cbn [profit_loss_of to_profit_loss ProfitLoss.total_expenses
       plr_total_expenses].
  unfold expenses_total, expenses_of.
  assert (forall a b : list Z, Permutation a b -> total a = total b) as Hperm.
  { intros a b P. induction P; unfold total in *; simpl; lia. }
  apply Hperm. apply Permutation_map. symmetry. apply orderBy_desc_perm.
Qed.

Lemma vehicle_profit_loss_is_its_report_line_witness :
  exists pl : ProfitLoss.t,
    getVehicleProfitLoss {| gbi_id := 1 |} Sample.lot = Some pl
    /\ In pl (getProfitLossReport None Sample.lot).
Proof.
  destruct (vehicle_profit_loss_is_its_report_line Sample.lot Sample.camry)
    as [pl [E [Hin _]]].
  - apply (vehicle_pk _ sample_lot_consistent).
  - simpl. auto.
  - exists pl. auto.
Defined.



(** ** Vehicle details *)

(** X14. [getVehicleDetails] returns null for an id within the range of
    the id column that no vehicle row has. Under the primary key of the
    vehicles table the details of a
    vehicle hold its row, the expenses and transactions that carry its id,
    and the profit and loss record of [getVehicleProfitLoss], whose
    [total_expenses] is the sum of the listed expenses. *)
Theorem vehicle_details_are_consistent (id : Z) (st : Store) :
  (int4 id = true -> missing Vehicle.id (vehiclesTable st) id ->
   getVehicleDetails {| gbi_id := id |} st = None)
  /\ (forall v : Vehicle.t,
        vehicle_ids_unique st -> In v (vehiclesTable st) ->
        Vehicle.id v = id ->
        exists d : VehicleDetails.t,
          getVehicleDetails {| gbi_id := id |} st = Some d
          /\ VehicleDetails.vehicle d = v
          /\ (forall e, In e (VehicleDetails.expenses d)
                        <-> In e (expensesTable st)
                            /\ Expense.vehicle_id e = id)
          /\ (forall t, In t (VehicleDetails.transactions d)
                        <-> In t (transactionsTable st)
                            /\ Transaction.vehicle_id t = id)
          /\ getVehicleProfitLoss {| gbi_id := id |} st
             = Some (VehicleDetails.profit_loss d)
          /\ ProfitLoss.total_expenses (VehicleDetails.profit_loss d)
             = total (map Expense.amount (VehicleDetails.expenses d))).
Proof.
  split.
  - intros _ H. unfold getVehicleDetails. cbn [gbi_id].
    now rewrite (select_missing Vehicle.id _ id H).
  - intros v Hpk Hv <-. unfold getVehicleDetails. cbn [gbi_id].
    rewrite (select_by_id_unique Vehicle.id _ v Hpk Hv).
    rewrite (getVehicleProfitLoss_existing st v Hpk Hv).
    eexists. split; [reflexivity|].
    cbn [VehicleDetails.vehicle VehicleDetails.expenses
         VehicleDetails.transactions VehicleDetails.profit_loss].
    split; [reflexivity|].
    split; [intros e; rewrite filter_In, Z.eqb_eq; reflexivity|].
    split; [intros t; rewrite filter_In, Z.eqb_eq; reflexivity|].
    split; reflexivity.
Qed.

Lemma vehicle_details_are_consistent_witness :
  getVehicleDetails {| gbi_id := 999 |} Sample.lot = None
  /\ exists d : VehicleDetails.t,
       getVehicleDetails {| gbi_id := 1 |} Sample.lot = Some d
       /\ VehicleDetails.vehicle d = Sample.camry
       /\ ProfitLoss.total_expenses (VehicleDetails.profit_loss d) = 250000.
Proof.
  split.
  - apply (vehicle_details_are_consistent 999 Sample.lot).
    + reflexivity.
    + intros r [<-|[<-|[]]]; simpl; lia.
  - destruct (vehicle_details_are_consistent 1 Sample.lot) as [_ H].
    destruct (H Sample.camry) as [d [E [Hv [_ [_ [_ Htotal]]]]]].
    + apply (vehicle_pk _ sample_lot_consistent).
    + simpl. auto.
    + reflexivity.
    + exists d. split; [exact E|]. split; [exact Hv|].
      rewrite Htotal. simpl in E. inversion E. reflexivity.
Defined.

(** ** Handlers whose checks make the constraints of the store hold *)

Lemma deleteVendor_referenced (st : Store) (vendor : Vendor.t)
  (expense : Expense.t) :
  In vendor (vendorsTable st) ->
  In expense (expensesTable st) ->
  Expense.vendor_id expense = Some (Vendor.id vendor) ->
  exists message,
    deleteVendor {| gbi_id := Vendor.id vendor |} st
    = (inl (Conflict message), st).
Proof.
  intros Hvendor Hexpense Href.
  destruct (select_from_present vendorsTable Vendor.id vendor st Hvendor)
    as [v' [rest Hsel]].
  destruct (count_expenses_of_vendor_pos st expense _ Hexpense Href)
    as [n [Hcount Hpos]].
  unfold deleteVendor, bind. cbn [gbi_id]. rewrite Hsel. cbn [is_empty].
  rewrite Hcount.
  assert ((n >? 0) = true) as -> by (apply Z.gtb_lt; lia).
  eexists. reflexivity.
Qed.

(** X4. On a consistent store and for an id within the range of the id
    columns, the handlers that delete never end in an error of the
    database: [deleteVehicle] removes the expenses and transactions of the
    vehicle first and [deleteVendor] refuses a vendor that an expense
    names, so that no reference is left behind. *)
Theorem deleting_handlers_never_fail_in_the_store (now : Timestamp)
  (input : GetByIdInput) (st : Store) :
  consistent st ->
  int4 (gbi_id input) = true ->
  no_store_error (deleteExpense input) st
  /\ no_store_error (deleteTransaction now input) st
  /\ no_store_error (deleteVehicle input) st
  /\ no_store_error (deleteVendor input) st.
Proof.
  intros Hc _. destruct input as [id].
  split; [|split; [|split]]; intros message.
  - unfold deleteExpense, delete_expenses, bind, ret. cbn [fst]. discriminate.
  - destruct (exists_or_missing Transaction.id (transactionsTable st) id)
      as [[t [Ht Hid]]|Hmiss].
    + pose proof (find_of_unique Transaction.id _ t (transaction_pk st Hc) Ht)
        as Hfind. rewrite Hid in Hfind.
      rewrite (deleteTransaction_found now id st t Hfind). discriminate.
    + unfold deleteTransaction, bind. cbn [gbi_id].
      rewrite (select_from_missing transactionsTable Transaction.id id st Hmiss).
      discriminate.
  - destruct (exists_or_missing Vehicle.id (vehiclesTable st) id)
      as [[v [Hv Hid]]|Hmiss].
    + rewrite <- Hid, (deleteVehicle_existing st v Hv). discriminate.
    + unfold deleteVehicle, bind. cbn [gbi_id].
      rewrite (select_from_missing vehiclesTable Vehicle.id id st Hmiss).
      discriminate.
  - destruct (exists_or_missing Vendor.id (vendorsTable st) id)
      as [[w [Hw Hid]]|Hmiss].
    + destruct (existsb (fun e => match Expense.vendor_id e with
                                  | Some n => n =? id
                                  | None => false
                                  end) (expensesTable st)) eqn:Hused.
      * apply existsb_exists in Hused. destruct Hused as [e [He Hn]].
        destruct (Expense.vendor_id e) as [n|] eqn:En; [|discriminate].
        apply Z.eqb_eq in Hn. subst n. rewrite <- Hid in En.
        destruct (deleteVendor_referenced st w e Hw He En) as [m H].
        rewrite <- Hid, H. discriminate.
      * rewrite <- Hid, (deleteVendor_unreferenced st w Hw); [discriminate|].
        intros e He En.
        assert (existsb (fun e => match Expense.vendor_id e with
                                  | Some n => n =? id
                                  | None => false
                                  end) (expensesTable st) = true) as Hyes.
        { apply existsb_exists. exists e. split; [assumption|].
          rewrite En, Hid. apply Z.eqb_refl. }
        rewrite Hyes in Hused. discriminate.
    + unfold deleteVendor, bind. cbn [gbi_id].
      rewrite (select_from_missing vendorsTable Vendor.id id st Hmiss).
      discriminate.
Qed.

Lemma deleting_handlers_never_fail_in_the_store_witness :
  consistent Sample.lot
  /\ no_store_error (deleteVehicle {| gbi_id := 1 |}) Sample.lot
  /\ no_store_error (deleteVendor {| gbi_id := 1 |}) Sample.lot.
Proof.
  split; [apply sample_lot_consistent|].
  destruct (deleting_handlers_never_fail_in_the_store
              Sample.feb_15 {| gbi_id := 1 |} Sample.lot
              sample_lot_consistent eq_refl)
    as [_ [_ [Hvehicle Hvendor]]].
  split; [exact Hvehicle|exact Hvendor].
Defined.

(** ** CSV exports of the profit and loss report and of inventory aging *)

Lemma fold_left_append_in {A : Type} (f : string -> A -> string)
  (g : A -> string) (l : list A) (init : string) :
  (forall a csv, In a l -> f csv a = (csv ++ g a)%string) ->
  fold_left f l init = (init ++ lines (map g l))%string.
Proof.
  revert init. induction l as [|a l IH]; intros init H; simpl.
  - now rewrite append_nil_r.
  - rewrite H by now left. rewrite IH by (intros; apply H; now right).
    now rewrite append_assoc.
Qed.

Lemma vehicleMap_get_unique (vehicles : list Vehicle.t) (v : Vehicle.t) :
  NoDup (map Vehicle.id vehicles) -> In v vehicles ->
  vehicleMap_get vehicles (Vehicle.id v) = Some v.
Proof.
  intros Hnd Hv. unfold vehicleMap_get. apply (find_of_unique Vehicle.id).
  - rewrite map_rev. now apply NoDup_rev.
  - now apply in_rev in Hv.
Qed.

(** The export loop writes one line per record of the report, in the
    order of the report. *)
Lemma exportProfitLossToCSV_rows (filters : option FinancialReportFilters.t)
  (st : Store) :
  vehicle_ids_unique st ->
  exportProfitLossToCSV filters st
  = (profit_loss_header
     ++ lines (map (profit_loss_line st)
                   (filter (passes_filters filters) (vehiclesTable st))))%string.
Proof.
  intros Hpk. unfold exportProfitLossToCSV.
  rewrite (getProfitLossReport_rows filters st Hpk).
  set (sel := filter (passes_filters filters) (vehiclesTable st)).
  destruct (is_empty (map ProfitLoss.vehicle_id (map (profit_loss_of st) sel)))
    eqn:Hempty.
  - destruct sel; [|discriminate].
    cbn [map lines fold_right]. now rewrite append_nil_r.
  - set (vehicles := filter _ (vehiclesTable st)).
    rewrite (fold_left_append_in _
               (fun pl =>
                  match vehicleMap_get vehicles (ProfitLoss.vehicle_id pl) with
                  | Some vehicle =>
                      (profit_loss_row pl vehicle ++ newline)%string
                  | None => EmptyString
                  end)).
    + f_equal. rewrite map_map. f_equal. apply map_ext_in. intros v Hv.
      cbn [profit_loss_of to_profit_loss ProfitLoss.vehicle_id plr_vehicle_id].
      assert (In v vehicles) as Hin.
      { unfold vehicles. apply filter_In. unfold sel in Hv.
        apply filter_In in Hv. split; [tauto|].
        apply existsb_exists. exists (Vehicle.id v). split; [|apply Z.eqb_refl].
        rewrite map_map. apply in_map_iff. exists v. split; [reflexivity|].
        unfold sel. now apply filter_In. }
      rewrite (vehicleMap_get_unique vehicles v); [|now apply NoDup_map_filter
                                                   |exact Hin].
      unfold profit_loss_row, profit_loss_line, profit_loss_of, to_profit_loss.
      cbn [join_comma ProfitLoss.vehicle_id ProfitLoss.acquisition_cost
           ProfitLoss.total_expenses ProfitLoss.sale_price
           ProfitLoss.profit_loss plr_vehicle_id plr_acquisition_cost
           plr_sale_price plr_total_expenses].
      now rewrite !append_assoc.
    + intros pl csv Hpl.
      destruct (vehicleMap_get vehicles (ProfitLoss.vehicle_id pl));
        [reflexivity|now rewrite append_nil_r].
Qed.

(** X15. Under the primary key of the vehicles table, and when no vehicle
    that passes the filters was sold for exactly its total cost,
    [exportProfitLossToCSV] is the header line followed by one line per
    vehicle that passes the filters, in some order: the id, the quoted VIN,
    make and model, the acquisition cost and the expenses with two
    decimals, then the sale price and the profit, each empty when null.
    Without a vehicle that passes, the export is the header line alone. *)
Theorem exportProfitLossToCSV_lines (filters : option FinancialReportFilters.t)
  (st : Store) :
  vehicle_ids_unique st ->
  (forall (v : Vehicle.t) (p : Money),
     In v (vehiclesTable st) -> passes_filters filters v = true ->
     Vehicle.sale_price v = Some p -> p <> 0 ->
     p <> Vehicle.acquisition_cost v + expenses_total st (Vehicle.id v)) ->
  (exists l : list Vehicle.t,
     Permutation l (filter (passes_filters filters) (vehiclesTable st))
     /\ exportProfitLossToCSV filters st
        = (profit_loss_header ++ lines (map (profit_loss_line st) l))%string)
  /\ (filter (passes_filters filters) (vehiclesTable st) = [] ->
      exportProfitLossToCSV filters st = profit_loss_header).
Proof.
  intros Hpk _. split.
  - exists (filter (passes_filters filters) (vehiclesTable st)).
    split; [apply Permutation_refl|].
    now apply exportProfitLossToCSV_rows.
  - intros Hnone. rewrite (exportProfitLossToCSV_rows filters st Hpk), Hnone.
    cbn [map lines fold_right]. apply append_nil_r.
Qed.

Lemma exportProfitLossToCSV_lines_witness :
  exists l : list Vehicle.t,
    Permutation l [Sample.accord]
    /\ exportProfitLossToCSV None Sample.sold_tomorrow
       = (profit_loss_header
          ++ lines (map (profit_loss_line Sample.sold_tomorrow) l))%string.
Proof.
  destruct (exportProfitLossToCSV_lines None Sample.sold_tomorrow)
    as [[l [Hperm E]] _].
  - unfold vehicle_ids_unique. simpl. repeat constructor. simpl. tauto.
  - intros v p [<-|[]] _ [= <-] _. vm_compute. discriminate.
  - exists l. split; [exact Hperm|exact E].
Defined.

(** The export loop writes one line per record of the aging report, in
    the order of the report. *)
Lemma exportInventoryAgingToCSV_rows (now : Timestamp) (st : Store) :
  vehicle_ids_unique st ->
  exportInventoryAgingToCSV now st
  = (inventory_aging_header
     ++ lines (map (aging_line now st)
                   (filter is_listed (vehiclesTable st))))%string.
Proof.
  intros Hpk. unfold exportInventoryAgingToCSV.
  rewrite (getInventoryAging_rows now st Hpk).
  rewrite (fold_left_append
             (fun item => (inventory_aging_row item ++ newline)%string)).
  f_equal. rewrite map_map. unfold lines. f_equal. apply map_ext_in.
  intros v Hv. apply filter_In in Hv. destruct Hv as [_ Hlisted].
  unfold is_listed in Hlisted.
  unfold inventory_aging_row, aging_line, aging_of.
  cbn [join_comma InventoryAging.vehicle_id InventoryAging.vin
       InventoryAging.make InventoryAging.model InventoryAging.year
       InventoryAging.status InventoryAging.days_in_inventory
       InventoryAging.total_cost].
  destruct (Vehicle.status v); try discriminate.
  cbn [VehicleStatus_text]. now rewrite !append_assoc.
Qed.

(** X16. Under the primary key of the vehicles table,
    [exportInventoryAgingToCSV] is the header line followed by one line per
    listed vehicle, in some order: the id, the quoted VIN, make and model,
    the year, the status, always "listed", the truncated days in inventory
    and the total cost with two decimals. *)
Theorem exportInventoryAgingToCSV_lines (now : Timestamp) (st : Store) :
  vehicle_ids_unique st ->
  exists l : list Vehicle.t,
    Permutation l (filter is_listed (vehiclesTable st))
    /\ exportInventoryAgingToCSV now st
       = (inventory_aging_header ++ lines (map (aging_line now st) l))%string.
Proof.
  intros Hpk. exists (filter is_listed (vehiclesTable st)).
  split; [apply Permutation_refl|].
  now apply exportInventoryAgingToCSV_rows.
Qed.

Lemma exportInventoryAgingToCSV_lines_witness :
  exportInventoryAgingToCSV Sample.feb_15 Sample.lot
  = (inventory_aging_header
     ++ "1," ++ quoted "VIN001" ++ "," ++ quoted "Toyota" ++ ","
     ++ quoted "Camry" ++ ",2020," ++ quoted "listed" ++ ",45,17500.00"
     ++ newline)%string.
Proof.
  destruct (exportInventoryAgingToCSV_lines Sample.feb_15 Sample.lot)
    as [l [Hperm E]].
  - apply (vehicle_pk _ sample_lot_consistent).
  - rewrite E. vm_compute in Hperm.
    apply Permutation_sym, Permutation_length_1_inv in Hperm. subst l.
    vm_compute. reflexivity.
Defined.

(** ** The expense breakdown *)

Lemma breakdown_of_rows {R : Type} (expense : R -> Expense.t) (rows : list R) :
  map to_breakdown
      (map (breakdown_select expense)
           (groupBy (fun r => Expense.expense_type (expense r)) rows))
  = breakdown_of (map expense rows).
Proof.
  unfold groupBy, breakdown_of. rewrite !map_map.
  apply map_ext. intros t. unfold to_breakdown, breakdown_select, of_type.
  cbn [br_expense_type br_total_amount br_count].
  rewrite (coalesce_sum (fun r => Expense.amount (expense r))).
  unfold COUNT. rewrite (non_null_some (fun r => Expense.id (expense r))).
  rewrite filter_map_swap, !map_map, !length_map. reflexivity.
Qed.

Lemma find_missing {R : Type} (id_of : R -> Z) (rows : list R) (id : Z) :
  missing id_of rows id -> find (fun r => id_of r =? id) rows = None.
Proof.
  intros H. destruct (find _ rows) as [r|] eqn:E; [|reflexivity].
  apply find_some in E. destruct E as [Hr E]. apply Z.eqb_eq in E.
  now apply H in Hr.
Qed.

(** Under the primary key of the vehicles table an expense joins its one
    vehicle, if it has one. *)
Lemma expenses_of_join (dp : Expense.t -> bool) (vp : Vehicle.t -> bool)
  (st : Store) :
  vehicle_ids_unique st ->
  map fst (filter (fun r : Expense.t * Vehicle.t => dp (fst r) && vp (snd r))
                  (expense_vehicle_join st))
  = filter (fun e => dp e
                     && match find_vehicle st (Expense.vehicle_id e) with
                        | Some v => vp v
                        | None => false
                        end) (expensesTable st).
Proof.
  intros Hpk. unfold expense_vehicle_join, innerJoin, find_vehicle.
  induction (expensesTable st) as [|e es IH]; [reflexivity|].
  cbn [flat_map filter]. rewrite filter_app, map_app, IH. clear IH.
  destruct (exists_or_missing Vehicle.id (vehiclesTable st)
              (Expense.vehicle_id e)) as [[v [Hv Hid]]|Hmiss].
  - rewrite (filter_ext (fun x => Expense.vehicle_id e =? Vehicle.id x)
                        (fun x => Vehicle.id x =? Vehicle.id v))
      by (intros x; rewrite Hid; apply Z.eqb_sym).
    rewrite (select_by_id_unique Vehicle.id _ v Hpk Hv).
    rewrite <- Hid, (find_of_unique Vehicle.id _ v Hpk Hv).
    cbn [map filter fst snd]. now destruct (dp e && vp v).
  - rewrite (filter_ext (fun x => Expense.vehicle_id e =? Vehicle.id x)
                        (fun x => Vehicle.id x =? Expense.vehicle_id e))
      by (intros x; apply Z.eqb_sym).
    rewrite (select_missing Vehicle.id _ _ Hmiss).
    rewrite (find_missing Vehicle.id _ _ Hmiss).
    cbn [map filter]. now rewrite andb_false_r.
Qed.

Lemma joined_breakdown (conditions : list (Expense.t * Vehicle.t -> bool))
  (dp : Expense.t -> bool) (vp : Vehicle.t -> bool) (st : Store) :
  vehicle_ids_unique st ->
  (forall r, forallb (fun c => c r) conditions = dp (fst r) && vp (snd r)) ->
  map to_breakdown
      (map (breakdown_select fst)
           (groupBy (fun r : Expense.t * Vehicle.t =>
                       Expense.expense_type (fst r))
                    (where_ conditions (expense_vehicle_join st))))
  = breakdown_of
      (filter (fun e => dp e
                        && match find_vehicle st (Expense.vehicle_id e) with
                           | Some v => vp v
                           | None => false
                           end) (expensesTable st)).
Proof.
  intros Hpk Hcond. rewrite where_forallb.
  rewrite (filter_ext _ _ Hcond).
  rewrite (breakdown_of_rows fst). now rewrite expenses_of_join.
Qed.

Lemma unjoined_breakdown (conditions : list (Expense.t -> bool))
  (dp : Expense.t -> bool) (st : Store) :
  (forall e, forallb (fun c => c e) conditions = dp e) ->
  map to_breakdown
      (map (breakdown_select (fun e => e))
           (groupBy Expense.expense_type (where_ conditions (expensesTable st))))
  = breakdown_of (filter dp (expensesTable st)).
Proof.
  intros Hcond. rewrite where_forallb. rewrite (filter_ext _ _ Hcond).
  rewrite (breakdown_of_rows (fun e => e)). now rewrite map_id.
Qed.

(** The breakdown is the grouping of the selected expenses. *)
Lemma getExpenseBreakdown_rows (filters : option FinancialReportFilters.t)
  (st : Store) :
  vehicle_ids_unique st ->
  getExpenseBreakdown filters st
  = breakdown_of (selected_expenses filters st).
Proof.
  intros Hpk. unfold getExpenseBreakdown, selected_expenses.
  fold to_breakdown.
  destruct filters as [[start_date end_date status make model]|].
  - unfold needs_join, dates_pass, vehicle_passes.
    cbn [field FinancialReportFilters.start_date
         FinancialReportFilters.end_date FinancialReportFilters.status
         FinancialReportFilters.make FinancialReportFilters.model].
    destruct start_date, end_date, status, make as [[|c make]|],
      model as [[|c' model]|];
      cbn [truthy_opt truthy_status truthy_date truthy_string push_condition
           orb app map];
      first [ apply (joined_breakdown _ _ _ st Hpk); intros r;
              cbn [forallb holds_joined]; btauto
            | apply unjoined_breakdown; intros e;
              cbn [forallb holds_unjoined]; btauto ].
  - cbn [field truthy_opt push_condition orb map].
    apply unjoined_breakdown. reflexivity.
Qed.

Section Groups.

Context {K : Type} `{EqbLaws K}.

Lemma distinct_complete (keys : list K) (k : K) :
  In k keys -> In k (distinct keys).
Proof.
  induction keys as [|x keys IH]; simpl; [auto|].
  intros [->|Hin]; [now left|].
  destruct (eqb x k) eqn:E; [apply eqb_eq in E; now left|].
  right. apply filter_In. split; [now apply IH|]. now rewrite E.
Qed.

Lemma NoDup_distinct (keys : list K) : NoDup (distinct keys).
Proof.
  induction keys as [|x keys IH]; simpl; constructor.
  - intros Hin. apply filter_In in Hin. destruct Hin as [_ Hne].
    now rewrite eqb_refl_key in Hne.
  - now apply NoDup_filter.
Qed.

Lemma one_hot_total (keys : list K) (k : K) (a : Z) :
  NoDup keys -> In k keys ->
  total (map (fun x => if eqb x k then a else 0) keys) = a.
Proof.
  induction keys as [|x keys IH]; simpl; intros Hnd Hin; [destruct Hin|].
  inversion Hnd as [|? ? Hnotin Hnd']; subst. unfold total in *. simpl.
  destruct Hin as [->|Hin].
  - rewrite eqb_refl_key.
    assert (fold_right Z.add 0
              (map (fun x => if eqb x k then a else 0) keys) = 0) as ->; [|lia].
    clear IH Hnd Hnd'. induction keys as [|y keys IH]; simpl; [reflexivity|].
    destruct (eqb y k) eqn:E.
    + apply eqb_eq in E. subst y. exfalso. apply Hnotin. now left.
    + rewrite IH; [reflexivity|]. intros Hin. apply Hnotin. now right.
  - destruct (eqb x k) eqn:E.
    + apply eqb_eq in E. subst x. contradiction.
    + now rewrite IH.
Qed.

(** Summing group by group is summing over all rows. *)
Lemma total_by_groups {R : Type} (key : R -> K) (f : R -> Z)
  (keys : list K) (rows : list R) :
  NoDup keys -> (forall r, In r rows -> In (key r) keys) ->
  total (map (fun k => total (map f (filter (fun r => eqb k (key r)) rows)))
             keys)
  = total (map f rows).
Proof.
  intros Hnd. induction rows as [|r rows IH]; intros Hin.
  - simpl. induction keys as [|k keys IHk]; [reflexivity|].
    inversion Hnd; subst. unfold total in *. simpl. now rewrite IHk.
  - rewrite (map_ext _
               (fun k => (if eqb k (key r) then f r else 0)
                         + total (map f (filter (fun r => eqb k (key r)) rows)))).
    + rewrite total_map_add, one_hot_total, IH;
        [reflexivity| |assumption|].
      * intros r' Hr'. apply Hin. now right.
      * apply Hin. now left.
    + intros k. simpl. destruct (eqb k (key r)); reflexivity.
Qed.

End Groups.

Lemma total_ones {A : Type} (l : list A) :
  total (map (fun _ => 1) l) = Z.of_nat (List.length l).
Proof.
  unfold total. induction l as [|a l IH]; [reflexivity|].
  cbn [map fold_right List.length]. rewrite IH. lia.
Qed.

(** X17. Under the primary key of the vehicles table, [getExpenseBreakdown]
    groups the selected expenses (those whose expense date passes the date
    filters and, when a status, make or model filter is in force, whose
    vehicle passes it): its records are, in some order, one record per
    type that occurs; every type with a selected expense has exactly one
    record, with the sum and the number of its selected expenses, and a type
    without one has no record. *)
Theorem breakdown_has_one_record_per_type
  (filters : option FinancialReportFilters.t) (st : Store) :
  vehicle_ids_unique st ->
  Permutation (getExpenseBreakdown filters st)
              (breakdown_of (selected_expenses filters st))
  /\ NoDup (map ExpenseBreakdown.expense_type (getExpenseBreakdown filters st))
  /\ (forall r : ExpenseBreakdown.t,
        In r (getExpenseBreakdown filters st) ->
        1 <= ExpenseBreakdown.count r
        /\ ExpenseBreakdown.count r
           = Z.of_nat (List.length
                         (of_type (ExpenseBreakdown.expense_type r)
                                  (selected_expenses filters st)))
        /\ ExpenseBreakdown.total_amount r
           = total (map Expense.amount
                        (of_type (ExpenseBreakdown.expense_type r)
                                 (selected_expenses filters st))))
  /\ (forall e : Expense.t,
        In e (selected_expenses filters st) ->
        exists r : ExpenseBreakdown.t,
          In r (getExpenseBreakdown filters st)
          /\ ExpenseBreakdown.expense_type r = Expense.expense_type e).
Proof.
  intros Hpk. rewrite (getExpenseBreakdown_rows filters st Hpk).
  set (sel := selected_expenses filters st).
  split; [apply Permutation_refl|]. unfold breakdown_of. split; [|split].
  - rewrite map_map. cbn [ExpenseBreakdown.expense_type]. rewrite map_id.
    apply NoDup_distinct.
  - intros r Hr. apply in_map_iff in Hr. destruct Hr as [t [<- Ht]].
    cbn [ExpenseBreakdown.count ExpenseBreakdown.total_amount
         ExpenseBreakdown.expense_type].
    split; [|split; reflexivity].
    apply distinct_incl, in_map_iff in Ht. destruct Ht as [e [<- He]].
    assert (In e (of_type (Expense.expense_type e) sel)) as Hin.
    { apply filter_In. split; [assumption|].
      now destruct (Expense.expense_type e). }
    destruct (of_type (Expense.expense_type e) sel); [destruct Hin|].
    cbn [List.length]. lia.
  - intros e He. eexists. split.
    + apply in_map. apply distinct_complete. apply in_map. exact He.
    + reflexivity.
Qed.

Lemma breakdown_has_one_record_per_type_witness :
  Permutation
    (getExpenseBreakdown Sample.since_february Sample.lot)
    (breakdown_of (selected_expenses Sample.since_february Sample.lot))
  /\ NoDup (map ExpenseBreakdown.expense_type
                (getExpenseBreakdown Sample.since_february Sample.lot)).
Proof.
  destruct (breakdown_has_one_record_per_type Sample.since_february Sample.lot)
    as [E [Hnd _]].
  - apply (vehicle_pk _ sample_lot_consistent).
  - split; assumption.
Defined.

(** X18. The breakdown loses and doubles nothing: under the primary key of the
    vehicles table its amounts add up to the amounts of the selected
    expenses and its counts to their number; without filters these are all
    expenses of the store. *)
Theorem breakdown_totals_are_conserved
  (filters : option FinancialReportFilters.t) (st : Store) :
  vehicle_ids_unique st ->
  total (map ExpenseBreakdown.total_amount (getExpenseBreakdown filters st))
  = total (map Expense.amount (selected_expenses filters st))
  /\ total (map ExpenseBreakdown.count (getExpenseBreakdown filters st))
     = Z.of_nat (List.length (selected_expenses filters st))
  /\ selected_expenses None st = expensesTable st.
Proof.
  intros Hpk. rewrite (getExpenseBreakdown_rows filters st Hpk).
  set (sel := selected_expenses filters st).
  unfold breakdown_of, of_type. rewrite !map_map.
  cbn [ExpenseBreakdown.total_amount ExpenseBreakdown.count].
  assert (forall e, In e sel ->
                    In (Expense.expense_type e)
                       (distinct (map Expense.expense_type sel))) as Hkeys
    by (intros e He; apply distinct_complete; now apply in_map).
  split; [|split].
  - exact (total_by_groups (K := ExpenseType) Expense.expense_type
             Expense.amount (distinct (map Expense.expense_type sel)) sel
             (NoDup_distinct _) Hkeys).
  - rewrite <- total_ones.
    rewrite (map_ext _
               (fun t => total (map (fun _ : Expense.t => 1)
                                    (filter (fun e => ExpenseType_eqb t
                                               (Expense.expense_type e)) sel))))
      by (intros t; now rewrite total_ones).
    exact (total_by_groups (K := ExpenseType) Expense.expense_type
             (fun _ => 1) (distinct (map Expense.expense_type sel)) sel
             (NoDup_distinct _) Hkeys).
  - unfold selected_expenses. apply filter_all. reflexivity.
Qed.

Lemma breakdown_totals_are_conserved_witness :
  total (map ExpenseBreakdown.total_amount (getExpenseBreakdown None Sample.lot))
  = 250000.
Proof.
  destruct (breakdown_totals_are_conserved None Sample.lot) as [E [_ Hall]].
  - apply (vehicle_pk _ sample_lot_consistent).
  - rewrite E, Hall. reflexivity.
Defined.

(** ** More dashboard figures *)

(** X19. The inventory count of the dashboard is the sum of its parts: the
    vehicles with status [acquired], those in reconditioning and those
    listed; sold and archived vehicles are in none of the three counts. *)
Theorem dashboard_inventory_is_the_sum_of_its_statuses
  (now : Timestamp) (st : Store) :
  let kpis := getDashboardKpis now st in
  DashboardKpi.total_inventory kpis
  = Z.of_nat (List.length
                (filter (fun v => VehicleStatus_eqb (Vehicle.status v) acquired)
                        (vehiclesTable st)))
    + DashboardKpi.vehicles_in_reconditioning kpis
    + DashboardKpi.vehicles_listed kpis
  /\ DashboardKpi.vehicles_in_reconditioning kpis
     <= DashboardKpi.total_inventory kpis
  /\ DashboardKpi.vehicles_listed kpis <= DashboardKpi.total_inventory kpis.
Proof.
  cbv zeta. unfold getDashboardKpis.
  cbn [DashboardKpi.total_inventory DashboardKpi.vehicles_in_reconditioning
       DashboardKpi.vehicles_listed].
  unfold count_rows.
  assert (Z.of_nat (List.length (filter in_inventory (vehiclesTable st)))
          = Z.of_nat (List.length
                        (filter (fun v => VehicleStatus_eqb (Vehicle.status v)
                                            acquired) (vehiclesTable st)))
            + Z.of_nat (List.length
                          (filter (fun v => VehicleStatus_eqb (Vehicle.status v)
                                              reconditioning)
                                  (vehiclesTable st)))
            + Z.of_nat (List.length
                          (filter (fun v => VehicleStatus_eqb (Vehicle.status v)
                                              listed) (vehiclesTable st))))
    as Hsum.
  { induction (vehiclesTable st) as [|v vs IH]; [reflexivity|].
    cbn [filter]. unfold in_inventory at 1.
    destruct (Vehicle.status v); cbn [VehicleStatus_eqb negb andb List.length];
      lia. }
  lia.
Qed.

(** X20. Under the primary key of the vehicles table the dashboard and the
    aging report agree on the listed vehicles: [vehicles_listed] is the
    number of records of [getInventoryAging]. *)
Theorem dashboard_listed_count_is_the_aging_report_length
  (now : Timestamp) (st : Store) :
  vehicle_ids_unique st ->
  DashboardKpi.vehicles_listed (getDashboardKpis now st)
  = Z.of_nat (List.length (getInventoryAging now st)).
Proof.
  intros Hpk. rewrite (getInventoryAging_rows now st Hpk), length_map.
  unfold getDashboardKpis. cbn [DashboardKpi.vehicles_listed].
  unfold count_rows. reflexivity.
Qed.

Lemma dashboard_listed_count_is_the_aging_report_length_witness :
  DashboardKpi.vehicles_listed (getDashboardKpis Sample.feb_15 Sample.lot)
  = Z.of_nat (List.length (getInventoryAging Sample.feb_15 Sample.lot)).
Proof.
  apply (dashboard_listed_count_is_the_aging_report_length
           Sample.feb_15 Sample.lot).
  apply (vehicle_pk _ sample_lot_consistent).
Defined.

Lemma profit_loop_total (st : Store) (vehicles : list Vehicle.t) :
  profit_loop st vehicles
  = total (map (fun v =>
                  match Vehicle.sale_price v with
                  | Some p => p - Vehicle.acquisition_cost v
                              - expenses_total st (Vehicle.id v)
                  | None => 0
                  end) vehicles).
Proof.
  unfold profit_loop.
  assert (forall acc,
            fold_left
              (fun total_profit_this_month vehicle =>
                 match Vehicle.sale_price vehicle with
                 | Some salePrice =>
                     total_profit_this_month
                     + (salePrice - Vehicle.acquisition_cost vehicle
                        - COALESCE
                            (SUM (map (fun e => Some (Expense.amount e))
                                      (filter (fun e => Expense.vehicle_id e
                                                        =? Vehicle.id vehicle)
                                              (expensesTable st)))) 0)
                 | None => total_profit_this_month
                 end) vehicles acc
            = acc + total (map (fun v =>
                                  match Vehicle.sale_price v with
                                  | Some p => p - Vehicle.acquisition_cost v
                                              - expenses_total st (Vehicle.id v)
                                  | None => 0
                                  end) vehicles)) as H.
  { induction vehicles as [|v vs IH]; intros acc; cbn [fold_left map].
    - unfold total. cbn [fold_right]. lia.
    - rewrite IH.
      match goal with
      | |- context [total (?x :: ?l)] =>
          change (total (x :: l)) with (x + total l)
      end.
      destruct (Vehicle.sale_price v) as [p|].
      * rewrite (coalesce_sum Expense.amount).
        unfold expenses_total, expenses_of, Money. lia.
      * unfold Money. lia. }
  apply H.
Qed.

(** X21. [total_profit_this_month] is the sum, over the sold vehicles dated from
    the first of the month that have a sale price, of the sale price less
    the acquisition cost and the expenses of the vehicle. A sale price of 0
    counts with the full cost as a loss, and without such a vehicle the
    profit is 0. *)
Theorem dashboard_profit_is_the_sum_of_the_sales
  (now : Timestamp) (st : Store) :
  DashboardKpi.total_profit_this_month (getDashboardKpis now st)
  = total (map (fun v =>
                  match ProfitLoss.profit_loss (spec_profit_loss_of st v) with
                  | Some profit => profit
                  | None => 0
                  end) (sold_from_first_of_month now st))
  /\ (sold_from_first_of_month now st = [] ->
      DashboardKpi.total_profit_this_month (getDashboardKpis now st) = 0).
Proof.
  assert (DashboardKpi.total_profit_this_month (getDashboardKpis now st)
          = total (map (fun v =>
                          match ProfitLoss.profit_loss (spec_profit_loss_of st v)
                          with
                          | Some profit => profit
                          | None => 0
                          end) (sold_from_first_of_month now st))) as E.
  { unfold getDashboardKpis. cbn [DashboardKpi.total_profit_this_month].
    rewrite profit_loop_total. unfold sold_from_first_of_month.
    rewrite (filter_ext _ _ (sold_since_spec now)). f_equal.
    apply map_ext. intros v. unfold spec_profit_loss_of.
    cbn [ProfitLoss.profit_loss]. destruct (Vehicle.sale_price v); lia. }
  split; [exact E|]. intros Hnone. rewrite E, Hnone. reflexivity.
Qed.

Lemma dashboard_profit_is_the_sum_of_the_sales_witness :
  DashboardKpi.total_profit_this_month (getDashboardKpis Sample.feb_15 Sample.lot)
  = 0.
Proof.
  apply (dashboard_profit_is_the_sum_of_the_sales Sample.feb_15 Sample.lot).
  reflexivity.
Defined.

(** X22. [avg_days_to_sale] is null exactly when no vehicle with status [sold]
    has a sale date; otherwise it is the sum of the whole days from
    acquisition to sale of those vehicles over their number. *)
Theorem dashboard_average_is_null_without_dated_sales
  (now : Timestamp) (st : Store) :
  let dated :=
    non_null (map (fun v => option_map
                              (fun sale_date =>
                                 Z.quot (sale_date - Vehicle.acquisition_date v)
                                        86400000)
                              (Vehicle.sale_date v))
                  (filter (fun v => VehicleStatus_eqb (Vehicle.status v) sold)
                          (vehiclesTable st))) in
  (DashboardKpi.avg_days_to_sale (getDashboardKpis now st) = None
   <-> forall v, In v (vehiclesTable st) -> Vehicle.status v = sold ->
                 Vehicle.sale_date v = None)
  /\ (dated <> [] ->
      DashboardKpi.avg_days_to_sale (getDashboardKpis now st)
      = Some (Qmake (total dated) (Pos.of_nat (List.length dated)))).
Proof.
  cbv zeta. unfold getDashboardKpis. cbn [DashboardKpi.avg_days_to_sale].
  unfold AVG, extract_day. change JsDate.ms_per_day with 86400000.
  set (sold_vehicles := filter _ (vehiclesTable st)).
  assert (forall v, In v sold_vehicles
                    <-> In v (vehiclesTable st) /\ Vehicle.status v = sold)
    as Hsold.
  { intros v. unfold sold_vehicles. rewrite filter_In.
    destruct (Vehicle.status v); simpl; split; intros [? ?]; split;
      congruence. }
  clearbody sold_vehicles. split.
  - split.
    + intros Hnull v Hv Hs.
      assert (In v sold_vehicles) as Hin by (apply Hsold; auto).
      clear Hsold. induction sold_vehicles as [|x xs IH]; [destruct Hin|].
      cbn [map non_null flat_map] in Hnull.
      destruct (Vehicle.sale_date x) eqn:Ex; cbn [option_map app] in Hnull;
        [discriminate|].
      destruct Hin as [->|Hin]; [exact Ex|]. now apply IH.
    + intros Hall.
      assert (forall v, In v sold_vehicles -> Vehicle.sale_date v = None) as H
        by (intros v Hv; apply Hsold in Hv; destruct Hv; now apply Hall).
      clear Hsold Hall. induction sold_vehicles as [|x xs IH]; [reflexivity|].
      cbn [map non_null flat_map]. rewrite (H x) by now left.
      cbn [option_map app]. apply IH. intros v Hv. apply H. now right.
  - intros Hdated. destruct (non_null _); [congruence|reflexivity].
Qed.

Lemma dashboard_average_is_null_without_dated_sales_witness :
  DashboardKpi.avg_days_to_sale (getDashboardKpis Sample.feb_15 Sample.lot)
  = None.
Proof.
  apply (dashboard_average_is_null_without_dated_sales Sample.feb_15 Sample.lot).
  intros v [<-|[<-|[]]]; discriminate.
Defined.

(** ** Creating vehicles and vendors *)











(** ** The profit and loss report, vehicle by vehicle *)

(** X26. Under the primary key of the vehicles table, [getProfitLossReport]
    returns one record per vehicle that passes the filters in force (a make
    or model filter that is the empty text is not in force), in some order.
    The record has the expenses of the vehicle as [total_expenses], the
    acquisition cost plus these as [total_cost], the sale price of the
    vehicle, and [is_sold] exactly when there is a sale price; its
    [profit_loss] is the sale price less the total cost when the sale price
    is not 0, and null when it is null or 0. *)
Theorem profit_loss_report_lists_the_passing_vehicles
  (filters : option FinancialReportFilters.t) (st : Store) :
  vehicle_ids_unique st ->
  Permutation
    (map ProfitLoss.vehicle_id (getProfitLossReport filters st))
    (map Vehicle.id (filter (passes_filters filters) (vehiclesTable st)))
  /\ (forall pl : ProfitLoss.t,
        In pl (getProfitLossReport filters st) ->
        exists v : Vehicle.t,
          In v (vehiclesTable st)
          /\ passes_filters filters v = true
          /\ ProfitLoss.vehicle_id pl = Vehicle.id v
          /\ ProfitLoss.acquisition_cost pl = Vehicle.acquisition_cost v
          /\ ProfitLoss.total_expenses pl = expenses_total st (Vehicle.id v)
          /\ ProfitLoss.total_cost pl
             = Vehicle.acquisition_cost v + expenses_total st (Vehicle.id v)
          /\ ProfitLoss.sale_price pl = Vehicle.sale_price v
          /\ (ProfitLoss.is_sold pl = true <-> Vehicle.sale_price v <> None)
          /\ ProfitLoss.profit_loss pl
             = match Vehicle.sale_price v with
               | Some p =>
                   if p =? 0 then None
                   else Some (p - (Vehicle.acquisition_cost v
                                   + expenses_total st (Vehicle.id v)))
               | None => None
               end).
Proof.
  intros Hpk. rewrite (getProfitLossReport_rows filters st Hpk). split.
  - rewrite map_map. apply Permutation_refl.
  - intros pl Hpl. apply in_map_iff in Hpl. destruct Hpl as [v [<- Hv]].
    apply filter_In in Hv. destruct Hv as [Hv Hpass]. exists v.
    unfold profit_loss_of, to_profit_loss.
    cbn [ProfitLoss.vehicle_id ProfitLoss.acquisition_cost
         ProfitLoss.total_expenses ProfitLoss.total_cost ProfitLoss.sale_price
         ProfitLoss.is_sold ProfitLoss.profit_loss plr_vehicle_id
         plr_acquisition_cost plr_sale_price plr_total_expenses].
    repeat (split; [first [assumption|reflexivity]|]).
    split.
    + destruct (Vehicle.sale_price v); split; congruence.
    + destruct (Vehicle.sale_price v) as [p|]; [|reflexivity].
      unfold truthy_number. now destruct (p =? 0).
Qed.

Lemma profit_loss_report_lists_the_passing_vehicles_witness :
  Permutation
    (map ProfitLoss.vehicle_id (getProfitLossReport None Sample.lot)) [1; 2].
Proof.
  destruct (profit_loss_report_lists_the_passing_vehicles None Sample.lot)
    as [E _].
  - apply (vehicle_pk _ sample_lot_consistent).
  - exact E.
Defined.

Lemma export_formats_the_breakdown_without_dates_witness :
  exportExpenseBreakdownToCSV
    (Some (FinancialReportFilters.mk None None None (Some "Toyota") None))
    Sample.lot
  = format_breakdown
      (getExpenseBreakdown
         (Some (FinancialReportFilters.mk None None None (Some "Toyota") None))
         Sample.lot).
Proof.
  apply export_formats_the_breakdown_without_dates; reflexivity.
Defined.


(** ** Updating a vendor *)






(** ** Listing the vendors *)

(** The order of texts by character codes is transitive. *)
Lemma string_leb_trans (a b c : string) :
  String.leb a b = true -> String.leb b c = true -> String.leb a c = true.
Proof.
  unfold String.leb. revert b c.
  induction a as [|x a IH]; intros [|y b] [|z c]; simpl; try congruence.
  unfold Ascii.compare.
  destruct (N.compare_spec (N_of_ascii x) (N_of_ascii y)) as [Exy|Lxy|Gxy];
    destruct (N.compare_spec (N_of_ascii y) (N_of_ascii z)) as [Eyz|Lyz|Gyz];
    try congruence.
  - rewrite Exy, Eyz, N.compare_refl. apply IH.
  - rewrite Exy. apply N.compare_lt_iff in Lyz. now rewrite Lyz.
  - rewrite <- Eyz. apply N.compare_lt_iff in Lxy. now rewrite Lxy.
  - assert (N_of_ascii x < N_of_ascii z)%N as L by lia.
    apply N.compare_lt_iff in L. now rewrite L.
Qed.

Section Collation.

Variable leb : string -> string -> bool.
Hypothesis leb_total : forall a b, leb a b = true \/ leb b a = true.
Hypothesis leb_trans :
  forall a b c, leb a b = true -> leb b c = true -> leb a c = true.

Lemma insert_asc_perm {R : Type} (key : R -> string) (r : R) (l : list R) :
  Permutation (insert_asc leb key r l) (r :: l).
Proof.
  induction l as [|x l IH]; simpl; [reflexivity|].
  destruct (leb (key r) (key x)); [reflexivity|].
  rewrite IH. apply perm_swap.
Qed.

Lemma orderBy_asc_perm {R : Type} (key : R -> string) (l : list R) :
  Permutation (orderBy_asc leb key l) l.
Proof.
  induction l as [|x l IH]; simpl; [reflexivity|].
  rewrite insert_asc_perm. now constructor.
Qed.

Lemma insert_asc_sorted {R : Type} (key : R -> string) (r : R) (l : list R) :
  StronglySorted (fun a b => leb (key a) (key b) = true) l ->
  StronglySorted (fun a b => leb (key a) (key b) = true)
                 (insert_asc leb key r l).
Proof.
  induction l as [|x l IH]; simpl; intros Hs.
  - repeat constructor.
  - inversion Hs as [|? ? Hs' Hall]; subst.
    destruct (leb (key r) (key x)) eqn:Hle.
    + constructor; [assumption|]. constructor; [assumption|].
      eapply Forall_impl; [|exact Hall]. simpl. intros a Ha.
      now apply (leb_trans _ (key x)).
    + constructor; [now apply IH|].
      apply (Permutation_Forall (Permutation_sym (insert_asc_perm key r l))).
      constructor; [|assumption].
      destruct (leb_total (key r) (key x)) as [H|H]; [congruence|exact H].
Qed.

Lemma orderBy_asc_sorted {R : Type} (key : R -> string) (l : list R) :
  StronglySorted (fun a b => leb (key a) (key b) = true)
                 (orderBy_asc leb key l).
Proof.
  induction l as [|x l IH]; simpl; [constructor|].
  now apply insert_asc_sorted.
Qed.

(** X29. Whatever total and transitive order of texts the database sorts
    by, [getVendors] returns every vendor of the store, each once, with the
    names in ascending order, and leaves the store alone. *)
Theorem getVendors_lists_every_vendor_by_name (st : Store) :
  exists l : list Vendor.t,
    getVendors leb st = (inr l, st)
    /\ Permutation l (vendorsTable st)
    /\ StronglySorted
         (fun a b => leb (Vendor.name a) (Vendor.name b) = true) l.
Proof.
  exists (orderBy_asc leb Vendor.name (vendorsTable st)).
  split; [reflexivity|]. split.
  - apply orderBy_asc_perm.
  - apply orderBy_asc_sorted.
Qed.

End Collation.

Lemma getVendors_lists_every_vendor_by_name_witness :
  exists l : list Vendor.t,
    getVendors String.leb suppliers = (inr l, suppliers)
    /\ Permutation l (vendorsTable suppliers)
    /\ StronglySorted
         (fun a b => String.leb (Vendor.name a) (Vendor.name b) = true) l.
Proof.
  apply (getVendors_lists_every_vendor_by_name String.leb).
  - apply String.leb_total.
  - apply string_leb_trans.
Defined.
